(** * bundle.py: the Windows packaging script, embedded and verified

    The script queries cargo for its metadata, optionally downloads a GTK
    release, assembles a bundle directory, builds the application and zips
    the bundle.  The embedding below follows [src/bundle.py] function by
    function.  Values decoded from JSON are dynamically typed Python
    values; effects (dict objects, the file system, spawned processes,
    HTTP requests, console output) are threaded through an explicit world
    by a small state-and-exception monad. *)

From stdpp Require Import gmap strings list fin_maps pretty.
From Stdlib Require Import ZArith Ascii.
From Stdlib Require String.

Open Scope Z_scope.
Set Warnings "-register-all".

(** ** Characters that cannot be written inside a literal *)

Definition chr (n : nat) : string := String (ascii_of_nat n) EmptyString.
Definition dq : string := chr 34.
Definition nl : string := chr 10.
Definition tab : string := chr 9.

(** ** Python values as produced by [json.loads] *)

(** A float is kept symbolically; only its truth value is ever observed. *)
Inductive pyfloat :=
  | FNan
  | FInf (negative : bool)
  | FFinite (negative : bool) (mantissa : N) (exponent : Z).

(** A dict is an association list in insertion order with unique keys, as
    [json.loads] builds it; lookup returns the binding of the key. *)
Inductive pyval :=
  | PNone
  | PBool (b : bool)
  | PInt (n : Z)
  | PFloat (f : pyfloat)
  | PStr (s : string)
  | PList (l : list pyval)
  | PDict (d : list (string * pyval)).

(** ** Exceptions and outcomes *)

Abbreviation path := (list string).

Inductive exn :=
  | KeyError (key : string)
  | TypeError (what : string)
  | IndexError
  | ValueError (msg : string)
  | AssertionError
  | CalledProcessError (returncode : Z)
  | JSONDecodeError
  | UnicodeDecodeError
  | FileNotFoundError (p : path)
  | FileExistsError (p : path)
  | PermissionError (p : path)
  | SameFileError (p : path)
  | ConnectionError
  | BadZipFile.

(** How a Python computation ends: with a value, with a propagating
    exception or with [sys.exit(code)]. *)
Inductive outcome (A : Type) :=
  | Returned (a : A)
  | Raised (e : exn)
  | Exited (code : Z).
Arguments Returned {A} a.
Arguments Raised {A} e.
Arguments Exited {A} code.

Definition obind {A B} (o : outcome A) (k : A -> outcome B) : outcome B :=
  match o with
  | Returned a => k a
  | Raised e => Raised e
  | Exited c => Exited c
  end.

Notation "'let?' x ':=' e 'in' k" := (obind e (fun x => k))
  (at level 10, x name, e at level 100, k at level 200).

(** ** Operations on Python values *)

Fixpoint assoc (k : string) (d : list (string * pyval)) : option pyval :=
  match d with
  | [] => None
  | (k', v) :: rest => if String.eqb k k' then Some v else assoc k rest
  end.

(** [o[key]] for a string key. *)
Definition getitem (o : pyval) (key : string) : outcome pyval :=
  match o with
  | PDict d =>
      match assoc key d with
      | Some v => Returned v
      | None => Raised (KeyError key)
      end
  | PList _ => Raised (TypeError "list indices must be integers or slices, not str")
  | PStr _ => Raised (TypeError "string indices must be integers, not 'str'")
  | _ => Raised (TypeError "object is not subscriptable")
  end.

(** [o[0]]. *)
Definition getitem0 (o : pyval) : outcome pyval :=
  match o with
  | PList (x :: _) => Returned x
  | PList [] => Raised IndexError
  | PStr (String c _) => Returned (PStr (String c EmptyString))
  | PStr EmptyString => Raised IndexError
  | PDict _ => Raised (KeyError "0")
  | _ => Raised (TypeError "object is not subscriptable")
  end.

(** [len(o)]. *)
Definition py_len (o : pyval) : outcome Z :=
  match o with
  | PList l => Returned (Z.of_nat (List.length l))
  | PDict d => Returned (Z.of_nat (List.length d))
  | PStr s => Returned (Z.of_nat (String.length s))
  | _ => Raised (TypeError "object has no len()")
  end.

Definition float_truthy (f : pyfloat) : bool :=
  match f with
  | FFinite _ 0%N _ => false
  | _ => true
  end.

(** Truth value testing, as [not o] and [if o] use it. *)
Definition truthy (o : pyval) : bool :=
  match o with
  | PNone => false
  | PBool b => b
  | PInt n => negb (n =? 0)
  | PFloat f => float_truthy f
  | PStr s => negb (String.eqb s "")
  | PList l => match l with [] => false | _ => true end
  | PDict d => match d with [] => false | _ => true end
  end.

Definition is_none (o : pyval) : bool :=
  match o with PNone => true | _ => false end.

Definition isinstance_str (o : pyval) : bool :=
  match o with PStr _ => true | _ => false end.

Definition isinstance_list (o : pyval) : bool :=
  match o with PList _ => true | _ => false end.

(** [o == s] and [o != s] against a string literal. *)
Definition eq_str (o : pyval) (s : string) : bool :=
  match o with PStr t => String.eqb t s | _ => false end.

Definition ne_str (o : pyval) (s : string) : bool := negb (eq_str o s).

(** ** [get_cargo_metadata]: the decoding of the metadata document *)

Record CargoMetadata := {
  target_directory : string;
  package_name : string;
}.

Definition msg_no_target_directory : string :=
  "The returned json object didn't define a " +:+ dq +:+ "target_directory" +:+ dq +:+ " property".
Definition msg_no_packages : string :=
  "The returned json object didn't define a " +:+ dq +:+ "packages" +:+ dq +:+ " property".
Definition msg_no_name : string :=
  "The package didn't define a " +:+ dq +:+ "name" +:+ dq +:+ " property".

(** Lines 91 to 114 of [get_cargo_metadata], on the decoded document.
    Every subscript of the source is evaluated where the source has it; the
    last case of the final [match] cannot occur, both values having been
    tested to be strings. *)
Definition cargo_metadata_of (metadata : pyval) : outcome CargoMetadata :=
  let? td := getitem metadata "target_directory" in
  if is_none td then Raised (ValueError msg_no_target_directory) else
  let? td := getitem metadata "target_directory" in
  if negb (isinstance_str td) then Raised (ValueError "target_directory is not a string") else
  let? target_dir := getitem metadata "target_directory" in
  let? pk := getitem metadata "packages" in
  if negb (truthy pk) then Raised (ValueError msg_no_packages) else
  let? pk := getitem metadata "packages" in
  if negb (isinstance_list pk) then Raised (ValueError "packages is not a list") else
  let? pk := getitem metadata "packages" in
  let? n := py_len pk in
  if negb (n =? 1) then Raised (ValueError "packages is not a list of length 1") else
  let? pk := getitem metadata "packages" in
  let? p0 := getitem0 pk in
  let? nm := getitem p0 "name" in
  if is_none nm then Raised (ValueError msg_no_name) else
  let? pk := getitem metadata "packages" in
  let? p0 := getitem0 pk in
  let? nm := getitem p0 "name" in
  if negb (isinstance_str nm) then Raised (ValueError "name is not a string") else
  let? pk := getitem metadata "packages" in
  let? p0 := getitem0 pk in
  let? package_name := getitem p0 "name" in
  match target_dir, package_name with
  | PStr t, PStr n => Returned {| target_directory := t; package_name := n |}
  | _, _ => Raised (TypeError "CargoMetadata fields are strings")
  end.

(** ** Strings *)

Definition lower_ascii (c : ascii) : ascii :=
  let n := nat_of_ascii c in
  if ((65 <=? n) && (n <=? 90))%nat then ascii_of_nat (n + 32) else c.

Fixpoint lower (s : string) : string :=
  match s with
  | EmptyString => EmptyString
  | String c rest => String (lower_ascii c) (lower rest)
  end.

(** [needle in hay]. *)
Fixpoint contains (needle hay : string) : bool :=
  String.prefix needle hay ||
  match hay with
  | EmptyString => false
  | String _ rest => contains needle rest
  end.

Definition rev_string (s : string) : string :=
  String.string_of_list_ascii (List.rev (String.list_ascii_of_string s)).

(** [s.endswith(suffix)]. *)
Definition endswith (s suffix : string) : bool :=
  String.prefix (rev_string suffix) (rev_string s).

(** [s[:-1]]. *)
Definition drop_last (s : string) : string :=
  String.string_of_list_ascii (removelast (String.list_ascii_of_string s)).

(** ** Paths

    A path is the list of its components, outermost first, the drive
    being the first one.  The script only ever builds absolute paths: from
    the absolute directory cargo reports, from a literal absolute path and
    from its own location. *)

Definition is_sep (c : ascii) : bool :=
  Ascii.eqb c "/"%char || Ascii.eqb c "\"%char.

Fixpoint split_path (s cur : string) : list string :=
  match s with
  | EmptyString => [cur]
  | String c rest =>
      if is_sep c then cur :: split_path rest ""
      else split_path rest (cur +:+ String c "")
  end.

(** [Path(s)]: separators of both kinds split, empty and [.] components
    are dropped. *)
Definition Path (s : string) : path :=
  List.filter (fun c => negb (String.eqb c "") && negb (String.eqb c "."))
              (split_path s "").

(** [str(p)], with the Windows separator. *)
Definition str (p : path) : string := String.concat "\" p.

(** [p.joinpath(s)] for a relative [s], the only use the script makes. *)
Definition joinpath (p : path) (s : string) : path := p ++ Path s.

Fixpoint collapse (todo : list string) (done : list string) : list string :=
  match todo with
  | [] => List.rev done
  | c :: rest =>
      if String.eqb c ".." then collapse rest (List.tl done)
      else collapse rest (c :: done)
  end.

(** [p.resolve()] on an absolute path without symbolic links: [..]
    removes the component before it and never climbs above the drive. *)
Definition resolve (p : path) : path :=
  match p with
  | [] => []
  | drive :: rest => drive :: collapse rest []
  end.

(** [p.name]. *)
Definition name (p : path) : string := List.last p "".

(** [p.parent]. *)
Definition parent (p : path) : path := removelast p.

Fixpoint rfind_dot (s : string) (i : nat) (found : option nat) : option nat :=
  match s with
  | EmptyString => found
  | String c rest =>
      rfind_dot rest (S i) (if Ascii.eqb c "."%char then Some i else found)
  end.

(** The stem of a file name: the name without its last suffix, where a
    leading or a trailing dot starts no suffix. *)
Definition stem (nm : string) : string :=
  match rfind_dot nm 0 None with
  | Some i =>
      if ((0 <? i) && (i <? String.length nm - 1))%nat
      then String.substring 0 i nm else nm
  | None => nm
  end.

(** [p.with_suffix(suffix)]. *)
Definition with_suffix (p : path) (suffix : string) : path :=
  parent p ++ [stem (name p) +:+ suffix].

(** ** The world the script runs in *)

(** An entry of the disk.  A file carries its read-only attribute: a
    [ReadOnlyFile] can be read and copied but not opened for writing. *)
Inductive node :=
  | File (content : string)
  | Dir
  | ReadOnlyFile (content : string).

(** What [subprocess.run] hands back: the exit status and the captured
    standard output. *)
Record proc_result := {
  returncode : Z;
  stdout : string;
}.

(** What [requests.get] hands back; [body] is what [response.json()]
    gives. *)
Record response := {
  status_code : Z;
  body : exn + pyval;
}.

(** The effects of a run that an observer outside the process can see, in
    the order they happen. *)
Inductive event :=
  | Print (line : string)
  | Spawn (argv : list string) (cwd : option path) (env : gmap string string)
  | HttpGet (url : string)
  | UrlOpen (url : string)
  | ExtractAll (dest : path)
  | MakeArchive (base_name : string) (root_dir : path).

(** Dict objects live in a store and are handled by reference, so that a
    copy and the dict it was copied from are told apart.  [os.environ] is
    the object at [os_environ]. *)
Record World := {
  dicts : gmap nat (gmap string string);
  fs : gmap path node;
  log : list event;
}.

Definition os_environ : nat := 0%nat.

Definition with_dicts (d : gmap nat (gmap string string)) (w : World) : World :=
  {| dicts := d; fs := fs w; log := log w |}.
Definition with_fs (f : gmap path node) (w : World) : World :=
  {| dicts := dicts w; fs := f; log := log w |}.
Definition emit (e : event) (w : World) : World :=
  {| dicts := dicts w; fs := fs w; log := log w ++ [e] |}.

(** Everything outside the script: the programs it spawns, the network,
    and the library codecs whose results it only passes along. *)
Record Externals := {
  script_dir : path;
  run_process :
    list string -> option path -> gmap string string -> gmap path node ->
    (exn + proc_result) * gmap path node;
  decode_utf8 : string -> exn + string;
  splitlines : string -> list string;
  json_loads : string -> exn + pyval;
  json_dumps : pyval -> string;
  py_repr : pyval -> string;
  requests_get : string -> exn + response;
  urlopen_read : string -> exn + string;
  zip_members : string -> exn + list (path * node);
  zip_bytes : list (path * node) -> string;
}.

(** ** The monad: state threading with exceptions and [exit] *)

Definition prog (A : Type) : Type := World -> outcome A * World.

Definition ret {A} (a : A) : prog A := fun w => (Returned a, w).

Definition bind {A B} (m : prog A) (k : A -> prog B) : prog B :=
  fun w =>
    match m w with
    | (Returned a, w') => k a w'
    | (Raised e, w') => (Raised e, w')
    | (Exited c, w') => (Exited c, w')
    end.

Definition raise {A} (e : exn) : prog A := fun w => (Raised e, w).
Definition exit {A} (code : Z) : prog A := fun w => (Exited code, w).
Definition lift {A} (o : outcome A) : prog A := fun w => (o, w).

Definition of_sum {A} (r : exn + A) : outcome A :=
  match r with
  | inl e => Raised e
  | inr a => Returned a
  end.

(** [try: m except: handler; raise]: a bare [except] also catches
    [SystemExit]; the handler receives the re-raising continuation. *)
Definition try_except {A} (m : prog A) (handler : prog A -> prog A) : prog A :=
  fun w =>
    match m w with
    | (Returned a, w') => (Returned a, w')
    | (Raised e, w') => handler (raise e) w'
    | (Exited c, w') => handler (exit c) w'
    end.

Notation "'let*' x ':=' e 'in' k" := (bind e (fun x => k))
  (at level 10, x name, e at level 100, k at level 200).
Notation "e1 ;; e2" := (bind e1 (fun _ => e2))
  (at level 100, e2 at level 200, right associativity).

Definition print (line : string) : prog unit :=
  fun w => (Returned tt, emit (Print line) w).

(** [str(o)]: a string is itself, anything else is rendered by the
    interpreter. *)
Definition py_str (X : Externals) (o : pyval) : string :=
  match o with
  | PStr s => s
  | _ => py_repr X o
  end.

(** *** Dict objects *)

(** [d.copy()]: a new object with the same items. *)
Definition dict_copy (r : nat) : prog nat :=
  fun w =>
    match dicts w !! r with
    | Some d =>
        let r' := fresh (dom (dicts w)) in
        (Returned r', with_dicts (<[r' := d]> (dicts w)) w)
    | None => (Raised (TypeError "no such object"), w)
    end.

(** [d[key]]. *)
Definition dict_get (r : nat) (key : string) : prog string :=
  fun w =>
    match dicts w !! r with
    | Some d =>
        match d !! key with
        | Some v => (Returned v, w)
        | None => (Raised (KeyError key), w)
        end
    | None => (Raised (TypeError "no such object"), w)
    end.

(** [d[key] = value]. *)
Definition dict_set (r : nat) (key value : string) : prog unit :=
  fun w =>
    match dicts w !! r with
    | Some d => (Returned tt, with_dicts (<[r := <[key := value]> d]> (dicts w)) w)
    | None => (Raised (TypeError "no such object"), w)
    end.

(** *** Processes *)

(** [subprocess.run(argv, cwd=cwd, env=env, check=check)]: the child gets
    the items of the dict [env], or those of [os.environ] when no [env] is
    passed; whatever it does to the file system is its own business. *)
Definition subprocess_run (X : Externals) (argv : list string) (cwd : option path)
    (env : option nat) (check : bool) : prog proc_result :=
  fun w =>
    match dicts w !! default os_environ env with
    | Some e =>
        let '(res, fs') := run_process X argv cwd e (fs w) in
        let w' := emit (Spawn argv cwd e) (with_fs fs' w) in
        match res with
        | inr r =>
            if check && negb (returncode r =? 0)
            then (Raised (CalledProcessError (returncode r)), w')
            else (Returned r, w')
        | inl err => (Raised err, w')
        end
    | None => (Raised (TypeError "no such object"), w)
    end.

(** ** [build_rust_binary] *)

(** The loop of lines 59 to 66. *)
Fixpoint find_binaries (X : Externals) (lines : list string) (binaries : list pyval)
    : outcome (list pyval) :=
  match lines with
  | [] => Returned binaries
  | line :: rest =>
      let? msg := of_sum (json_loads X line) in
      let? reason := getitem msg "reason" in
      if ne_str reason "compiler-artifact" then find_binaries X rest binaries else
      let? exe := getitem msg "executable" in
      if negb (truthy exe) then find_binaries X rest binaries else
      let? exe := getitem msg "executable" in
      if negb (isinstance_str exe) then find_binaries X rest binaries else
      let? exe := getitem msg "executable" in
      find_binaries X rest (binaries ++ [exe])
  end.

(** Lines 30 to 34: the environment of the child, built on a copy of
    [os.environ]. *)
Definition gtk_env (gtk_bin_dir : path) : prog nat :=
  let* my_env := dict_copy os_environ in
  dict_set my_env "PKG_CONFIG_PATH" (str (resolve (joinpath gtk_bin_dir "../lib/pkgconfig"))) ;;
  let* old_path := dict_get my_env "PATH" in
  dict_set my_env "PATH" (old_path +:+ ";" +:+ str (resolve gtk_bin_dir)) ;;
  let* old_lib := dict_get my_env "LIB" in
  dict_set my_env "LIB" (old_lib +:+ ";" +:+ str (resolve (joinpath gtk_bin_dir "../lib"))) ;;
  ret my_env.

(** Lines 37 to 54: the captured build, run again uncaptured when it
    fails. *)
Definition start_build (X : Externals) (my_env : nat) : prog proc_result :=
  try_except
    (subprocess_run X ["cargo"; "build"; "--release"; "--message-format"; "json"]
       (Some (script_dir X)) (Some my_env) true)
    (fun reraise =>
       print ("Re-running cargo build without capturing stdout to see all errors:" +:+ nl) ;;
       subprocess_run X ["cargo"; "build"; "--release"]
         (Some (script_dir X)) (Some my_env) false ;;
       reraise).

(** Lines 57 to 70: the executable among the messages of the build.  The
    [assert] is checked, as it is unless the interpreter runs with [-O]. *)
Definition find_built_binary (X : Externals) (result : proc_result) : prog pyval :=
  let* text := lift (of_sum (decode_utf8 X (stdout result))) in
  let* binaries := lift (find_binaries X (splitlines X text) []) in
  if negb (Z.of_nat (length binaries) =? 1) then raise AssertionError else
  lift (getitem0 (PList binaries)).

Definition build_rust_binary (X : Externals) (gtk_bin_dir_arg : string) : prog pyval :=
  let gtk_bin_dir := Path gtk_bin_dir_arg in
  let* my_env := gtk_env gtk_bin_dir in
  let* result := start_build X my_env in
  find_built_binary X result.

(** ** [get_cargo_metadata] *)

Definition get_cargo_metadata (X : Externals) : prog CargoMetadata :=
  let* result :=
    subprocess_run X ["cargo"; "metadata"; "--no-deps"; "--format-version"; "1"]
      (Some (script_dir X)) None true in
  let* text := lift (of_sum (decode_utf8 X (stdout result))) in
  let* metadata := lift (of_sum (json_loads X text)) in
  lift (cargo_metadata_of metadata).

(** ** [show_file_in_explorer] *)

(** Lines 120 and 121: the selected file cannot end with a separator. *)
Definition selected (file : string) : string :=
  if endswith file "\" || endswith file "/" then drop_last file else file.

Definition show_file_in_explorer (X : Externals) (file : string) : prog unit :=
  let file := selected file in
  subprocess_run X ["explorer"; "/select,"; file] None None false ;;
  ret tt.

(** ** File system primitives *)

Definition is_dir (f : gmap path node) (p : path) : bool :=
  match f !! p with Some Dir => true | _ => false end.

(** [p.exists()]. *)
Definition path_exists (p : path) : prog bool :=
  fun w => (Returned (bool_decide (is_Some (fs w !! p))), w).

(** Creation of every missing directory on the way from [base] down
    through [todo]; a file in the way is an error. *)
Fixpoint mkdir_from (base : path) (todo : list string) (f : gmap path node)
    : exn + gmap path node :=
  match todo with
  | [] => inr f
  | c :: rest =>
      let p := base ++ [c] in
      match f !! p with
      | Some Dir => mkdir_from p rest f
      | Some (File _) | Some (ReadOnlyFile _) => inl (FileExistsError p)
      | None => mkdir_from p rest (<[p := Dir]> f)
      end
  end.

(** A file system operation as a step of the script. *)
Definition on_fs (op : gmap path node → exn + gmap path node) : prog unit :=
  fun w =>
    match op (fs w) with
    | inr f' => (Returned tt, with_fs f' w)
    | inl e => (Raised e, w)
    end.

(** [p.mkdir(parents=True, exist_ok=True)]. *)
Definition mkdir_parents (p : path) : prog unit := on_fs (mkdir_from [] p).

(** The entries of [dir] whose name ends with [suffix], compared without
    regard to case as Windows does: [dir.glob("*" + suffix)]. *)
Definition glob_suffix (f : gmap path node) (dir : path) (suffix : string) : list path :=
  elements (filter (fun p => p ≠ [] ∧ parent p = dir ∧
                             endswith (lower (name p)) suffix = true) (dom f)).

(** [shutil.copy2(src, dst)]: into the directory [dst] under the source's
    name, or onto the file [dst].  The target is opened for writing, which
    a directory and a read-only file refuse; the content goes over and
    then the attributes, so that the copy of a read-only file is
    read-only. *)
Definition copy2_fs (src dst : path) (f : gmap path node) : exn + gmap path node :=
  let target := if is_dir f dst then dst ++ [name src] else dst in
  if bool_decide (is_Some (f !! src)) && bool_decide (target = src)
  then inl (SameFileError src) else
  match f !! src with
  | None => inl (FileNotFoundError src)
  | Some Dir => inl (PermissionError src)
  | Some source =>
      match f !! target with
      | Some Dir | Some (ReadOnlyFile _) => inl (PermissionError target)
      | _ =>
          if is_dir f (parent target) then inr (<[target := source]> f)
          else inl (FileNotFoundError target)
      end
  end.

(** [list(dir.glob("*" + suffix))] in the world. *)
Definition glob (dir : path) (suffix : string) : prog (list path) :=
  fun w => (Returned (glob_suffix (fs w) dir suffix), w).

Definition copy2 (src dst : path) : prog unit := on_fs (copy2_fs src dst).

Definition open_w_fs (p : path) (f : gmap path node) : exn + gmap path node :=
  match f !! p with
  | Some Dir | Some (ReadOnlyFile _) => inl (PermissionError p)
  | _ =>
      if is_dir f (parent p) then inr (<[p := File ""]> f)
      else inl (FileNotFoundError p)
  end.

(** [p.open("w")]: the file is created or truncated. *)
Definition open_w (p : path) : prog unit := on_fs (open_w_fs p).

Definition file_write_fs (p : path) (text : string) (f : gmap path node)
    : exn + gmap path node :=
  match f !! p with
  | Some (File content) => inr (<[p := File (content +:+ text)]> f)
  | _ => inl (FileNotFoundError p)
  end.

(** [f.write(text)] on the file opened at [p]. *)
Definition file_write (p : path) (text : string) : prog unit :=
  on_fs (file_write_fs p text).

Fixpoint strip_prefix (root p : path) : option path :=
  match root, p with
  | [], _ => Some p
  | r :: root', c :: p' => if String.eqb r c then strip_prefix root' p' else None
  | _ :: _, [] => None
  end.

(** The entries below [root], by their path relative to it. *)
Definition subtree (f : gmap path node) (root : path) : list (path * node) :=
  omap (fun '(p, n) =>
          match strip_prefix root p with
          | Some (c :: rel) => Some (c :: rel, n)
          | _ => None
          end) (map_to_list f).

(** [shutil.make_archive(base_name, "zip", root_dir)]: the archive is
    opened for writing like any other file. *)
Definition make_archive (X : Externals) (base_name : string) (root_dir : path) : prog unit :=
  fun w =>
    if is_dir (fs w) root_dir then
      let archive := Path (base_name +:+ ".zip") in
      match fs w !! archive with
      | Some Dir | Some (ReadOnlyFile _) => (Raised (PermissionError archive), w)
      | _ =>
          (Returned tt,
           emit (MakeArchive base_name root_dir)
             (with_fs (<[archive := File (zip_bytes X (subtree (fs w) root_dir))]> (fs w)) w))
      end
    else (Raised (FileNotFoundError root_dir), w).

(** One member of an archive written below [dest].  The extraction
    does not restore attributes: every file member becomes an ordinary
    file. *)
Definition extract_member (dest : path) (m : path * node) (f : gmap path node)
    : exn + gmap path node :=
  let target := dest ++ m.1 in
  match m.2 with
  | Dir => mkdir_from [] target f
  | File content | ReadOnlyFile content =>
      match mkdir_from [] (parent target) f with
      | inl e => inl e
      | inr f' =>
          match f' !! target with
          | Some Dir | Some (ReadOnlyFile _) => inl (PermissionError target)
          | _ => inr (<[target := File content]> f')
          end
      end
  end.

Fixpoint extract_members (dest : path) (ms : list (path * node)) (f : gmap path node)
    : exn + gmap path node :=
  match ms with
  | [] => inr f
  | m :: rest =>
      match extract_member dest m f with
      | inl e => inl e
      | inr f' => extract_members dest rest f'
      end
  end.

(** [zip_file.extractall(dest)]. *)
Definition extractall (members : list (path * node)) (dest : path) : prog unit :=
  fun w =>
    let w' := emit (ExtractAll dest) w in
    match extract_members dest members (fs w) with
    | inr f' => (Returned tt, with_fs f' w')
    | inl e => (Raised e, w')
    end.

(** ** The network *)

(** [requests.get(url)]. *)
Definition requests_get_ (X : Externals) (url : string) : prog response :=
  fun w => (of_sum (requests_get X url), emit (HttpGet url) w).

(** [urlopen(url).read()]. *)
Definition urlopen (X : Externals) (url : pyval) : prog string :=
  fun w =>
    match url with
    | PStr u => (of_sum (urlopen_read X u), emit (UrlOpen u) w)
    | _ => (Raised (TypeError "urlopen expects a str or a Request"), w)
    end.

(** ** [bundle] *)

(** The parsed command line. *)
Record Args := {
  show_binary : bool;
  show_zip : bool;
  download_gtk : bool;
}.

Definition releases_url : string :=
  "https://api.github.com/repos/wingtk/gvsbuild/releases/latest".

(** [iter(o)], as [filter] walks its second argument. *)
Definition py_iter (o : pyval) : outcome (list pyval) :=
  match o with
  | PList l => Returned l
  | PDict d => Returned (List.map (fun kv => PStr kv.1) d)
  | PStr s => Returned (List.map (fun c => PStr (String c EmptyString))
                          (String.list_ascii_of_string s))
  | _ => Raised (TypeError "object is not iterable")
  end.

(** [list(filter(lambda asset: "GTK4" in str(asset["name"]), assets))]. *)
Fixpoint filter_gtk4 (X : Externals) (assets : list pyval) : outcome (list pyval) :=
  match assets with
  | [] => Returned []
  | asset :: rest =>
      let? nm := getitem asset "name" in
      let? kept := filter_gtk4 X rest in
      Returned (if contains "GTK4" (py_str X nm) then asset :: kept else kept)
  end.

(** Lines 167 to 226: the cache directory is missing. *)
Definition download_release (X : Externals) (gtk_bin_dir : path) : prog unit :=
  let* response := requests_get_ X releases_url in
  if negb (status_code response =? 200) then
    print ("Could not download GTK release, HTTP status code: "
           +:+ pretty (status_code response)) ;;
    print "" ;;
    exit 1
  else
  let* data := lift (of_sum (body response)) in
  let* assets := lift (getitem data "assets") in
  let* no_assets :=
    (if is_none assets then ret true else
     let* assets := lift (getitem data "assets") in
     let* n := lift (py_len assets) in
     ret (n =? 0)) in
  if no_assets : bool then
    print "Could not download GTK release, no assets found" ;;
    print "" ;;
    exit 1
  else
  let* assets := lift (getitem data "assets") in
  let* items := lift (py_iter assets) in
  let* gtk_assets := lift (filter_gtk4 X items) in
  if negb (Z.of_nat (length gtk_assets) =? 1) then
    print "Could not download GTK release, no assets with the name GTK4 was found" ;;
    print "Found assets:" ;;
    let* assets := lift (getitem data "assets") in
    print (json_dumps X assets) ;;
    print "" ;;
    exit 1
  else
  let* gtk_asset := lift (getitem0 (PList gtk_assets)) in
  let* nm := lift (getitem gtk_asset "name") in
  print ("Downloading amd unzipping GitHub release asset: " +:+ py_str X nm) ;;
  let* url := lift (getitem gtk_asset "browser_download_url") in
  if is_none url then
    print "Could not download GTK release, no browser_download_url found" ;;
    print "" ;;
    exit 1
  else
  let* ct := lift (getitem gtk_asset "content_type") in
  if ne_str ct "application/zip" then
    let* ct := lift (getitem gtk_asset "content_type") in
    print ("Could not download GTK release, content_type is not application/zip, instead it was: "
           +:+ py_str X ct) ;;
    print "" ;;
    exit 1
  else
  let* gtk_url := lift (getitem gtk_asset "browser_download_url") in
  print (tab +:+ "From URL: " +:+ py_str X gtk_url) ;;
  print (tab +:+ "To folder at: " +:+ str gtk_bin_dir) ;;
  mkdir_parents gtk_bin_dir ;;
  let* archive := urlopen X gtk_url in
  let* members := lift (of_sum (zip_members X archive)) in
  extractall members gtk_bin_dir ;;
  print "".

(** Lines 157 to 228: the [--download-gtk] branch. *)
Definition download_gtk_branch (X : Externals) (cargo_meta : CargoMetadata) : prog path :=
  print "Downloading latest GTK release by gvsbuild from https://github.com/wingtk/gvsbuild/releases" ;;
  print "" ;;
  let gtk_bin_dir := joinpath (Path (target_directory cargo_meta)) "./gtk-from-github" in
  let* cached := path_exists gtk_bin_dir in
  (if cached : bool then
     print ("GTK release already downloaded at: " +:+ str gtk_bin_dir) ;;
     print ""
   else download_release X gtk_bin_dir) ;;
  ret (joinpath gtk_bin_dir "bin").

(** The loop of lines 261 to 263. *)
Fixpoint copy_dlls (dlls : list path) (bundle_dir : path) : prog unit :=
  match dlls with
  | [] => ret tt
  | dll :: rest =>
      print (tab +:+ str dll) ;;
      copy2 dll bundle_dir ;;
      copy_dlls rest bundle_dir
  end.

Definition settings_text : string :=
  "[Settings]" +:+ nl +:+ "gtk-font-name=Segoe UI 10" +:+ nl.

(** Lines 251 to 292: the bundle directory and what is copied or written
    into it before the build. *)
Definition assemble_bundle (gtk_bin_dir : path) (cargo_meta : CargoMetadata) : prog path :=
  let bundle_dir :=
    joinpath (Path (target_directory cargo_meta))
             ("./release/" +:+ package_name cargo_meta +:+ "-bundled") in
  print ("Creating bundle directory at: " +:+ str bundle_dir) ;;
  mkdir_parents bundle_dir ;;
  print "" ;;
  print "Copying DLL files..." ;;
  let* dlls := glob gtk_bin_dir ".dll" in
  copy_dlls dlls bundle_dir ;;
  print "" ;;
  print "Copying ancillary binaries..." ;;
  let gdbus_exe := joinpath gtk_bin_dir "gdbus.exe" in
  print (tab +:+ str gdbus_exe) ;;
  copy2 gdbus_exe bundle_dir ;;
  print "" ;;
  print "Copying glib compiled schemas..." ;;
  let glib_compiled_schemas :=
    resolve (joinpath gtk_bin_dir "../share/glib-2.0/schemas/gschemas.compiled") in
  let schema_out_dir := joinpath bundle_dir "./share/glib-2.0/schemas" in
  mkdir_parents schema_out_dir ;;
  print (tab +:+ str glib_compiled_schemas) ;;
  copy2 glib_compiled_schemas schema_out_dir ;;
  print "" ;;
  print ("Creating " +:+ dq +:+ "share/gtk-4.0/settings.ini" +:+ dq +:+ " to specify font") ;;
  let settings_ini := joinpath bundle_dir "./share/gtk-4.0/settings.ini" in
  print (tab +:+ "At: " +:+ str settings_ini) ;;
  mkdir_parents (parent settings_ini) ;;
  open_w settings_ini ;;
  file_write settings_ini ("[Settings]" +:+ nl) ;;
  file_write settings_ini ("gtk-font-name=Segoe UI 10" +:+ nl) ;;
  print "" ;;
  ret bundle_dir.

Definition as_str (o : pyval) : outcome string :=
  match o with
  | PStr s => Returned s
  | _ => Raised (TypeError "expected str, bytes or os.PathLike object")
  end.

(** Lines 315 to 335: the archive and the two optional windows. *)
Definition archive_and_reveal (X : Externals) (args : Args) (bundle_dir rust_bin_to : path)
    : prog unit :=
  (if show_binary args then
     print "Showing app inside bundle folder in Windows Explorer (because of --show-binary flag)" ;;
     show_file_in_explorer X (str rust_bin_to) ;;
     print ""
   else ret tt) ;;
  print ("Zipping bundle directory to: " +:+ str (with_suffix bundle_dir ".zip")) ;;
  make_archive X (str bundle_dir) bundle_dir ;;
  print "" ;;
  (if show_zip args then
     print "Showing zip file in Windows Explorer (because of --show-zip flag)" ;;
     show_file_in_explorer X (str (with_suffix bundle_dir ".zip")) ;;
     print ""
   else ret tt) ;;
  print "Done!" ;;
  print "".

Definition bundle (X : Externals) (args : Args) : prog unit :=
  print "" ;;
  let* cargo_meta := get_cargo_metadata X in
  let* gtk_bin_dir :=
    (if download_gtk args then download_gtk_branch X cargo_meta
     else ret (Path "C:/gtk-build/gtk/x64/release/bin")) in
  let* found := path_exists gtk_bin_dir in
  if negb found then
    print ("Could not find GTK bin folder at: " +:+ str gtk_bin_dir) ;;
    print "" ;;
    print "- To build GTK from source follow the instructions at" ;;
    print "  https://github.com/wingtk/gvsbuild?tab=readme-ov-file#build-gtk" ;;
    print "" ;;
    print "- Alternatively specify the --download-gtk flag to automatically download" ;;
    print "  the latest GTK release by gvsbuild from https://github.com/wingtk/gvsbuild/releases" ;;
    print "" ;;
    exit 1
  else
  print ("Found GTK bin folder at: " +:+ str gtk_bin_dir) ;;
  print "" ;;
  let* bundle_dir := assemble_bundle gtk_bin_dir cargo_meta in
  print "Building GTK application..." ;;
  print "" ;;
  let* rust_bin := build_rust_binary X (str gtk_bin_dir) in
  print "" ;;
  let* rust_bin_path := lift (as_str rust_bin) in
  let rust_bin_to := joinpath bundle_dir (name (Path rust_bin_path)) in
  print "Copying binary to bundle directory" ;;
  print (tab +:+ "From: " +:+ py_str X rust_bin) ;;
  print (tab +:+ "To:   " +:+ str rust_bin_to) ;;
  copy2 (Path rust_bin_path) rust_bin_to ;;
  print "" ;;
  archive_and_reveal X args bundle_dir rust_bin_to.

(** ** A concrete world, to run the script on *)

Module Demo.

Definition meta_doc : pyval :=
  PDict [("packages", PList [PDict [("name", PStr "app")]]);
         ("target_directory", PStr "C:\proj\target")].

Definition artifact (exe : pyval) : pyval :=
  PDict [("reason", PStr "compiler-artifact"); ("executable", exe)].

Definition gtk_asset : pyval :=
  PDict [("name", PStr "GTK4_Gvsbuild_x64.zip");
         ("browser_download_url", PStr "https://example.org/GTK4.zip");
         ("content_type", PStr "application/zip")].

Definition other_asset : pyval :=
  PDict [("name", PStr "GTK3_Gvsbuild_x64.zip");
         ("browser_download_url", PStr "https://example.org/GTK3.zip");
         ("content_type", PStr "application/zip")].

Definition release_members : list (path * node) :=
  [(["bin"], Dir);
   (["bin"; "gtk-4.dll"], File "gtk");
   (["bin"; "glib-2.0.DLL"], File "glib");
   (["bin"; "gdbus.exe"], File "gdbus");
   (["share"; "glib-2.0"; "schemas"; "gschemas.compiled"], File "schemas")].

Fixpoint split_lines (s cur : string) : list string :=
  match s with
  | EmptyString => if String.eqb cur "" then [] else [cur]
  | String c rest =>
      if Ascii.eqb c (ascii_of_nat 10) then cur :: split_lines rest ""
      else split_lines rest (cur +:+ String c "")
  end.

(** cargo prints one document for [metadata] and the lines [listing] for
    [build], which also leaves the executable behind; [explorer] exits
    with status 1, as it does on Windows. *)
Definition externals (listing : string) (release : exn + response) : Externals := {|
  script_dir := ["C:"; "proj"];
  run_process := fun argv cwd env f =>
    match argv with
    | "cargo" :: "metadata" :: _ => (inr {| returncode := 0; stdout := "META" |}, f)
    | "cargo" :: "build" :: _ =>
        (inr {| returncode := 0; stdout := listing |},
         <[ ["C:"; "proj"; "target"; "release"; "app.exe"] := File "exe" ]> f)
    | _ => (inr {| returncode := 1; stdout := "" |}, f)
    end;
  decode_utf8 := inr;
  splitlines := fun s => split_lines s "";
  json_loads := fun s =>
    if String.eqb s "META" then inr meta_doc
    else if String.eqb s "APP" then inr (artifact (PStr "C:\proj\target\release\app.exe"))
    else if String.eqb s "LIB" then inr (artifact PNone)
    else if String.eqb s "END" then inr (PDict [("reason", PStr "build-finished")])
    else inl JSONDecodeError;
  json_dumps := fun _ => "<json>";
  py_repr := fun _ => "<repr>";
  requests_get := fun _ => release;
  urlopen_read := fun _ => inr "ZIP";
  zip_members := fun _ => inr release_members;
  zip_bytes := fun _ => "ZIP";
|}.

Definition listing : string := "LIB" +:+ nl +:+ "APP" +:+ nl +:+ "END" +:+ nl.

Definition release_ok : exn + response :=
  inr {| status_code := 200; body := inr (PDict [("assets", PList [other_asset; gtk_asset])]) |}.

Definition parent_env : gmap string string :=
  {[ "PATH" := "C:\Windows"; "LIB" := "C:\sdk\lib"; "PKG_CONFIG_PATH" := "C:\old\pkgconfig" ]}.

Definition world : World := {|
  dicts := {[ os_environ := parent_env ]};
  fs := {[ ["C:"] := Dir; ["C:"; "proj"] := Dir ]};
  log := [];
|}.

Definition args (b z d : bool) : Args :=
  {| show_binary := b; show_zip := z; download_gtk := d |}.

(** The usual surroundings: a build with one executable and a release
    with one GTK4 archive. *)
Definition X : Externals := externals listing release_ok.

Definition meta : CargoMetadata :=
  {| target_directory := "C:\proj\target"; package_name := "app" |}.

(** Surroundings in which the releases endpoint answers [status]. *)
Definition answering (status : Z) (doc : pyval) : Externals :=
  externals listing (inr {| status_code := status; body := inr doc |}).

(** The world once the toolkit has been downloaded into the cache. *)
Definition cached_world : World := (download_gtk_branch X meta world).2.

Definition gtk_bin_dir : path := ["C:"; "proj"; "target"; "gtk-from-github"; "bin"].

(** A world whose environment lacks [LIB]. *)
Definition world_without_LIB : World := {|
  dicts := {[ os_environ := {[ "PATH" := "C:\Windows" ]} ]};
  fs := fs world;
  log := [];
|}.

End Demo.

(** ** Vocabulary of the statements *)

(** The member [k] of a JSON object, when there is one. *)
Definition field (msg : pyval) (k : string) : option pyval :=
  match msg with
  | PDict d => assoc k d
  | _ => None
  end.

(** A message as cargo prints it: an object with a [reason], and with an
    [executable] member (possibly null) when it reports an artifact. *)
Definition build_message (msg : pyval) : Prop :=
  ∃ reason, field msg "reason" = Some reason ∧
    (eq_str reason "compiler-artifact" = true → is_Some (field msg "executable")).

(** The executable a message contributes: that of a completed compiler
    artifact whose executable is a non-empty string. *)
Definition retained (msg : pyval) : option pyval :=
  match field msg "reason", field msg "executable" with
  | Some (PStr r), Some (PStr exe) =>
      if String.eqb r "compiler-artifact" && negb (String.eqb exe "")
      then Some (PStr exe) else None
  | _, _ => None
  end.

(** The environment [build_rust_binary] hands to cargo, from the items
    [env0] of [os.environ] with [PATH] at [p] and [LIB] at [l]. *)
Definition child_env (gtk_bin_dir : path) (env0 : gmap string string) (p l : string)
    : gmap string string :=
  <["LIB" := l +:+ ";" +:+ str (resolve (joinpath gtk_bin_dir "../lib"))]>
    (<["PATH" := p +:+ ";" +:+ str (resolve gtk_bin_dir)]>
       (<["PKG_CONFIG_PATH" := str (resolve (joinpath gtk_bin_dir "../lib/pkgconfig"))]> env0)).

(** The environments of the cargo processes among some events. *)
Definition cargo_envs (evs : list event) : list (gmap string string) :=
  omap (fun e => match e with
                 | Spawn ("cargo" :: _) _ env => Some env
                 | _ => None
                 end) evs.

(** [child] has the variable [k] of [parent] with something appended. *)
Definition augmented (parent child : gmap string string) (k : string) : Prop :=
  ∃ old extra, parent !! k = Some old ∧ child !! k = Some (old +:+ extra).

(** ** Vocabulary of the proofs *)

(** The world a program leaves behind is related to the one it found. *)
Definition respects (R : World → World → Prop) {A} (m : prog A) : Prop :=
  ∀ w, R w (m w).2.

(** The dict store is left as it was. *)
Definition same_dicts (w w' : World) : Prop := dicts w' = dicts w.

(** The log grew, by events that all satisfy [P]. *)
Definition logged (P : event → Prop) (w w' : World) : Prop :=
  ∃ evs, log w' = log w ++ evs ∧ Forall P evs.

(** The command line of the captured build. *)
Definition build_argv : list string :=
  ["cargo"; "build"; "--release"; "--message-format"; "json"].

(** The cache directory of a build-tool output directory. *)
Definition cache_dir (cargo_meta : CargoMetadata) : path :=
  joinpath (Path (target_directory cargo_meta)) "./gtk-from-github".

(** An asset as the endpoint lists it: an object with a [name]. *)
Definition named (asset : pyval) : Prop := is_Some (field asset "name").

(** The name filter of the script on one asset. *)
Definition is_gtk4 (X : Externals) (asset : pyval) : bool :=
  match field asset "name" with
  | Some nm => contains "GTK4" (py_str X nm)
  | None => false
  end.

(** The answer of the releases endpoint lists [assets]: it has status
    200 and its document has the array [assets] of named objects. *)
Definition lists (resp : response) (assets : list pyval) : Prop :=
  status_code resp = 200 ∧
  ∃ data, body resp = inr data ∧ field data "assets" = Some (PList assets) ∧
          Forall named assets.

(** The four answers the script refuses. *)
Inductive refused (X : Externals) (resp : response) : Prop :=
  | refused_status :
      status_code resp ≠ 200 → refused X resp
  | refused_no_match assets :
      lists resp assets → List.filter (is_gtk4 X) assets = [] → refused X resp
  | refused_many_matches assets :
      lists resp assets → (1 < length (List.filter (is_gtk4 X) assets))%nat → refused X resp
  | refused_content_type assets asset url content_type :
      lists resp assets → List.filter (is_gtk4 X) assets = [asset] →
      field asset "browser_download_url" = Some url →
      field asset "content_type" = Some content_type →
      content_type ≠ PStr "application/zip" →
      refused X resp.

(** The diagnostics of the download all start alike. *)
Definition is_diagnostic (e : event) : Prop :=
  match e with
  | Print line => String.prefix "Could not download GTK release" line = true
  | _ => False
  end.

(** Fetching or unpacking the archive. *)
Definition is_download (e : event) : Prop :=
  match e with
  | UrlOpen _ | ExtractAll _ => True
  | _ => False
  end.

(** The network requests and extractions among some events. *)
Definition transfers (evs : list event) : list event :=
  List.filter (fun e => match e with
                        | HttpGet _ | UrlOpen _ | ExtractAll _ => true
                        | _ => false
                        end) evs.

(** A line on the console. *)
Definition is_print (e : event) : Prop :=
  match e with Print _ => True | _ => False end.

(** The directories [mkdir_from] walks through: [base] extended by the
    non-empty prefixes of [todo]. *)
Definition on_the_way (base : path) (todo : list string) (p : path) : Prop :=
  ∃ k, (0 < k ≤ length todo)%nat ∧ p = base ++ take k todo.

(** The answer offers exactly one GTK4 asset, a zip archive at [url]. *)
Definition offers (X : Externals) (resp : response) (url : string) : Prop :=
  ∃ assets asset,
    lists resp assets ∧ List.filter (is_gtk4 X) assets = [asset] ∧
    field asset "browser_download_url" = Some (PStr url) ∧
    field asset "content_type" = Some (PStr "application/zip").

(** The archive at [url] has the members [members], and creating [dest]
    in [f] and writing every member below it gives [f']. *)
Definition unpacks (X : Externals) (url : string) (members : list (path * node))
    (dest : path) (f f' : gmap path node) : Prop :=
  ∃ archive f1,
    urlopen_read X url = inr archive ∧ zip_members X archive = inr members ∧
    mkdir_from [] dest f = inr f1 ∧ extract_members dest members f1 = inr f'.

(** What a member of the archive becomes on disk. *)
Definition extracted (member : node) : node :=
  match member with
  | Dir => Dir
  | File content | ReadOnlyFile content => File content
  end.

(** What the user is shown at the end: a file selected in the file
    manager, or the bundle directory being zipped. *)
Inductive shown :=
  | Reveal (file : string)
  | Archive (root_dir : path).

(** What an event shows: [explorer /select,file] a window, the archive
    its making. *)
Definition shown_by (e : event) : option shown :=
  match e with
  | Spawn [cmd; sel; file] _ _ =>
      if String.eqb cmd "explorer" && String.eqb sel "/select," then Some (Reveal file)
      else None
  | MakeArchive _ root_dir => Some (Archive root_dir)
  | _ => None
  end.

(** What some events show, in order. *)
Definition presentation (evs : list event) : list shown := omap shown_by evs.

(** An event that shows nothing. *)
Definition backstage (e : event) : Prop := shown_by e = None.

(** No window opens before the bundle directory was zipped. *)
Definition archive_first (l : list shown) : bool :=
  match l with
  | Reveal _ :: _ => false
  | _ => true
  end.

(** The order of the script: the window on the binary when asked for,
    the archive, the window on the archive when asked for. *)
Definition expected (args : Args) (binary : path) (bundle_dir : path) : list shown :=
  (if show_binary args then [Reveal (selected (str binary))] else []) ++
  [Archive bundle_dir] ++
  (if show_zip args then [Reveal (selected (str (with_suffix bundle_dir ".zip")))] else []).

(** The bundle directory of the metadata. *)
Definition bundle_dir_of (meta : CargoMetadata) : path :=
  joinpath (Path (target_directory meta))
           ("./release/" +:+ package_name meta +:+ "-bundled").

(** The settings file of a bundle directory. *)
Definition settings_ini_of (bundle_dir : path) : path :=
  joinpath bundle_dir "./share/gtk-4.0/settings.ini".

(** What a program returns and what it leaves on disk depend on the
    disk alone, as [g] says. *)
Definition fs_effect {A : Type} (m : prog A) (g : gmap path node → exn + A * gmap path node) : Prop :=
  ∀ w, match g (fs w) with
       | inr (a, f') => (m w).1 = Returned a ∧ fs (m w).2 = f'
       | inl e => (m w).1 = Raised e
       end.

(** A disk operation, then [g] on the disk it leaves. *)
Definition then_fs {A : Type} (op : gmap path node → exn + gmap path node)
    (g : gmap path node → exn + A * gmap path node) : gmap path node → exn + A * gmap path node :=
  fun f => match op f with
           | inl e => inl e
           | inr f' => g f'
           end.

(** The listing of [dir], then [g] with it. *)
Definition with_glob {A : Type} (dir : path) (suffix : string)
    (g : list path → gmap path node → exn + A * gmap path node)
    : gmap path node → exn + A * gmap path node :=
  fun f => g (glob_suffix f dir suffix) f.

(** The copies of the loop of lines 261 to 263, on the disk. *)
Fixpoint copy_all (srcs : list path) (dst : path) (f : gmap path node)
    : exn + gmap path node :=
  match srcs with
  | [] => inr f
  | src :: rest =>
      match copy2_fs src dst f with
      | inl e => inl e
      | inr f' => copy_all rest dst f'
      end
  end.

(** What [assemble_bundle] does to the disk. *)
Definition assemble_fs (gtk b : path) : gmap path node → exn + path * gmap path node :=
  then_fs (mkdir_from [] b)
    (with_glob gtk ".dll" (fun dlls =>
       then_fs (copy_all dlls b)
         (then_fs (copy2_fs (joinpath gtk "gdbus.exe") b)
            (then_fs (mkdir_from [] (joinpath b "./share/glib-2.0/schemas"))
               (then_fs (copy2_fs
                           (resolve (joinpath gtk "../share/glib-2.0/schemas/gschemas.compiled"))
                           (joinpath b "./share/glib-2.0/schemas"))
                  (then_fs (mkdir_from [] (parent (settings_ini_of b)))
                     (then_fs (open_w_fs (settings_ini_of b))
                        (then_fs (file_write_fs (settings_ini_of b) ("[Settings]" +:+ nl))
                           (then_fs (file_write_fs (settings_ini_of b)
                                       ("gtk-font-name=Segoe UI 10" +:+ nl))
                              (fun f => inr (b, f))))))))))).

(** The read-only attribute of an entry. *)
Definition read_only (n : node) : bool :=
  match n with
  | ReadOnlyFile _ => true
  | _ => false
  end.

(** Nothing there, or a file that can be opened for writing. *)
Definition overwritable (o : option node) : Prop :=
  match o with
  | Some Dir | Some (ReadOnlyFile _) => False
  | _ => True
  end.

(** From [f] to [f'] files were written only at paths in [W], never
    over a directory or a read-only file, and directories were created only at free paths in
    [D]; everything else is as it was. *)
Definition evolves (W D : path → Prop) (f f' : gmap path node) : Prop :=
  ∀ p, f' !! p = f !! p
       ∨ (W p ∧ overwritable (f !! p) ∧ ∃ n, n ≠ Dir ∧ f' !! p = Some n)
       ∨ (D p ∧ f !! p = None ∧ f' !! p = Some Dir).

(** An entry of the toolkit's binary directory. *)
Definition child (gtk : path) (p : path) : Prop := p ≠ [] ∧ parent p = gtk.

(** Where the copy of [x] into the bundle directory goes. *)
Definition copy_of (b : path) (x : path) : path := b ++ [name x].

(** A shared library by its name, as the glob sees it. *)
Definition dll (p : path) : Prop := endswith (lower (name p)) ".dll" = true.

(** A path whose last component is one of [ns]. *)
Definition named_in (ns : list string) (p : path) : Prop := name p ∈ ns.

(** The directories the assembly may create below an existing bundle
    directory. *)
Definition made (b : path) (p : path) : Prop :=
  on_the_way [] b p ∨ named_in ["share"; "glib-2.0"; "schemas"; "gtk-4.0"] p.

(** The files of the toolkit that the assembly copies: the shared
    libraries of its binary directory, gdbus.exe and the compiled
    schemas. *)
Definition copied (gtk : path) (x : path) : Prop :=
  (child gtk x ∧ dll x)
  ∨ x = joinpath gtk "gdbus.exe"
  ∨ x = resolve (joinpath gtk "../share/glib-2.0/schemas/gschemas.compiled").

(** ** Vocabulary of the further properties *)

(** The command line of the metadata query. *)
Definition metadata_argv : list string :=
  ["cargo"; "metadata"; "--no-deps"; "--format-version"; "1"].

(** The command line of the build when it is run again uncaptured. *)
Definition rerun_argv : list string := ["cargo"; "build"; "--release"].

(** How a run of the captured build counts as failed under [check=True]:
    it could not be started, or it ended with a non-zero status. *)
Definition build_failure (r : exn + proc_result) : option exn :=
  match r with
  | inl e => Some e
  | inr res =>
      if returncode res =? 0 then None
      else Some (CalledProcessError (returncode res))
  end.

(** A non-empty string. *)
Definition nonempty_str (o : pyval) : Prop := ∃ s, o = PStr s ∧ s ≠ "".

(** Lines 233 to 335 of [bundle]: everything after the toolkit's binary
    directory has been chosen. *)
Definition bundle_from (X : Externals) (args : Args) (cargo_meta : CargoMetadata)
    (gtk_bin_dir : path) : prog unit :=
  let* found := path_exists gtk_bin_dir in
  if negb found then
    print ("Could not find GTK bin folder at: " +:+ str gtk_bin_dir) ;;
    print "" ;;
    print "- To build GTK from source follow the instructions at" ;;
    print "  https://github.com/wingtk/gvsbuild?tab=readme-ov-file#build-gtk" ;;
    print "" ;;
    print "- Alternatively specify the --download-gtk flag to automatically download" ;;
    print "  the latest GTK release by gvsbuild from https://github.com/wingtk/gvsbuild/releases" ;;
    print "" ;;
    exit 1
  else
  print ("Found GTK bin folder at: " +:+ str gtk_bin_dir) ;;
  print "" ;;
  let* bundle_dir := assemble_bundle gtk_bin_dir cargo_meta in
  print "Building GTK application..." ;;
  print "" ;;
  let* rust_bin := build_rust_binary X (str gtk_bin_dir) in
  print "" ;;
  let* rust_bin_path := lift (as_str rust_bin) in
  let rust_bin_to := joinpath bundle_dir (name (Path rust_bin_path)) in
  print "Copying binary to bundle directory" ;;
  print (tab +:+ "From: " +:+ py_str X rust_bin) ;;
  print (tab +:+ "To:   " +:+ str rust_bin_to) ;;
  copy2 (Path rust_bin_path) rust_bin_to ;;
  print "" ;;
  archive_and_reveal X args bundle_dir rust_bin_to.

(** Lines 155 to 231 of [bundle]: the choice of the toolkit's binary
    directory. *)
Definition acquire_gtk (X : Externals) (args : Args) (cargo_meta : CargoMetadata)
    : prog path :=
  if download_gtk args then download_gtk_branch X cargo_meta
  else ret (Path "C:/gtk-build/gtk/x64/release/bin").

(** A request to the network or an extraction. *)
Definition is_transfer (e : event) : bool :=
  match e with
  | HttpGet _ | UrlOpen _ | ExtractAll _ => true
  | _ => false
  end.

(** No request to the network and no extraction. *)
Abbreviation quiet := (fun e : event => is_transfer e = false).

(** The stages of the download: nothing yet (0), listing requested (1),
    archive fetched (2), archive extracted (3).  [advance] follows some
    events from a stage and fails on a request out of turn, on a second
    one of a kind, and on a listing request to another address. *)
Fixpoint advance (stage : nat) (evs : list event) : option nat :=
  match evs with
  | [] => Some stage
  | HttpGet url :: rest =>
      match stage with
      | O => if String.eqb url releases_url then advance 1 rest else None
      | _ => None
      end
  | UrlOpen _ :: rest =>
      match stage with
      | 1%nat => advance 2 rest
      | _ => None
      end
  | ExtractAll _ :: rest =>
      match stage with
      | 2%nat => advance 3 rest
      | _ => None
      end
  | _ :: rest => advance stage rest
  end.

(** Every run of [m] from stage [i] follows the stages, ends at [j] when
    it returns and at or before [j] otherwise. *)
Definition staged (i j : nat) {A} (m : prog A) : Prop :=
  ∀ w, ∃ evs k,
    log (m w).2 = log w ++ evs ∧ advance i evs = Some k ∧ (k ≤ j)%nat ∧
    ∀ a, (m w).1 = Returned a → k = j.

(** Every run of [m] from stage [i] follows the stages up to [j] at
    most. *)
Definition within (i j : nat) {A} (m : prog A) : Prop :=
  ∀ w, ∃ evs k,
    log (m w).2 = log w ++ evs ∧ advance i evs = Some k ∧ (k ≤ j)%nat.

(** A file-manager window. *)
Definition is_reveal (e : event) : Prop := ∃ file, shown_by e = Some (Reveal file).

(** The items of [os.environ] are the same. *)
Definition same_environ (w w' : World) : Prop :=
  dicts w' !! os_environ = dicts w !! os_environ.

(** A path strictly below [b]. *)
Definition below (b p : path) : Prop := ∃ rel, rel ≠ [] ∧ p = b ++ rel.

(** No separator in [s]. *)
Fixpoint plain (s : string) : bool :=
  match s with
  | EmptyString => true
  | String c rest => negb (is_sep c) && plain rest
  end.

(** A component that [Path] keeps. *)
Definition kept (c : string) : bool :=
  negb (String.eqb c "") && negb (String.eqb c ".").

(** cargo, run for the build on the disk [f] with the environment
    [env], ends with status 0 and leaves the disk [f']; every line it
    prints is a message, and exactly one of them is retained: a compiler
    artifact with the executable [exe]. *)
Definition cargo_builds (X : Externals) (env : gmap string string)
    (f f' : gmap path node) (exe : string) : Prop :=
  ∃ res text msgs,
    run_process X build_argv (Some (script_dir X)) env f = (inr res, f') ∧
    returncode res = 0 ∧
    decode_utf8 X (stdout res) = inr text ∧
    Forall2 (fun line msg => json_loads X line = inr msg) (splitlines X text) msgs ∧
    omap retained msgs = [PStr exe].

(** From [f] to [f'] the file [exe] was copied to [binary], or, where
    [binary] was a directory, into it under the file's name; nothing
    else differs. *)
Definition copied_to (f f' : gmap path node) (exe : string) (binary : path) : Prop :=
  ∃ n, f !! Path exe = Some n ∧ n ≠ Dir ∧
       let target := if is_dir f binary then binary ++ [name (Path exe)] else binary in
       target ≠ Path exe ∧ f' = <[target := n]> f.

(** What has happened when only the archive and the windows are left:
    on the disk [f0] the bundle directory was assembled, cargo built the
    one executable [exe] with the environment made from the items [env0]
    of [os.environ], and that executable was copied into the bundle
    directory under its name, which gave the disk [f]. *)
Definition ready (X : Externals) (meta : CargoMetadata) (gtk : path)
    (env0 : gmap string string) (f0 f : gmap path node) (exe : string) : Prop :=
  ∃ p l f1 f3,
    env0 !! "PATH" = Some p ∧ env0 !! "LIB" = Some l ∧
    assemble_fs gtk (bundle_dir_of meta) f0 = inr (bundle_dir_of meta, f1) ∧
    cargo_builds X (child_env (Path (str gtk)) env0 p l) f1 f3 exe ∧
    copied_to f3 f exe (joinpath (bundle_dir_of meta) (name (Path exe))).

(** ** Surroundings in which something goes wrong *)

Module Trouble.

(** cargo ends every command with status 101 and prints nothing. *)
Definition failing_cargo : Externals := {|
  script_dir := script_dir Demo.X;
  run_process := fun argv cwd env f => (inr {| returncode := 101; stdout := "" |}, f);
  decode_utf8 := decode_utf8 Demo.X;
  splitlines := splitlines Demo.X;
  json_loads := json_loads Demo.X;
  json_dumps := json_dumps Demo.X;
  py_repr := py_repr Demo.X;
  requests_get := requests_get Demo.X;
  urlopen_read := urlopen_read Demo.X;
  zip_members := zip_members Demo.X;
  zip_bytes := zip_bytes Demo.X;
|}.

(** The release is listed but its archive cannot be fetched. *)
Definition unreachable_archive : Externals := {|
  script_dir := script_dir Demo.X;
  run_process := run_process Demo.X;
  decode_utf8 := decode_utf8 Demo.X;
  splitlines := splitlines Demo.X;
  json_loads := json_loads Demo.X;
  json_dumps := json_dumps Demo.X;
  py_repr := py_repr Demo.X;
  requests_get := requests_get Demo.X;
  urlopen_read := fun _ => inl ConnectionError;
  zip_members := zip_members Demo.X;
  zip_bytes := zip_bytes Demo.X;
|}.

(** A toolkit built from source one of whose libraries is read-only. *)
Definition read_only_world : World := {|
  dicts := dicts Demo.world;
  fs := {[ ["C:"] := Dir;
           ["C:"; "proj"] := Dir;
           ["C:"; "gtk-build"; "gtk"; "x64"; "release"; "bin"] := Dir;
           ["C:"; "gtk-build"; "gtk"; "x64"; "release"; "bin"; "gtk-4.dll"]
             := ReadOnlyFile "gtk";
           ["C:"; "gtk-build"; "gtk"; "x64"; "release"; "bin"; "gdbus.exe"]
             := File "gdbus";
           ["C:"; "gtk-build"; "gtk"; "x64"; "release"; "share"; "glib-2.0"; "schemas";
            "gschemas.compiled"] := File "schemas" ]};
  log := [];
|}.

(** The world once the bundle directory has been assembled from the
    downloaded toolkit. *)
Definition assembled_world : World :=
  (assemble_bundle Demo.gtk_bin_dir Demo.meta Demo.cached_world).2.

End Trouble.

(** * Theorems *)

(** ** First checks of the model *)

Example cargo_metadata_of_ok :
  cargo_metadata_of
    (PDict [("packages", PList [PDict [("name", PStr "app"); ("version", PStr "0.1.0")]]);
            ("target_directory", PStr "C:\app\target")])
  = Returned {| target_directory := "C:\app\target"; package_name := "app" |}.
Proof. reflexivity. Qed.

Example cargo_metadata_of_null_target :
  cargo_metadata_of (PDict [("target_directory", PNone)])
  = Raised (ValueError msg_no_target_directory).
Proof. reflexivity. Qed.

Example Path_literal :
  Path "C:/gtk-build/gtk/x64/release/bin" = ["C:"; "gtk-build"; "gtk"; "x64"; "release"; "bin"].
Proof. reflexivity. Qed.

Example resolve_lib :
  str (resolve (joinpath (Path "C:/gtk/bin") "../lib/pkgconfig")) = "C:\gtk\lib\pkgconfig".
Proof. reflexivity. Qed.

Example with_suffix_zip :
  with_suffix ["C:"; "t"; "release"; "app-bundled"] ".zip" = ["C:"; "t"; "release"; "app-bundled.zip"].
Proof. reflexivity. Qed.


(** ** Metadata *)

Lemma getitem_field (o : pyval) (k : string) (v : pyval) :
  field o k = Some v → getitem o k = Returned v.
Proof.
  destruct o; simpl; try discriminate.
  intros ->. reflexivity.
Qed.

(** A well-formed document yields the pair it carries. *)
Lemma cargo_metadata_of_well_formed (doc pkg : pyval) (t n : string) :
  field doc "target_directory" = Some (PStr t) →
  field doc "packages" = Some (PList [pkg]) →
  field pkg "name" = Some (PStr n) →
  cargo_metadata_of doc = Returned {| target_directory := t; package_name := n |}.
Proof.
  intros Ht Hp Hn. unfold cargo_metadata_of.
  rewrite (getitem_field _ _ _ Ht), (getitem_field _ _ _ Hp). simpl.
  rewrite (getitem_field _ _ _ Hn). reflexivity.
Qed.

(** With the three members present the decoding returns or raises one of
    its own [ValueError]s, whatever the members hold. *)
Lemma cargo_metadata_of_present (doc td pk : pyval) :
  field doc "target_directory" = Some td →
  field doc "packages" = Some pk →
  (∀ pkg, pk = PList [pkg] → is_Some (field pkg "name")) →
  (∃ meta, cargo_metadata_of doc = Returned meta) ∨
  (∃ msg, cargo_metadata_of doc = Raised (ValueError msg)).
Proof.
  intros Ht Hp Hn. unfold cargo_metadata_of.
  rewrite (getitem_field _ _ _ Ht), (getitem_field _ _ _ Hp). simpl.
  destruct td; simpl; eauto.
  destruct pk as [| [] | z | fl | s0 | [|pkg [|pkg' rest]] | []]; simpl; eauto.
  - destruct (z =? 0); simpl; eauto.
  - destruct (float_truthy fl); simpl; eauto.
  - destruct (String.eqb s0 ""); simpl; eauto.
  - destruct (Hn pkg eq_refl) as [nm Hnm].
    rewrite (getitem_field _ _ _ Hnm). simpl.
    destruct nm; simpl; eauto.
  - destruct (Pos.of_succ_nat (length rest)); simpl; eauto.
Qed.

(** C2: a document without [target_directory] does not reach the
    [ValueError] written for it: the subscript raises [KeyError] first. *)
Theorem cargo_metadata_of_missing_target_directory :
  cargo_metadata_of (PDict [("packages", PList [PDict [("name", PStr "app")]])])
  = Raised (KeyError "target_directory").
Proof. reflexivity. Qed.

Example cargo_metadata_of_missing_packages :
  cargo_metadata_of (PDict [("target_directory", PStr "C:\t")])
  = Raised (KeyError "packages").
Proof. reflexivity. Qed.

Example cargo_metadata_of_missing_name :
  cargo_metadata_of (PDict [("target_directory", PStr "C:\t"); ("packages", PList [PDict []])])
  = Raised (KeyError "name").
Proof. reflexivity. Qed.

Example cargo_metadata_of_two_packages :
  cargo_metadata_of
    (PDict [("target_directory", PStr "C:\t");
            ("packages", PList [PDict [("name", PStr "a")]; PDict [("name", PStr "b")]])])
  = Raised (ValueError "packages is not a list of length 1").
Proof. reflexivity. Qed.

(** ** The messages of the build *)

Section Messages.
Variable X : Externals.

Lemma find_binaries_step (line : string) (rest : list string) (msg : pyval)
    (acc : list pyval) :
  json_loads X line = inr msg →
  build_message msg →
  find_binaries X (line :: rest) acc
  = find_binaries X rest (acc ++ option_list (retained msg)).
Proof.
  intros Hload (reason & Hr & Hexe). simpl. rewrite Hload. simpl.
  rewrite (getitem_field _ _ _ Hr). simpl.
  unfold retained, ne_str. rewrite Hr.
  destruct (eq_str reason "compiler-artifact") eqn:E.
  - destruct (Hexe eq_refl) as [exe He].
    rewrite (getitem_field _ _ _ He), He. simpl.
    destruct reason; try discriminate. simpl in E. rewrite E. simpl.
    destruct exe as [| [] | z | f | s0 | [] | []]; simpl; rewrite ?app_nil_r;
      try reflexivity.
    + destruct (z =? 0); simpl; rewrite ?app_nil_r; reflexivity.
    + destruct (float_truthy f); simpl; rewrite ?app_nil_r; reflexivity.
    + destruct (String.eqb s0 ""); simpl; rewrite ?app_nil_r; reflexivity.
  - simpl. destruct reason; simpl; rewrite ?app_nil_r; try reflexivity.
    simpl in E. rewrite E. simpl.
    destruct (field msg "executable") as [[]|]; simpl; rewrite ?app_nil_r; reflexivity.
Qed.

Lemma find_binaries_acc (lines : list string) (msgs acc : list pyval) :
  Forall2 (fun line msg => json_loads X line = inr msg) lines msgs →
  Forall build_message msgs →
  find_binaries X lines acc = Returned (acc ++ omap retained msgs).
Proof.
  intros H. revert acc.
  induction H as [|line msg lines msgs Hload _ IH]; intros acc Hwf.
  - simpl. by rewrite app_nil_r.
  - apply Forall_cons in Hwf as [Hmsg Hwf].
    rewrite (find_binaries_step _ _ _ _ Hload Hmsg), (IH _ Hwf), <- app_assoc.
    f_equal. f_equal. simpl. destruct (retained msg); reflexivity.
Qed.

(** C6: over the messages of a build, the loop keeps the executables of
    exactly the compiler artifacts whose executable is a non-empty
    string, in order; every other message contributes nothing. *)
Theorem find_binaries_retains (lines : list string) (msgs : list pyval) :
  Forall2 (fun line msg => json_loads X line = inr msg) lines msgs →
  Forall build_message msgs →
  find_binaries X lines [] = Returned (omap retained msgs).
Proof. intros H Hwf. by rewrite (find_binaries_acc _ _ [] H Hwf). Qed.

End Messages.

(** ** Relations every run respects *)

Section Frame.
Variable R : World → World → Prop.
Hypothesis R_refl : ∀ w, R w w.
Hypothesis R_trans : ∀ a b c, R a b → R b c → R a c.

Lemma respects_ret {A} (a : A) : respects R (ret a).
Proof. intros w. apply R_refl. Qed.

Lemma respects_raise {A} (e : exn) : respects R (@raise A e).
Proof. intros w. apply R_refl. Qed.

Lemma respects_exit {A} (c : Z) : respects R (@exit A c).
Proof. intros w. apply R_refl. Qed.

Lemma respects_lift {A} (o : outcome A) : respects R (lift o).
Proof. intros w. apply R_refl. Qed.

Lemma respects_bind {A B} (m : prog A) (k : A → prog B) :
  respects R m → (∀ a, respects R (k a)) → respects R (bind m k).
Proof.
  intros Hm Hk w. unfold bind. specialize (Hm w).
  destruct (m w) as [[a|e|c] w1]; simpl in *; try assumption.
  eapply R_trans; [exact Hm | apply Hk].
Qed.

Lemma respects_try_except {A} (m : prog A) (h : prog A → prog A) :
  respects R m → (∀ again, respects R again → respects R (h again)) →
  respects R (try_except m h).
Proof.
  intros Hm Hh w. unfold try_except. specialize (Hm w).
  destruct (m w) as [[a|e|c] w1]; simpl in *; try assumption.
  - eapply R_trans; [exact Hm | apply Hh, respects_raise].
  - eapply R_trans; [exact Hm | apply Hh, respects_exit].
Qed.

Lemma respects_if {A} (b : bool) (m1 m2 : prog A) :
  respects R m1 → respects R m2 → respects R (if b then m1 else m2).
Proof. by destruct b. Qed.
End Frame.

Lemma same_dicts_refl w : same_dicts w w.
Proof. reflexivity. Qed.

Lemma same_dicts_trans a b c : same_dicts a b → same_dicts b c → same_dicts a c.
Proof. unfold same_dicts. congruence. Qed.

Lemma logged_refl P w : logged P w w.
Proof. exists []. by rewrite app_nil_r. Qed.

Lemma logged_trans P a b c : logged P a b → logged P b c → logged P a c.
Proof.
  intros (e1 & H1 & F1) (e2 & H2 & F2). exists (e1 ++ e2). split.
  - by rewrite H2, H1, app_assoc.
  - by apply Forall_app.
Qed.

Lemma logged_emit (P : event → Prop) (e : event) (w : World) :
  P e → logged P w (emit e w).
Proof. intros He. exists [e]. split; [reflexivity | by constructor]. Qed.

Lemma logged_with_fs P f w : logged P w (with_fs f w).
Proof. exists []. simpl. by rewrite app_nil_r. Qed.

Create HintDb frame.
#[local] Hint Resolve same_dicts_refl same_dicts_trans logged_refl logged_trans : frame.

(** *** What the primitives respect *)

Lemma print_same_dicts s : respects same_dicts (print s).
Proof. by intros w. Qed.

Lemma print_logged (P : event → Prop) s : P (Print s) → respects (logged P) (print s).
Proof. intros H w. by apply logged_emit. Qed.

Lemma subprocess_run_same_dicts X argv cwd env check :
  respects same_dicts (subprocess_run X argv cwd env check).
Proof.
  intros w. unfold subprocess_run.
  destruct (dicts w !! default os_environ env); [|reflexivity].
  destruct (run_process X argv cwd g (fs w)) as [[e|r] f']; simpl; [reflexivity|].
  destruct (check && negb (returncode r =? 0)); reflexivity.
Qed.

Lemma subprocess_run_logged (P : event → Prop) X argv cwd env check :
  (∀ e, P (Spawn argv cwd e)) →
  respects (logged P) (subprocess_run X argv cwd env check).
Proof.
  intros HP w. unfold subprocess_run.
  destruct (dicts w !! default os_environ env) as [e|]; [|apply logged_refl].
  assert (logged P w (emit (Spawn argv cwd e) (with_fs (run_process X argv cwd e (fs w)).2 w)))
    as HL by (exists [Spawn argv cwd e]; split; [reflexivity | by constructor]).
  destruct (run_process X argv cwd e (fs w)) as [[err|r] f']; simpl in *; [exact HL|].
  destruct (check && negb (returncode r =? 0)); exact HL.
Qed.

(** ** [build_rust_binary] and the environment *)

Lemma fresh_dict_ne (w : World) (r : nat) :
  is_Some (dicts w !! r) → fresh (dom (dicts w)) ≠ r.
Proof.
  intros Hr Heq. apply (is_fresh (dom (dicts w))).
  rewrite Heq. by apply elem_of_dom.
Qed.

(** With [PATH] and [LIB] defined the child's environment is built in a
    new dict. *)
Lemma gtk_env_ok (g : path) (w : World) (env0 : gmap string string) (p l : string) :
  dicts w !! os_environ = Some env0 →
  env0 !! "PATH" = Some p →
  env0 !! "LIB" = Some l →
  gtk_env g w =
    (Returned (fresh (dom (dicts w))),
     with_dicts (<[fresh (dom (dicts w)) := child_env g env0 p l]> (dicts w)) w).
Proof.
  intros H0 Hp Hl. unfold gtk_env, bind, dict_copy, dict_set, dict_get, ret, child_env.
  rewrite H0. simpl. set (r := fresh (dom (dicts w))).
  repeat (rewrite ?lookup_insert_eq, ?insert_insert_eq; simpl).
  rewrite lookup_insert_ne by done. rewrite Hp.
  repeat (rewrite ?lookup_insert_eq, ?insert_insert_eq; simpl).
  rewrite !lookup_insert_ne by done. rewrite Hl.
  repeat (rewrite ?lookup_insert_eq, ?insert_insert_eq; simpl).
  reflexivity.
Qed.

(** Without one of them the subscript raises, and nothing but the dict
    store has changed. *)
Lemma gtk_env_missing (g : path) (w : World) (env0 : gmap string string) :
  dicts w !! os_environ = Some env0 →
  env0 !! "PATH" = None ∨ env0 !! "LIB" = None →
  ∃ w', gtk_env g w =
          (Raised (KeyError (match env0 !! "PATH" with None => "PATH" | Some _ => "LIB" end)), w')
        ∧ log w' = log w ∧ fs w' = fs w.
Proof.
  intros H0 Hmiss. unfold gtk_env, bind, dict_copy, dict_set, dict_get, ret.
  rewrite H0. simpl. set (r := fresh (dom (dicts w))).
  repeat (rewrite ?lookup_insert_eq, ?insert_insert_eq; simpl).
  rewrite lookup_insert_ne by done.
  destruct (env0 !! "PATH") as [p|] eqn:Hp.
  - destruct Hmiss as [|Hl]; [done|].
    repeat (rewrite ?lookup_insert_eq, ?insert_insert_eq; simpl).
    rewrite !lookup_insert_ne by done. rewrite Hl. eauto.
  - eauto.
Qed.

(** The dict [os.environ] is the same object with the same items after
    the environment of the child was built. *)
Lemma gtk_env_keeps_environ (g : path) (w : World) :
  dicts (gtk_env g w).2 !! os_environ = dicts w !! os_environ.
Proof.
  unfold gtk_env, bind, dict_copy, dict_set, dict_get, ret.
  destruct (dicts w !! os_environ) as [env0|] eqn:H0; simpl; [|done].
  set (r := fresh (dom (dicts w))).
  assert (r ≠ os_environ) as Hne by (apply fresh_dict_ne; eauto).
  repeat (rewrite ?lookup_insert_eq, ?insert_insert_eq; simpl).
  rewrite lookup_insert_ne by done.
  destruct (env0 !! "PATH") as [p|]; simpl.
  2: { by rewrite lookup_insert_ne. }
  repeat (rewrite ?lookup_insert_eq, ?insert_insert_eq; simpl).
  rewrite !(lookup_insert_ne (M:=gmap string)) by done.
  destruct (env0 !! "LIB") as [l|]; simpl.
  2: { by rewrite lookup_insert_ne. }
  repeat (rewrite ?lookup_insert_eq, ?insert_insert_eq; simpl).
  by rewrite lookup_insert_ne.
Qed.

Lemma start_build_same_dicts X r : respects same_dicts (start_build X r).
Proof.
  unfold start_build.
  apply (respects_try_except same_dicts same_dicts_refl same_dicts_trans).
  - apply subprocess_run_same_dicts.
  - intros again Hagain.
    apply (respects_bind same_dicts same_dicts_trans); [apply print_same_dicts|]. intros _.
    apply (respects_bind same_dicts same_dicts_trans); [|done].
    apply subprocess_run_same_dicts.
Qed.

(** Decoding and selecting touch nothing. *)
Lemma find_built_binary_world X res w : (find_built_binary X res w).2 = w.
Proof.
  unfold find_built_binary, bind, lift, raise.
  destruct (of_sum (decode_utf8 X (stdout res))); simpl; try reflexivity.
  destruct (find_binaries X (splitlines X a) []); simpl; try reflexivity.
  destruct (negb (Z.of_nat (length a0) =? 1)); reflexivity.
Qed.

(** A build that succeeds is started once, with the dict it was given. *)
Lemma start_build_ok X r w e res f' :
  dicts w !! r = Some e →
  run_process X build_argv (Some (script_dir X)) e (fs w) = (inr res, f') →
  returncode res = 0 →
  start_build X r w =
    (Returned res, emit (Spawn build_argv (Some (script_dir X)) e) (with_fs f' w)).
Proof.
  intros Hr Hrun Hz. unfold start_build, try_except, subprocess_run. simpl.
  fold build_argv. rewrite Hr, Hrun, Hz. reflexivity.
Qed.

(** Every cargo process of the build gets the items of the dict [r], and
    there is at least one. *)
Lemma start_build_cargo_envs X r w e :
  dicts w !! r = Some e →
  ∃ evs, log (start_build X r w).2 = log w ++ evs ∧
         cargo_envs evs ≠ [] ∧ Forall (eq e) (cargo_envs evs).
Proof.
  intros Hr. unfold start_build, try_except, subprocess_run, bind, print, raise. simpl.
  rewrite Hr.
  destruct (run_process X _ _ e (fs w)) as [[err|res] f1]; simpl.
  - rewrite Hr.
    destruct (run_process X _ _ e f1) as [[err2|res2] f2]; simpl;
      exists [Spawn build_argv (Some (script_dir X)) e;
              Print ("Re-running cargo build without capturing stdout to see all errors:" +:+ nl);
              Spawn ["cargo"; "build"; "--release"] (Some (script_dir X)) e];
      (split; [by rewrite <- !app_assoc | split; [done | by repeat constructor]]).
  - destruct (negb (returncode res =? 0)); simpl.
    + rewrite Hr.
      destruct (run_process X _ _ e f1) as [[err2|res2] f2]; simpl;
        exists [Spawn build_argv (Some (script_dir X)) e;
                Print ("Re-running cargo build without capturing stdout to see all errors:" +:+ nl);
                Spawn ["cargo"; "build"; "--release"] (Some (script_dir X)) e];
        (split; [by rewrite <- !app_assoc | split; [done | by repeat constructor]]).
    + exists [Spawn build_argv (Some (script_dir X)) e].
      split; [done | split; [done | by repeat constructor]].
Qed.

(** C9: whatever [build_rust_binary] does and however it ends, the dict
    [os.environ] of the process holds the same items afterwards: every
    assignment went to the copy. *)
Theorem build_rust_binary_keeps_environ (X : Externals) (g : string) (w : World) :
  dicts (build_rust_binary X g w).2 !! os_environ = dicts w !! os_environ.
Proof.
  unfold build_rust_binary.
  pose proof (gtk_env_keeps_environ (Path g) w) as Henv.
  unfold bind at 1.
  destruct (gtk_env (Path g) w) as [[r|e|c] w1]; simpl in *; try exact Henv.
  rewrite <- Henv. f_equal.
  apply (respects_bind same_dicts same_dicts_trans).
  - apply start_build_same_dicts.
  - intros res w2. unfold same_dicts. by rewrite find_built_binary_world.
Qed.

(** C10: when [os.environ] lacks [PATH] or [LIB], [build_rust_binary]
    raises the [KeyError] of the first missing one and has by then started
    no process and touched no file. *)
Theorem build_rust_binary_needs_PATH_and_LIB (X : Externals) (g : string) (w : World)
    (env0 : gmap string string) :
  dicts w !! os_environ = Some env0 →
  env0 !! "PATH" = None ∨ env0 !! "LIB" = None →
  (build_rust_binary X g w).1 =
    Raised (KeyError (match env0 !! "PATH" with None => "PATH" | Some _ => "LIB" end))
  ∧ log (build_rust_binary X g w).2 = log w
  ∧ fs (build_rust_binary X g w).2 = fs w.
Proof.
  intros H0 Hmiss.
  destruct (gtk_env_missing (Path g) w env0 H0 Hmiss) as (w' & Hg & Hlog & Hfs).
  unfold build_rust_binary, bind. rewrite Hg. simpl. auto.
Qed.

(** C3: once the build has succeeded and its output has been parsed into
    the retained executables [binaries], the function returns the only
    one when there is exactly one and fails its assertion otherwise. *)
Theorem build_rust_binary_exactly_one (X : Externals) (g : string) (w : World)
    (env0 : gmap string string) (p l text : string) (res : proc_result)
    (f' : gmap path node) (binaries : list pyval) :
  dicts w !! os_environ = Some env0 →
  env0 !! "PATH" = Some p →
  env0 !! "LIB" = Some l →
  run_process X build_argv (Some (script_dir X)) (child_env (Path g) env0 p l) (fs w)
    = (inr res, f') →
  returncode res = 0 →
  decode_utf8 X (stdout res) = inr text →
  find_binaries X (splitlines X text) [] = Returned binaries →
  (build_rust_binary X g w).1 =
    match binaries with
    | [binary] => Returned binary
    | _ => Raised AssertionError
    end.
Proof.
  intros H0 Hp Hl Hrun Hz Hdec Hfind.
  unfold build_rust_binary. unfold bind at 1.
  rewrite (gtk_env_ok _ _ _ _ _ H0 Hp Hl).
  unfold bind at 1.
  erewrite start_build_ok; eauto.
  2: { simpl. apply lookup_insert_eq. }
  unfold find_built_binary, bind, lift, raise. rewrite Hdec. simpl. rewrite Hfind. simpl.
  destruct binaries as [|b [|b' rest]]; try reflexivity.
  assert ((Z.of_nat (length (b :: b' :: rest)) =? 1) = false) as ->
    by (apply Z.eqb_neq; simpl length; lia).
  reflexivity.
Qed.

(** The cargo processes of [build_rust_binary] all get [child_env]. *)
Lemma build_rust_binary_cargo_envs (X : Externals) (g : string) (w : World)
    (env0 : gmap string string) (p l : string) :
  dicts w !! os_environ = Some env0 →
  env0 !! "PATH" = Some p →
  env0 !! "LIB" = Some l →
  ∃ evs, log (build_rust_binary X g w).2 = log w ++ evs ∧
         cargo_envs evs ≠ [] ∧
         Forall (eq (child_env (Path g) env0 p l)) (cargo_envs evs).
Proof.
  intros H0 Hp Hl. unfold build_rust_binary. unfold bind at 1.
  rewrite (gtk_env_ok _ _ _ _ _ H0 Hp Hl).
  set (w1 := with_dicts _ w).
  destruct (start_build_cargo_envs X (fresh (dom (dicts w))) w1
              (child_env (Path g) env0 p l)) as (evs & Hlog & Hne & Hall).
  { simpl. apply lookup_insert_eq. }
  exists evs. split; [|done].
  unfold bind.
  destruct (start_build X _ w1) as [[res|e|c] w2]; simpl in *; try exact Hlog.
  by rewrite find_built_binary_world.
Qed.

(** C1, as the code has it: cargo is started, and every cargo process
    gets [PATH] and [LIB] as the parent has them with [;] and a directory
    of the toolkit appended, [PKG_CONFIG_PATH] set to the toolkit's
    [lib/pkgconfig] whatever the parent had there, and every other
    variable as in the parent. *)
Theorem build_rust_binary_child_environment (X : Externals) (g : string) (w : World)
    (env0 : gmap string string) (p l : string) :
  dicts w !! os_environ = Some env0 →
  env0 !! "PATH" = Some p →
  env0 !! "LIB" = Some l →
  ∃ evs, log (build_rust_binary X g w).2 = log w ++ evs ∧
    cargo_envs evs ≠ [] ∧
    ∀ env, env ∈ cargo_envs evs →
      env !! "PATH" = Some (p +:+ ";" +:+ str (resolve (Path g))) ∧
      env !! "LIB" = Some (l +:+ ";" +:+ str (resolve (joinpath (Path g) "../lib"))) ∧
      env !! "PKG_CONFIG_PATH" = Some (str (resolve (joinpath (Path g) "../lib/pkgconfig"))) ∧
      ∀ k, k ≠ "PATH" → k ≠ "LIB" → k ≠ "PKG_CONFIG_PATH" → env !! k = env0 !! k.
Proof.
  intros H0 Hp Hl.
  destruct (build_rust_binary_cargo_envs X g w env0 p l H0 Hp Hl) as (evs & Hlog & Hne & Hall).
  exists evs. split; [done|]. split; [done|].
  intros env Hin. rewrite Forall_forall in Hall. rewrite <- (Hall _ Hin).
  unfold child_env. repeat split.
  - rewrite lookup_insert_ne by done. by rewrite lookup_insert_eq.
  - by rewrite lookup_insert_eq.
  - rewrite !lookup_insert_ne by done. by rewrite lookup_insert_eq.
  - intros k H1 H2 H3. by rewrite !lookup_insert_ne.
Qed.

(** C1, as stated, fails: the parent's [PKG_CONFIG_PATH] is not carried
    over into the value the child gets. *)
Lemma build_rust_binary_replaces_PKG_CONFIG_PATH :
  ¬ (∀ env,
       env ∈ cargo_envs
               (log (build_rust_binary (Demo.externals Demo.listing Demo.release_ok)
                       "C:/gtk/bin" Demo.world).2) →
       augmented Demo.parent_env env "PKG_CONFIG_PATH").
Proof.
  intros H.
  destruct (H (child_env (Path "C:/gtk/bin") Demo.parent_env "C:\Windows" "C:\sdk\lib"))
    as (old & extra & Hold & Hnew).
  - vm_compute. left.
  - vm_compute in Hold. vm_compute in Hnew.
    injection Hold as <-. discriminate Hnew.
Qed.

(** ** The download of the toolkit *)

Lemma filter_gtk4_named (X : Externals) (assets : list pyval) :
  Forall named assets →
  filter_gtk4 X assets = Returned (List.filter (is_gtk4 X) assets).
Proof.
  induction 1 as [|a assets [nm Hnm] _ IH]; [reflexivity|].
  simpl. rewrite (getitem_field _ _ _ Hnm), IH. simpl.
  unfold is_gtk4. rewrite Hnm. reflexivity.
Qed.

Lemma ne_str_true (o : pyval) (s : string) : o ≠ PStr s → ne_str o s = true.
Proof.
  intros Hne. unfold ne_str, eq_str. destruct o; try reflexivity.
  destruct (String.eqb_spec s0 s); [congruence | reflexivity].
Qed.

Lemma filter_named {X assets a} :
  Forall named assets → a ∈ List.filter (is_gtk4 X) assets → named a.
Proof.
  intros Hall Hin. rewrite Forall_forall in Hall. apply Hall.
  apply list_elem_of_In in Hin. apply filter_In in Hin as [Hin _].
  by apply list_elem_of_In.
Qed.

Ltac run_download :=
  unfold download_release, bind, requests_get_, lift, print, exit, ret, emit; simpl.

Ltac close_refusal :=
  repeat split; try reflexivity;
  eexists; split;
  [ simpl; rewrite <- ?app_assoc; simpl; reflexivity
  | split; [ repeat first [ apply Exists_cons_hd; reflexivity | apply Exists_cons_tl ]
           | repeat constructor ] ].

#[local] Arguments Z.of_nat : simpl never.
#[local] Arguments List.filter : simpl never.

(** A refused answer ends the download with [exit(1)] after the request
    and some printing; one of the lines is a diagnostic. *)
Lemma download_release_refused (X : Externals) (dir : path) (w : World) (resp : response) :
  requests_get X releases_url = inr resp →
  refused X resp →
  (download_release X dir w).1 = Exited 1 ∧
  fs (download_release X dir w).2 = fs w ∧
  ∃ evs, log (download_release X dir w).2 = log w ++ HttpGet releases_url :: evs ∧
         Exists is_diagnostic evs ∧ Forall is_print evs.
Proof.
  intros Hget Href. run_download. rewrite Hget. simpl.
  destruct Href as [Hst | assets (Hst & data & Hb & Ha & Hn) Hf
                        | assets (Hst & data & Hb & Ha & Hn) Hf
                        | assets a url ct (Hst & data & Hb & Ha & Hn) Hf Hurl Hct Hne].
  - apply Z.eqb_neq in Hst. rewrite Hst. simpl. close_refusal.
  - rewrite Hst, Hb. simpl. rewrite (getitem_field _ _ _ Ha). simpl.
    destruct (Z.of_nat (length assets) =? 0); simpl; [close_refusal|].
    rewrite (filter_gtk4_named X _ Hn), Hf. simpl. close_refusal.
  - rewrite Hst, Hb. simpl. rewrite (getitem_field _ _ _ Ha). simpl.
    destruct (Z.of_nat (length assets) =? 0); simpl; [close_refusal|].
    rewrite (filter_gtk4_named X _ Hn). simpl.
    assert ((Z.of_nat (length (List.filter (is_gtk4 X) assets)) =? 1) = false) as ->
      by (apply Z.eqb_neq; lia).
    simpl. close_refusal.
  - rewrite Hst, Hb. simpl. rewrite (getitem_field _ _ _ Ha). simpl.
    destruct (Z.of_nat (length assets) =? 0); simpl; [close_refusal|].
    rewrite (filter_gtk4_named X _ Hn), Hf. simpl.
    assert (named a) as [nm Hnm] by (apply (filter_named (X:=X) Hn); rewrite Hf; left).
    rewrite (getitem_field _ _ _ Hnm). simpl.
    rewrite (getitem_field _ _ _ Hurl). simpl.
    destruct (is_none url); simpl; [close_refusal|].
    rewrite (getitem_field _ _ _ Hct). simpl.
    rewrite (ne_str_true _ _ Hne). simpl. close_refusal.
Qed.

(** *** Running a sequence *)

Lemma bind_returned {A B} (m : prog A) (k : A → prog B) (w w' : World) (a : A) :
  m w = (Returned a, w') → bind m k w = k a w'.
Proof. intros H. unfold bind. by rewrite H. Qed.

Lemma bind_exited {A B} (m : prog A) (k : A → prog B) (w : World) (c : Z) :
  (m w).1 = Exited c → bind m k w = (Exited c, (m w).2).
Proof. unfold bind. destruct (m w) as [[a|e|c'] w']; simpl; congruence. Qed.

Lemma bind_print {B} (s : string) (k : unit → prog B) (w : World) :
  bind (print s) k w = k tt (emit (Print s) w).
Proof. reflexivity. Qed.

(** With a missing cache directory the branch is the download. *)
Lemma download_gtk_branch_missing (X : Externals) (meta : CargoMetadata) (w : World) :
  fs w !! cache_dir meta = None →
  download_gtk_branch X meta w =
    bind (download_release X (cache_dir meta))
         (fun _ => ret (joinpath (cache_dir meta) "bin"))
         (emit (Print "")
            (emit (Print "Downloading latest GTK release by gvsbuild from https://github.com/wingtk/gvsbuild/releases") w)).
Proof.
  intros Hcache. unfold download_gtk_branch. fold (cache_dir meta).
  rewrite !bind_print. unfold bind at 1. unfold path_exists at 1. simpl.
  rewrite Hcache. rewrite bool_decide_eq_false_2 by (by intros [? ?]). reflexivity.
Qed.

(** The branch with a missing cache directory and a refused answer. *)
Lemma download_gtk_branch_refused (X : Externals) (meta : CargoMetadata) (w : World)
    (resp : response) :
  fs w !! cache_dir meta = None →
  requests_get X releases_url = inr resp →
  refused X resp →
  (download_gtk_branch X meta w).1 = Exited 1 ∧
  fs (download_gtk_branch X meta w).2 = fs w ∧
  ∃ evs, log (download_gtk_branch X meta w).2 = log w ++ evs ∧
         Exists is_diagnostic evs ∧ Forall (fun e => ¬ is_download e) evs.
Proof.
  intros Hcache Hget Href.
  rewrite (download_gtk_branch_missing X meta w Hcache).
  set (w2 := emit _ (emit _ w)).
  destruct (download_release_refused X (cache_dir meta) w2 resp Hget Href)
    as (Hout & Hfs & evs & Hlog & Hdiag & Hprints).
  rewrite (bind_exited _ _ _ _ Hout). simpl.
  split; [reflexivity|]. split; [exact Hfs|].
  eexists. split; [rewrite Hlog; simpl; rewrite <- !app_assoc; reflexivity|].
  split.
  - simpl. do 3 apply Exists_cons_tl. exact Hdiag.
  - repeat (constructor; [by intros []|]).
    eapply Forall_impl; [exact Hprints|]. by intros [] Hp Hd.
Qed.

(** C4: with [--download-gtk], a missing cache directory and an answer of
    one of the four refused kinds, the script ends with [exit(1)], has
    printed a diagnostic, and has neither opened the download URL nor
    extracted anything nor touched the file system. *)
Theorem bundle_refuses_download (X : Externals) (args : Args) (w w1 : World)
    (meta : CargoMetadata) (resp : response) :
  download_gtk args = true →
  get_cargo_metadata X (emit (Print "") w) = (Returned meta, w1) →
  fs w1 !! cache_dir meta = None →
  requests_get X releases_url = inr resp →
  refused X resp →
  (bundle X args w).1 = Exited 1 ∧
  fs (bundle X args w).2 = fs w1 ∧
  ∃ evs, log (bundle X args w).2 = log w1 ++ evs ∧
         Exists is_diagnostic evs ∧ Forall (fun e => ¬ is_download e) evs.
Proof.
  intros Hdl Hmeta Hcache Hget Href.
  destruct (download_gtk_branch_refused X meta w1 resp Hcache Hget Href)
    as (Hout & Hfs & evs & Hlog & Hdiag & Hnone).
  assert (bundle X args w = (Exited 1, (download_gtk_branch X meta w1).2)) as ->.
  { unfold bundle. rewrite bind_print. rewrite (bind_returned _ _ _ _ _ Hmeta).
    rewrite Hdl. by rewrite (bind_exited _ _ _ _ Hout). }
  simpl. split; [reflexivity|]. split; [exact Hfs|]. by exists evs.
Qed.

(** ** Directories *)

Lemma on_the_way_cons base c rest p :
  on_the_way base (c :: rest) p ↔ p = base ++ [c] ∨ on_the_way (base ++ [c]) rest p.
Proof.
  split.
  - intros (k & [Hk1 Hk2] & ->). destruct k as [|k]; [lia|]. simpl in *.
    destruct k as [|k].
    + left. by rewrite take_0.
    + right. exists (S k). split; [lia|]. by rewrite <- app_assoc.
  - intros [-> | (k & [Hk1 Hk2] & ->)].
    + exists 1%nat. simpl. split; [lia|]. by rewrite take_0.
    + exists (S k). simpl. split; [lia|]. by rewrite <- app_assoc.
Qed.

Lemma mkdir_from_keeps base todo f f' :
  mkdir_from base todo f = inr f' →
  ∀ p n, f !! p = Some n → f' !! p = Some n.
Proof.
  revert base f. induction todo as [|c rest IH]; intros base f H p n Hp; simpl in H.
  - by injection H as <-.
  - destruct (f !! (base ++ [c])) as [[content| |content]|] eqn:E; [discriminate| |discriminate|].
    + eapply IH; eauto.
    + eapply IH; [exact H|]. rewrite lookup_insert_ne; [done|].
      intros Heq. rewrite Heq in E. congruence.
Qed.

Lemma mkdir_from_dirs base todo f f' :
  mkdir_from base todo f = inr f' →
  ∀ p, on_the_way base todo p → f' !! p = Some Dir.
Proof.
  revert base f. induction todo as [|c rest IH]; intros base f H p Hp; simpl in H.
  - destruct Hp as (k & [? ?] & _). simpl in *. lia.
  - apply on_the_way_cons in Hp.
    destruct (f !! (base ++ [c])) as [[content| |content]|] eqn:E; [discriminate| |discriminate|].
    + destruct Hp as [-> | Hp]; [|eapply IH; eauto].
      eapply mkdir_from_keeps; eauto.
    + destruct Hp as [-> | Hp]; [|eapply IH; eauto].
      eapply mkdir_from_keeps; [exact H|]. apply lookup_insert_eq.
Qed.

Lemma mkdir_from_new base todo f f' :
  mkdir_from base todo f = inr f' →
  ∀ p, f !! p = None → f' !! p = None ∨ (f' !! p = Some Dir ∧ on_the_way base todo p).
Proof.
  revert base f. induction todo as [|c rest IH]; intros base f H p Hp; simpl in H.
  - injection H as <-. by left.
  - destruct (f !! (base ++ [c])) as [[content| |content]|] eqn:E; [discriminate| |discriminate|].
    + destruct (IH _ _ H p Hp) as [?|[? ?]]; [by left|].
      right. split; [done|]. apply on_the_way_cons. by right.
    + destruct (decide (p = base ++ [c])) as [->|Hne].
      * right. split; [|apply on_the_way_cons; by left].
        eapply mkdir_from_keeps; [exact H|]. apply lookup_insert_eq.
      * destruct (IH _ _ H p) as [?|[? ?]]; [by rewrite lookup_insert_ne|by left|].
        right. split; [done|]. apply on_the_way_cons. by right.
Qed.

Lemma mkdir_from_id base todo f :
  (∀ p, on_the_way base todo p → f !! p = Some Dir) →
  mkdir_from base todo f = inr f.
Proof.
  revert base. induction todo as [|c rest IH]; intros base H; simpl; [done|].
  rewrite (H (base ++ [c])) by (apply on_the_way_cons; by left).
  apply IH. intros p Hp. apply H. apply on_the_way_cons. by right.
Qed.

Lemma on_the_way_full base todo : todo ≠ [] → on_the_way base todo (base ++ todo).
Proof.
  intros Hne. exists (length todo). split.
  - destruct todo; [done|]. simpl. lia.
  - by rewrite firstn_all.
Qed.

(** After [mkdir -p] everything that was there is still there. *)
Lemma mkdir_from_present base todo f f' p :
  mkdir_from base todo f = inr f' → is_Some (f !! p) → is_Some (f' !! p).
Proof. intros H [n Hn]. exists n. eapply mkdir_from_keeps; eauto. Qed.

(** ** Extraction *)

Lemma extract_member_written dest m f f' :
  dest ≠ [] →
  extract_member dest m f = inr f' →
  (∀ p n, f !! p = Some n → p ≠ dest ++ m.1 → f' !! p = Some n) ∧
  (∀ p, f !! p = Some Dir → f' !! p = Some Dir) ∧
  f' !! (dest ++ m.1) = Some (extracted m.2).
Proof.
  intros Hdest. unfold extract_member. destruct m as [rel n]; simpl.
  assert (dest ++ rel ≠ []) as Hne by (by destruct dest).
  destruct n as [content| |content]; simpl.
  1,3: destruct (mkdir_from [] (parent (dest ++ rel)) f) as [e|f1] eqn:Hmk; [discriminate|];
       destruct (f1 !! (dest ++ rel)) as [[c| |c]|] eqn:E; try discriminate;
       intros [= <-]; (split; [|split; [|by rewrite lookup_insert_eq]]).
  1,3,5,7: intros p n Hp Hp'; rewrite lookup_insert_ne by done;
           eapply mkdir_from_keeps; eauto.
  1-4: intros p Hp; pose proof (mkdir_from_keeps _ _ _ _ Hmk _ _ Hp) as Hp1;
       rewrite lookup_insert_ne; [done|]; intros <-; congruence.
  intros Hmk. split; [|split].
  - intros p n Hp _. eapply mkdir_from_keeps; eauto.
  - intros p Hp. eapply mkdir_from_keeps; eauto.
  - by apply (mkdir_from_dirs _ _ _ _ Hmk), (on_the_way_full []).
Qed.

(** An extraction that went through wrote every member where it belongs,
    with its content, and kept every other entry. *)
Lemma extract_members_written dest ms f f' :
  dest ≠ [] →
  extract_members dest ms f = inr f' →
  (∀ p n, f !! p = Some n → (∀ m, m ∈ ms → p ≠ dest ++ m.1) → f' !! p = Some n) ∧
  (∀ p, f !! p = Some Dir → f' !! p = Some Dir) ∧
  (NoDup ms.*1 → ∀ m, m ∈ ms → f' !! (dest ++ m.1) = Some (extracted m.2)).
Proof.
  intros Hdest. revert f. induction ms as [|m ms IH]; intros f H; simpl in H.
  - injection H as <-. split; [done|]. split; [done|].
    intros _ m Hm. by apply elem_of_nil in Hm.
  - destruct (extract_member dest m f) as [e|f1] eqn:Hm; [discriminate|].
    destruct (extract_member_written _ _ _ _ Hdest Hm) as (Hkeep & Hdir & Hnew).
    destruct (IH _ H) as (Hkeep' & Hdir' & Hall). split; [|split].
    + intros p n Hp Hfree. apply Hkeep'.
      * apply Hkeep; [done|]. apply Hfree. by left.
      * intros m' Hm'. apply Hfree. by right.
    + auto.
    + rewrite fmap_cons. intros [Hnotin Hnd]%NoDup_cons m' [->|Hin]%elem_of_cons.
      * apply Hkeep'; [done|]. intros m' Hm' Heq. apply Hnotin.
        apply app_inv_head in Heq. rewrite Heq. by apply list_elem_of_fmap_2.
      * by apply Hall.
Qed.

(** ** The cache *)

Lemma download_release_fetches (X : Externals) (dir : path) (w : World)
    (resp : response) (url : string) (members : list (path * node)) (f' : gmap path node) :
  requests_get X releases_url = inr resp →
  offers X resp url →
  unpacks X url members dir (fs w) f' →
  (download_release X dir w).1 = Returned tt ∧
  fs (download_release X dir w).2 = f' ∧
  ∃ evs, log (download_release X dir w).2 = log w ++ evs ∧
         transfers evs = [HttpGet releases_url; UrlOpen url; ExtractAll dir].
Proof.
  intros Hget (assets & a & (Hst & data & Hb & Ha & Hn) & Hf & Hurl & Hct)
         (archive & f1 & Hopen & Hzip & Hmk & Hex).
  assert (named a) as [nm Hnm] by (apply (filter_named (X:=X) Hn); rewrite Hf; left).
  run_download. rewrite Hget. simpl. rewrite Hst, Hb. simpl.
  rewrite (getitem_field _ _ _ Ha). simpl.
  destruct (Z.eqb_spec (Z.of_nat (length assets)) 0) as [Hz|_]; simpl.
  { destruct assets; [discriminate Hf | simpl in Hz; lia]. }
  rewrite (filter_gtk4_named X _ Hn), Hf. simpl.
  rewrite (getitem_field _ _ _ Hnm). simpl.
  rewrite (getitem_field _ _ _ Hurl). simpl.
  rewrite (getitem_field _ _ _ Hct). simpl.
  unfold mkdir_parents, on_fs, urlopen, extractall. simpl. rewrite Hmk. simpl.
  rewrite Hopen. simpl. rewrite Hzip. simpl. rewrite Hex. simpl.
  repeat split. eexists. split; [rewrite <- !app_assoc; simpl; reflexivity|].
  reflexivity.
Qed.

(** C5: in the [--download-gtk] branch, a cache directory that exists is
    used as it is, with no request, no download and no extraction; a
    missing one is created and, when the releases answer offers the one
    archive and it unpacks, its members at distinct paths, filled by one
    request for the listing, one download and one extraction: every
    member of the archive is then in
    the cache directory at its own path, a directory as a directory and a
    file as a file with the member's content, and whatever else the disk
    held is as it was. *)
Theorem download_gtk_branch_cache (X : Externals) (meta : CargoMetadata) (w : World) :
  (is_Some (fs w !! cache_dir meta) →
     (download_gtk_branch X meta w).1 = Returned (joinpath (cache_dir meta) "bin") ∧
     fs (download_gtk_branch X meta w).2 = fs w ∧
     ∃ evs, log (download_gtk_branch X meta w).2 = log w ++ evs ∧ transfers evs = [])
  ∧
  (fs w !! cache_dir meta = None →
   ∀ resp url members f',
     requests_get X releases_url = inr resp →
     offers X resp url →
     unpacks X url members (cache_dir meta) (fs w) f' →
     NoDup members.*1 →
     (download_gtk_branch X meta w).1 = Returned (joinpath (cache_dir meta) "bin") ∧
     fs (download_gtk_branch X meta w).2 = f' ∧
     fs (download_gtk_branch X meta w).2 !! cache_dir meta = Some Dir ∧
     (∀ m, m ∈ members →
        fs (download_gtk_branch X meta w).2 !! (cache_dir meta ++ m.1)
          = Some (extracted m.2)) ∧
     (∀ p n, fs w !! p = Some n → (∀ m, m ∈ members → p ≠ cache_dir meta ++ m.1) →
             fs (download_gtk_branch X meta w).2 !! p = Some n) ∧
     ∃ evs, log (download_gtk_branch X meta w).2 = log w ++ evs ∧
            transfers evs = [HttpGet releases_url; UrlOpen url; ExtractAll (cache_dir meta)]).
Proof.
  split.
  - intros Hcache.
    assert (download_gtk_branch X meta w =
              (Returned (joinpath (cache_dir meta) "bin"),
               emit (Print "")
                 (emit (Print ("GTK release already downloaded at: " +:+ str (cache_dir meta)))
                    (emit (Print "")
                       (emit (Print "Downloading latest GTK release by gvsbuild from https://github.com/wingtk/gvsbuild/releases") w))))) as ->.
    { unfold download_gtk_branch. fold (cache_dir meta).
      rewrite !bind_print. unfold bind at 1. unfold path_exists at 1. simpl.
      by rewrite bool_decide_eq_true_2. }
    simpl. repeat split. eexists. split; [rewrite <- !app_assoc; simpl; reflexivity|].
    reflexivity.
  - intros Hcache resp url members f' Hget Hoffers Hunpack Hnodup.
    rewrite (download_gtk_branch_missing X meta w Hcache).
    set (w2 := emit _ (emit _ w)).
    destruct (download_release_fetches X (cache_dir meta) w2 resp url members f' Hget Hoffers Hunpack)
      as (Hout & Hfs & evs & Hlog & Htr).
    unfold bind.
    destruct (download_release X (cache_dir meta) w2) as [o w3]. simpl in *. subst o.
    simpl. split; [reflexivity|]. split; [exact Hfs|]. rewrite Hfs.
    destruct Hunpack as (archive & f1 & _ & _ & Hmk & Hex).
    assert (cache_dir meta ≠ []) as Hne.
    { unfold cache_dir, joinpath. intros Heq. by apply app_eq_nil in Heq as [_ ?]. }
    apply (extract_members_written _ _ _ _ Hne) in Hex as (Hkeep & Hdir & Hall).
    split; [|split; [|split]].
    + by apply Hdir, (mkdir_from_dirs _ _ _ _ Hmk), (on_the_way_full []).
    + by apply Hall.
    + intros p n Hp Hfree. apply Hkeep; [|done]. eapply mkdir_from_keeps; eauto.
    + eexists. split; [rewrite Hlog; rewrite <- !app_assoc; simpl; reflexivity|].
      simpl. exact Htr.
Qed.

(** ** What a run may log *)

(** A program that logs nothing respects every [logged P]. *)
Lemma silent_logged {A} (P : event → Prop) (m : prog A) :
  (∀ w, log (m w).2 = log w) → respects (logged P) m.
Proof. intros H w. exists []. by rewrite H, app_nil_r. Qed.

Ltac silent :=
  apply silent_logged; intros ?;
  repeat match goal with
         | |- context [match ?x with _ => _ end] => destruct x; simpl
         | _ => progress (cbv beta delta
                  [path_exists mkdir_parents glob copy2 open_w file_write on_fs
                   dict_copy dict_get dict_set lift raise exit ret]; simpl)
         end; reflexivity.

Section Logged.
Variable P : event → Prop.
Hypothesis P_print : ∀ s, P (Print s).
Hypothesis P_cargo : ∀ rest cwd e, P (Spawn ("cargo" :: rest) cwd e).
Hypothesis P_get : ∀ url, P (HttpGet url).
Hypothesis P_open : ∀ url, P (UrlOpen url).
Hypothesis P_extract : ∀ dest, P (ExtractAll dest).

Lemma path_exists_logged p : respects (logged P) (path_exists p).
Proof. silent. Qed.
Lemma mkdir_parents_logged p : respects (logged P) (mkdir_parents p).
Proof. silent. Qed.
Lemma glob_logged d s : respects (logged P) (glob d s).
Proof. silent. Qed.
Lemma copy2_logged a b : respects (logged P) (copy2 a b).
Proof. silent. Qed.
Lemma open_w_logged p : respects (logged P) (open_w p).
Proof. silent. Qed.
Lemma file_write_logged p s : respects (logged P) (file_write p s).
Proof. silent. Qed.
Lemma dict_copy_logged r : respects (logged P) (dict_copy r).
Proof. silent. Qed.
Lemma dict_get_logged r k : respects (logged P) (dict_get r k).
Proof. silent. Qed.
Lemma dict_set_logged r k v : respects (logged P) (dict_set r k v).
Proof. silent. Qed.

Lemma requests_get_logged X url : respects (logged P) (requests_get_ X url).
Proof. intros w. apply logged_emit, P_get. Qed.

Lemma urlopen_logged X url : respects (logged P) (urlopen X url).
Proof.
  intros w. unfold urlopen.
  destruct url; simpl; try apply logged_refl. apply logged_emit, P_open.
Qed.

Lemma extractall_logged ms dest : respects (logged P) (extractall ms dest).
Proof.
  intros w. unfold extractall.
  destruct (extract_members dest ms (fs w)); simpl.
  - apply logged_emit, P_extract.
  - eapply logged_trans; [apply logged_emit, P_extract | apply logged_with_fs].
Qed.

Ltac logged_steps :=
  repeat first
    [ apply (respects_bind (logged P) (logged_trans P)); [|intros ?]
    | apply (respects_ret (logged P) (logged_refl P))
    | apply (respects_raise (logged P) (logged_refl P))
    | apply (respects_exit (logged P) (logged_refl P))
    | apply (respects_lift (logged P) (logged_refl P))
    | apply print_logged, P_print
    | apply subprocess_run_logged; intros; apply P_cargo
    | apply path_exists_logged | apply mkdir_parents_logged | apply glob_logged
    | apply copy2_logged | apply open_w_logged | apply file_write_logged
    | apply dict_copy_logged | apply dict_get_logged | apply dict_set_logged
    | apply requests_get_logged | apply urlopen_logged | apply extractall_logged
    | apply respects_if
    | match goal with |- respects _ (if ?b then _ else _) => destruct b end ].

Lemma get_cargo_metadata_logged X : respects (logged P) (get_cargo_metadata X).
Proof. unfold get_cargo_metadata. logged_steps. Qed.

Lemma download_release_logged X dir : respects (logged P) (download_release X dir).
Proof. unfold download_release. logged_steps. Qed.

Lemma download_gtk_branch_logged X meta : respects (logged P) (download_gtk_branch X meta).
Proof. unfold download_gtk_branch. logged_steps. Qed.

Lemma copy_dlls_logged dlls b : respects (logged P) (copy_dlls dlls b).
Proof. induction dlls; simpl; logged_steps. assumption. Qed.

Lemma assemble_bundle_logged gtk meta : respects (logged P) (assemble_bundle gtk meta).
Proof. unfold assemble_bundle. logged_steps. apply copy_dlls_logged. Qed.

Lemma build_rust_binary_logged X g : respects (logged P) (build_rust_binary X g).
Proof.
  unfold build_rust_binary, gtk_env, start_build. logged_steps.
  apply (respects_try_except (logged P) (logged_refl P) (logged_trans P)).
  - logged_steps.
  - intros again Hagain. logged_steps. assumption.
Qed.
End Logged.

(** ** The archive and the windows *)

Lemma presentation_backstage evs : Forall backstage evs → presentation evs = [].
Proof.
  induction 1 as [|e evs He _ IH]; [reflexivity|].
  unfold presentation in *. simpl. by rewrite He.
Qed.

Lemma presentation_app e1 e2 : presentation (e1 ++ e2) = presentation e1 ++ presentation e2.
Proof. apply omap_app. Qed.

Lemma backstage_print s : backstage (Print s).
Proof. reflexivity. Qed.

Lemma backstage_cargo rest cwd e : backstage (Spawn ("cargo" :: rest) cwd e).
Proof. unfold backstage. simpl. by destruct rest as [|? [|? [|? ?]]]. Qed.

Lemma backstage_get url : backstage (HttpGet url).
Proof. reflexivity. Qed.

Lemma backstage_open url : backstage (UrlOpen url).
Proof. reflexivity. Qed.

Lemma backstage_extract dest : backstage (ExtractAll dest).
Proof. reflexivity. Qed.

(** What the last part of the script shows. *)
Lemma archive_and_reveal_shows (X : Externals) (args : Args) (bundle_dir binary : path)
    (w : World) :
  ∃ evs,
    log (archive_and_reveal X args bundle_dir binary w).2 = log w ++ evs ∧
    presentation evs `prefix_of` expected args binary bundle_dir ∧
    ∀ a, (archive_and_reveal X args bundle_dir binary w).1 = Returned a →
         presentation evs = expected args binary bundle_dir.
Proof.
  exists (drop (length (log w)) (log (archive_and_reveal X args bundle_dir binary w).2)).
  unfold archive_and_reveal, expected, show_file_in_explorer, subprocess_run, make_archive,
    bind, print, ret.
  destruct (show_binary args), (show_zip args); simpl;
    repeat match goal with
      | |- context [dicts ?w !! ?r] => destruct (dicts w !! r) eqn:?; simpl
      | |- context [run_process ?X ?a ?c ?e ?f] =>
          destruct (run_process X a c e f) as [[?|?] ?] eqn:?; simpl
      | |- context [is_dir ?f ?p] => destruct (is_dir f p) eqn:?; simpl
      | |- context [?f !! Path ?s] => destruct (f !! Path s) as [[]|] eqn:?; simpl
      end;
    rewrite <- ?app_assoc; simpl; rewrite drop_app_length; simpl;
    (split; [reflexivity|]);
    (split; [by eexists | done]).
Qed.

(** ** Bundle assembly, seen from the file system *)

Section FsEffect.
Context {A : Type}.

Lemma fs_effect_ext (m m' : prog A) g :
  (∀ w, m w = m' w) → fs_effect m g → fs_effect m' g.
Proof. intros Heq H w. rewrite <- Heq. apply H. Qed.

Lemma fs_effect_ret (a : A) : fs_effect (ret a) (fun f => inr (a, f)).
Proof. by intros w. Qed.

Lemma fs_effect_print s (k : prog A) g :
  fs_effect k g → fs_effect (print s ;; k) g.
Proof. intros H w. rewrite bind_print. apply (H (emit (Print s) w)). Qed.

Lemma fs_effect_on_fs op (k : prog A) g :
  fs_effect k g → fs_effect (on_fs op ;; k) (then_fs op g).
Proof.
  intros H w. unfold bind, on_fs, then_fs.
  destruct (op (fs w)) as [e|f']; [reflexivity|]. apply (H (with_fs f' w)).
Qed.

Lemma fs_effect_glob dir suffix (k : list path → prog A) g :
  (∀ l, fs_effect (k l) (g l)) →
  fs_effect (let* l := glob dir suffix in k l) (with_glob dir suffix g).
Proof. intros H w. unfold bind, glob, with_glob. apply H. Qed.
End FsEffect.

Lemma bind_assoc {A B C} (m : prog A) (k : A → prog B) (h : B → prog C) (w : World) :
  bind (bind m k) h w = bind m (fun a => bind (k a) h) w.
Proof. unfold bind. by destruct (m w) as [[a|e|c] w']. Qed.

Lemma copy_dlls_cons_run {A} dll rest b (k : prog A) (w : World) :
  (copy_dlls (dll :: rest) b ;; k) w =
    match copy2_fs dll b (fs w) with
    | inl e => (Raised e, emit (Print (tab +:+ str dll)) w)
    | inr f' => (copy_dlls rest b ;; k) (with_fs f' (emit (Print (tab +:+ str dll)) w))
    end.
Proof.
  simpl. unfold bind, print, copy2, on_fs. simpl.
  destruct (copy2_fs dll b (fs w)); reflexivity.
Qed.

Lemma fs_effect_copy_dlls {A} dlls b (k : prog A) g :
  fs_effect k g → fs_effect (copy_dlls dlls b ;; k) (then_fs (copy_all dlls b) g).
Proof.
  intros H. induction dlls as [|dll rest IH]; intros w.
  - apply H.
  - rewrite copy_dlls_cons_run. unfold then_fs. simpl.
    destruct (copy2_fs dll b (fs w)) as [e|f'] eqn:E; [reflexivity|].
    apply (IH (with_fs f' (emit (Print (tab +:+ str dll)) w))).
Qed.

Lemma assemble_bundle_fs_effect (gtk : path) (meta : CargoMetadata) :
  fs_effect (assemble_bundle gtk meta) (assemble_fs gtk (bundle_dir_of meta)).
Proof.
  unfold assemble_bundle, assemble_fs. fold (bundle_dir_of meta).
  fold (settings_ini_of (bundle_dir_of meta)).
  unfold mkdir_parents, copy2, open_w, file_write.
  repeat first
    [ apply fs_effect_print
    | apply fs_effect_on_fs
    | apply fs_effect_glob; intros ?
    | apply fs_effect_copy_dlls
    | apply fs_effect_ret ].
Qed.

(** ** Paths, names and parents *)

Lemma name_snoc (p : path) (n : string) : name (p ++ [n]) = n.
Proof. unfold name. apply last_last. Qed.

Lemma parent_snoc (p : path) (n : string) : parent (p ++ [n]) = p.
Proof. unfold parent. apply removelast_last. Qed.

Lemma child_parent_name (p : path) : p ≠ [] → p = parent p ++ [name p].
Proof. intros H. unfold parent, name. by apply app_removelast_last. Qed.

Lemma collapse_snoc (todo done : list string) (c : string) :
  c ≠ ".." → collapse (todo ++ [c]) done = collapse todo done ++ [c].
Proof.
  intros Hc. revert done. induction todo as [|d todo IH]; intros done; simpl.
  - destruct (String.eqb_spec c ".."); [done|reflexivity].
  - destruct (String.eqb d ".."); apply IH.
Qed.

Lemma resolve_snoc (p : path) (c : string) :
  c ≠ ".." → resolve (p ++ [c]) = resolve p ++ [c].
Proof.
  intros Hc. destruct p as [|d rest]; simpl; [reflexivity|].
  by rewrite collapse_snoc.
Qed.

(** The bundle directory is never the empty path. *)
Lemma bundle_dir_of_nonempty (meta : CargoMetadata) : bundle_dir_of meta ≠ [].
Proof.
  unfold bundle_dir_of, joinpath, Path. simpl.
  intros H. apply app_eq_nil in H as [_ H]. discriminate H.
Qed.

(** ** How later steps change the disk *)

Section Evolves.
Variables W D : path → Prop.

Lemma evolves_refl f : evolves W D f f.
Proof. intros p. by left. Qed.

Lemma evolves_trans f1 f2 f3 :
  evolves W D f1 f2 → evolves W D f2 f3 → evolves W D f1 f3.
Proof.
  intros H12 H23 p.
  destruct (H23 p) as [E23 | [(Hw & Hnd & n & Hn & Hc) | (Hd & Hnone & Hdir)]].
  - rewrite E23. apply H12.
  - right. left. split; [done|]. split; [|by exists n].
    destruct (H12 p) as [E12 | [(_ & Hnd1 & _) | (_ & _ & Hdir1)]];
      [by rewrite <- E12 | done | by rewrite Hdir1 in Hnd].
  - right. right. split; [done|]. split; [|done].
    destruct (H12 p) as [E12 | [(_ & _ & n & _ & Hc) | (_ & _ & Hdir1)]]; congruence.
Qed.

Lemma evolves_mono (W' D' : path → Prop) f f' :
  (∀ p, W' p → W p) → (∀ p, D' p → D p) → evolves W' D' f f' → evolves W D f f'.
Proof.
  intros HW HD H p.
  destruct (H p) as [? | [(? & ? & ?) | (? & ? & ?)]]; auto 6.
Qed.

Lemma evolves_write f t n :
  W t → overwritable (f !! t) → n ≠ Dir → evolves W D f (<[t := n]> f).
Proof.
  intros Hw Hnd Hn p. destruct (decide (t = p)) as [<-|Hne].
  - right. left. rewrite lookup_insert_eq. eauto.
  - left. by rewrite lookup_insert_ne.
Qed.

Lemma evolves_mkdir base todo f f' :
  (∀ p, on_the_way base todo p → D p) →
  mkdir_from base todo f = inr f' → evolves W D f f'.
Proof.
  intros HD Hmk p. destruct (f !! p) as [n|] eqn:E.
  - left. eapply mkdir_from_keeps; eauto.
  - destruct (mkdir_from_new _ _ _ _ Hmk p E) as [?|[? ?]]; [by left|].
    right. right. auto.
Qed.

Lemma evolves_dir f f' p : evolves W D f f' → f !! p = Some Dir → f' !! p = Some Dir.
Proof.
  intros H Hp. destruct (H p) as [E | [(_ & Hov & _) | (_ & ? & _)]];
    [congruence | by rewrite Hp in Hov | congruence].
Qed.

Lemma evolves_keeps f f' p n :
  evolves W D f f' → ¬ W p → f !! p = Some n → f' !! p = Some n.
Proof.
  intros H Hw Hp. destruct (H p) as [E | [(? & _ & _) | (_ & ? & _)]];
    [congruence | done | congruence].
Qed.

Lemma evolves_present f f' p : evolves W D f f' → is_Some (f !! p) → is_Some (f' !! p).
Proof.
  intros H [n Hn]. destruct (H p) as [E | [(_ & _ & n' & _ & Hc) | (_ & _ & Hd)]];
    [rewrite E | |]; eauto.
Qed.

Lemma evolves_new f f' p :
  evolves W D f f' → f !! p = None → is_Some (f' !! p) → W p ∨ D p.
Proof.
  intros H Hn [n Hs]. destruct (H p) as [E | [(? & _ & _) | (? & _ & _)]]; auto.
  congruence.
Qed.

(** What was read outside [W] and is no directory was there from the
    start. *)
Lemma evolves_back f f' p n :
  evolves W D f f' → ¬ W p → f' !! p = Some n → n ≠ Dir → f !! p = Some n.
Proof.
  intros H Hw Hp Hn. destruct (H p) as [E | [(? & _ & _) | (_ & _ & Hd)]];
    [congruence | done | congruence].
Qed.
End Evolves.

(** ** Copies *)

Lemma is_dir_true f p : is_dir f p = true ↔ f !! p = Some Dir.
Proof. unfold is_dir. destruct (f !! p) as [[]|]; split; congruence. Qed.

(** A copy into a directory that succeeded. *)
Lemma copy2_fs_into_inv src dst f f' :
  is_dir f dst = true →
  copy2_fs src dst f = inr f' →
  ∃ n, n ≠ Dir ∧ f !! src = Some n ∧ dst ++ [name src] ≠ src ∧
       overwritable (f !! (dst ++ [name src])) ∧
       f' = <[dst ++ [name src] := n]> f.
Proof.
  intros Hd. unfold copy2_fs. rewrite Hd.
  destruct (f !! src) as [n|] eqn:Hs; simpl; [|discriminate].
  case_bool_decide as Hb; [by destruct n|].
  destruct n as [c| |c]; [|discriminate|];
    (destruct (f !! (dst ++ [name src])) as [[c'| |c']|] eqn:Ht; try discriminate;
     rewrite parent_snoc, Hd; intros [= <-]; eexists; repeat split; auto; done).
Qed.

(** A copy into a directory that already holds the copy, a file that can
    be written, changes nothing. *)
Lemma copy2_fs_again src dst f c :
  is_dir f dst = true →
  f !! src = Some (File c) →
  dst ++ [name src] ≠ src →
  f !! (dst ++ [name src]) = Some (File c) →
  copy2_fs src dst f = inr f.
Proof.
  intros Hd Hs Hne Ht. unfold copy2_fs. rewrite Hd, Hs, Ht, parent_snoc, Hd.
  rewrite (bool_decide_eq_false_2 _ Hne), andb_false_r.
  by rewrite insert_id.
Qed.

(** ** Globbing *)

Lemma elem_of_glob_suffix f dir suffix p :
  p ∈ glob_suffix f dir suffix ↔
  is_Some (f !! p) ∧ p ≠ [] ∧ parent p = dir ∧ endswith (lower (name p)) suffix = true.
Proof.
  unfold glob_suffix. rewrite elem_of_elements, elem_of_filter, elem_of_dom. tauto.
Qed.

Lemma glob_suffix_ext f f' dir suffix :
  (∀ p, p ≠ [] → parent p = dir → endswith (lower (name p)) suffix = true →
        (is_Some (f !! p) ↔ is_Some (f' !! p))) →
  glob_suffix f dir suffix = glob_suffix f' dir suffix.
Proof.
  intros H. unfold glob_suffix. f_equal. apply set_eq. intros p.
  rewrite !elem_of_filter, !elem_of_dom. specialize (H p). tauto.
Qed.

Lemma NoDup_glob_suffix f dir suffix : NoDup (glob_suffix f dir suffix).
Proof. apply NoDup_elements. Qed.

Lemma on_the_way_app (base rel p : path) :
  on_the_way [] (base ++ rel) p → on_the_way [] base p ∨ on_the_way base rel p.
Proof.
  intros (k & [Hk1 Hk2] & ->). simpl. rewrite length_app in Hk2.
  destruct (decide (k ≤ length base)%nat) as [Hle|Hgt].
  - left. exists k. split; [lia|]. simpl. by rewrite take_app_le.
  - right. exists (k - length base)%nat. split; [lia|].
    rewrite take_app_ge by lia. done.
Qed.

(** ** Bundle assembly twice *)

Section Assembly.
Variables gtk b : path.
Hypothesis b_nonempty : b ≠ [].

Lemma child_eq x y : (child gtk) x → (child gtk) y → name x = name y → x = y.
Proof.
  intros [Hx Hpx] [Hy Hpy] Hn.
  rewrite (child_parent_name x Hx), (child_parent_name y Hy). congruence.
Qed.

(** A source that is the copy of [y] makes [y] its own copy. *)
Lemma child_copy_of x y : (child gtk) x → (child gtk) y → x = (copy_of b) y → y = (copy_of b) y.
Proof.
  intros Hx Hy Heq. assert (name x = name y) as Hn.
  { rewrite Heq. unfold copy_of. apply name_snoc. }
  assert (gtk = b) as Hb.
  { destruct Hx as [_ <-]. rewrite Heq. unfold copy_of. apply parent_snoc. }
  rewrite <- Heq. symmetry. by apply child_eq.
Qed.

Lemma copy_all_facts (L : list path) (f f2 : gmap path node) :
  Forall (child gtk) L → NoDup L → f !! b = Some Dir →
  copy_all L b f = inr f2 →
  evolves (fun p => ∃ x, x ∈ L ∧ p = (copy_of b) x) (fun _ => False) f f2 ∧
  ∀ x, x ∈ L →
    ∃ n, n ≠ Dir ∧ f !! x = Some n ∧ f2 !! x = Some n ∧
         f2 !! (copy_of b) x = Some n ∧ (copy_of b) x ≠ x.
Proof.
  intros Hch Hnd. revert f.
  induction L as [|x rest IH]; intros f Hb H; simpl in H.
  - injection H as <-. split; [apply evolves_refl|].
    intros x Hx. by apply elem_of_nil in Hx.
  - apply Forall_cons in Hch as [Hx Hrest]. apply NoDup_cons in Hnd as [Hnx Hnd].
    destruct (copy2_fs x b f) as [e|fx] eqn:Hcopy; [discriminate|].
    apply copy2_fs_into_inv in Hcopy as (n & Hn & Hsrc & Hne & Hov & ->);
      [|by apply is_dir_true].
    fold ((copy_of b) x) in *.
    assert (<[(copy_of b) x := n]> f !! b = Some Dir) as Hb'.
    { rewrite lookup_insert_ne; [done|]. intros Heq. by rewrite Heq, Hb in Hov. }
    destruct (IH Hrest Hnd _ Hb' H) as [Hev Hfacts]. split.
    + eapply evolves_trans.
      * apply evolves_write; [|exact Hov|exact Hn]. exists x. split; [left|done].
      * eapply evolves_mono; [| |exact Hev]; [|done].
        intros p (y & Hy & ->). exists y. split; [by right|done].
    + intros y [->|Hy]%elem_of_cons.
      * exists n. split; [done|]. split; [done|].
        assert (∀ p, (p = x ∨ p = (copy_of b) x) → ¬ (∃ y, y ∈ rest ∧ p = (copy_of b) y)) as Hfree.
        { intros p Hp (y & Hy & Hpy).
          destruct (Hfacts y Hy) as (? & _ & _ & _ & _ & Hself).
          rewrite Forall_forall in Hrest.
          destruct Hp as [->| ->].
          - apply Hself. symmetry. by apply (child_copy_of x y); auto.
          - apply Hnx. assert (x = y) as ->; [|done].
            apply child_eq; auto. unfold copy_of in Hpy.
            by apply app_inj_tail in Hpy as [_ ?]. }
        split; [|split; [|done]].
        -- eapply evolves_keeps; [exact Hev|apply Hfree; by left|].
           by rewrite lookup_insert_ne.
        -- eapply evolves_keeps; [exact Hev|apply Hfree; by right|].
           by rewrite lookup_insert_eq.
      * destruct (Hfacts y Hy) as (n' & Hn' & Hy1 & Hy2 & Hy3 & Hy4).
        exists n'. split; [done|]. split; [|done].
        rewrite lookup_insert_ne in Hy1; [done|].
        intros Heq. apply Hne. symmetry. apply (child_copy_of y x); auto.
        rewrite Forall_forall in Hrest. auto.
Qed.

(** Where every copy is already in place and can be written, the loop
    changes nothing. *)
Lemma copy_all_again (L : list path) (f : gmap path node) :
  f !! b = Some Dir →
  (∀ x, x ∈ L → ∃ c, f !! x = Some (File c) ∧ f !! (copy_of b) x = Some (File c) ∧
                     (copy_of b) x ≠ x) →
  copy_all L b f = inr f.
Proof.
  intros Hb. induction L as [|x rest IH]; intros H; simpl; [done|].
  destruct (H x) as (c & Hx & Hcx & Hne); [left|].
  rewrite (copy2_fs_again x b f c); auto; [|by apply is_dir_true].
  apply IH. intros y Hy. apply H. by right.
Qed.

Lemma dll_not_named x ns :
  dll x → Forall (fun n => endswith (lower n) ".dll" = false) ns → ¬ named_in ns x.
Proof.
  intros Hd Hns Hin. rewrite Forall_forall in Hns.
  specialize (Hns _ Hin). unfold dll in Hd. congruence.
Qed.

Lemma file_names_not_dll :
  Forall (fun n => endswith (lower n) ".dll" = false)
         ["gdbus.exe"; "gschemas.compiled"; "settings.ini"].
Proof. repeat constructor. Qed.

Lemma dir_names_not_dll :
  Forall (fun n => endswith (lower n) ".dll" = false)
         ["share"; "glib-2.0"; "schemas"; "gtk-4.0"].
Proof. repeat constructor. Qed.

Lemma made_schemas p : on_the_way [] (b ++ ["share"; "glib-2.0"; "schemas"]) p → (made b) p.
Proof.
  intros [H|H]%on_the_way_app; [by left|]. right. unfold named_in.
  repeat (apply on_the_way_cons in H as [->|H]; [rewrite name_snoc; repeat constructor|]).
  destruct H as (k & [? ?] & _). simpl in *. lia.
Qed.

Lemma made_gtk4 p : on_the_way [] (b ++ ["share"; "gtk-4.0"]) p → (made b) p.
Proof.
  intros [H|H]%on_the_way_app; [by left|]. right. unfold named_in.
  repeat (apply on_the_way_cons in H as [->|H]; [rewrite name_snoc; repeat constructor|]).
  destruct H as (k & [? ?] & _). simpl in *. lia.
Qed.

Lemma open_w_fs_inv p f f' :
  open_w_fs p f = inr f' →
  overwritable (f !! p) ∧ f !! parent p = Some Dir ∧ f' = <[p := File ""]> f.
Proof.
  unfold open_w_fs.
  destruct (f !! p) as [[c| |c]|] eqn:E; try discriminate;
    destruct (is_dir f (parent p)) eqn:Hd; try discriminate;
    apply is_dir_true in Hd; by intros [= <-].
Qed.

Lemma file_write_fs_inv p text f f' :
  file_write_fs p text f = inr f' →
  ∃ c, f !! p = Some (File c) ∧ f' = <[p := File (c +:+ text)]> f.
Proof.
  unfold file_write_fs. destruct (f !! p) as [[c| |c]|]; try discriminate.
  intros [= <-]. eauto.
Qed.

(** The explicit form of the paths of the assembly. *)
Lemma assemble_fs_paths :
  joinpath gtk "gdbus.exe" = gtk ++ ["gdbus.exe"] ∧
  joinpath b "./share/glib-2.0/schemas" = b ++ ["share"; "glib-2.0"; "schemas"] ∧
  resolve (joinpath gtk "../share/glib-2.0/schemas/gschemas.compiled")
    = resolve (gtk ++ [".."; "share"; "glib-2.0"; "schemas"]) ++ ["gschemas.compiled"] ∧
  settings_ini_of b = (b ++ ["share"; "gtk-4.0"]) ++ ["settings.ini"].
Proof.
  repeat split.
  - unfold joinpath. change (Path _) with ([".."; "share"; "glib-2.0"; "schemas"] ++ ["gschemas.compiled"]).
    rewrite app_assoc. by apply resolve_snoc.
  - unfold settings_ini_of, joinpath. by rewrite <- app_assoc.
Qed.

Ltac among := unfold named_in; rewrite name_snoc; repeat constructor.
Ltac not_among :=
  unfold named_in; rewrite name_snoc, ?elem_of_cons, elem_of_nil; intuition discriminate.
Ltac nonnil :=
  let H := fresh in intros H; apply app_eq_nil in H as [_ H]; discriminate H.

(** The stages of an assembly that went through: the bundle directory
    made, the libraries copied, gdbus.exe read and copied, the schemas
    directory made, the schemas read and copied, the settings directory
    made and the settings file written. *)
Lemma assemble_fs_stages (f f' : gmap path node) :
  assemble_fs gtk b f = inr (b, f') →
  ∃ f1 f2 n2 f4 n3 f6,
    mkdir_from [] b f = inr f1 ∧
    copy_all (glob_suffix f1 gtk ".dll") b f1 = inr f2 ∧
    (n2 ≠ Dir ∧ f2 !! (gtk ++ ["gdbus.exe"]) = Some n2 ∧
     b ++ ["gdbus.exe"] ≠ gtk ++ ["gdbus.exe"] ∧
     overwritable (f2 !! (b ++ ["gdbus.exe"]))) ∧
    mkdir_from [] (b ++ ["share"; "glib-2.0"; "schemas"])
      (<[b ++ ["gdbus.exe"] := n2]> f2) = inr f4 ∧
    (n3 ≠ Dir ∧
     f4 !! (resolve (gtk ++ [".."; "share"; "glib-2.0"; "schemas"]) ++ ["gschemas.compiled"])
       = Some n3 ∧
     (b ++ ["share"; "glib-2.0"; "schemas"]) ++ ["gschemas.compiled"]
       ≠ resolve (gtk ++ [".."; "share"; "glib-2.0"; "schemas"]) ++ ["gschemas.compiled"] ∧
     overwritable (f4 !! ((b ++ ["share"; "glib-2.0"; "schemas"]) ++ ["gschemas.compiled"]))) ∧
    mkdir_from [] (b ++ ["share"; "gtk-4.0"])
      (<[(b ++ ["share"; "glib-2.0"; "schemas"]) ++ ["gschemas.compiled"] := n3]> f4)
      = inr f6 ∧
    overwritable (f6 !! ((b ++ ["share"; "gtk-4.0"]) ++ ["settings.ini"])) ∧
    f' = <[(b ++ ["share"; "gtk-4.0"]) ++ ["settings.ini"] := File settings_text]> f6.
Proof.
  destruct assemble_fs_paths as (P2 & Psch & P3 & P4).
  unfold assemble_fs, then_fs, with_glob. rewrite P2, Psch, P3, P4.
  rewrite parent_snoc. intros H.
  destruct (mkdir_from [] b f) as [|f1] eqn:H1; [discriminate|].
  destruct (copy_all _ b f1) as [|f2] eqn:H2; [discriminate|].
  destruct (copy2_fs (gtk ++ ["gdbus.exe"]) b f2) as [|f3] eqn:H3; [discriminate|].
  destruct (mkdir_from [] _ f3) as [|f4] eqn:H4; [discriminate|].
  destruct (copy2_fs _ _ f4) as [|f5] eqn:H5; [discriminate|].
  destruct (mkdir_from [] _ f5) as [|f6] eqn:H6; [discriminate|].
  destruct (open_w_fs _ f6) as [|f7] eqn:H7; [discriminate|].
  destruct (file_write_fs _ _ f7) as [|f8] eqn:H8; [discriminate|].
  destruct (file_write_fs _ _ f8) as [|f9] eqn:H9; [discriminate|].
  injection H as <-.
  assert (f1 !! b = Some Dir) as Hb1.
  { apply (mkdir_from_dirs _ _ _ _ H1), (on_the_way_full []). done. }
  assert (Forall (child gtk) (glob_suffix f1 gtk ".dll")) as HLc.
  { apply Forall_forall. intros x Hx. apply elem_of_glob_suffix in Hx. unfold child. tauto. }
  destruct (copy_all_facts _ f1 f2 HLc (NoDup_glob_suffix _ _ _) Hb1 H2) as [E12 _].
  assert (f2 !! b = Some Dir) as Hb2 by (eapply evolves_dir; eauto).
  apply copy2_fs_into_inv in H3 as (n2 & Hn2 & Hs2 & Hne2 & Hov2 & ->);
    [|by apply is_dir_true].
  rewrite name_snoc in *.
  assert (f4 !! (b ++ ["share"; "glib-2.0"; "schemas"]) = Some Dir) as Hsch4.
  { apply (mkdir_from_dirs _ _ _ _ H4), (on_the_way_full []). nonnil. }
  apply copy2_fs_into_inv in H5 as (n3 & Hn3 & Hs3 & Hne3 & Hov3 & ->);
    [|by apply is_dir_true].
  rewrite name_snoc in *.
  apply open_w_fs_inv in H7 as (Hov4 & _ & ->).
  apply file_write_fs_inv in H8 as (c7 & Hc7 & ->). rewrite lookup_insert_eq in Hc7.
  injection Hc7 as <-.
  apply file_write_fs_inv in H9 as (c8 & Hc8 & ->). rewrite lookup_insert_eq in Hc8.
  injection Hc8 as <-.
  rewrite !insert_insert_eq.
  exists f1, f2, n2, f4, n3, f6. repeat split; done.
Qed.

(** Everything the proofs below need about an assembly that went
    through: how the disk evolved from stage to stage and what the last
    disk holds. *)
Lemma assemble_fs_facts (f f' : gmap path node) :
  assemble_fs gtk b f = inr (b, f') →
  ∃ f1 n2 n3,
    mkdir_from [] b f = inr f1 ∧
    evolves (fun p => (∃ x, x ∈ glob_suffix f1 gtk ".dll" ∧ p = (copy_of b) x)
                      ∨ named_in ["gdbus.exe"; "gschemas.compiled"; "settings.ini"] p)
      (made b) f1 f' ∧
    (∀ p, on_the_way [] b p → f' !! p = Some Dir) ∧
    (∀ p, on_the_way [] (b ++ ["share"; "glib-2.0"; "schemas"]) p → f' !! p = Some Dir) ∧
    (∀ p, on_the_way [] (b ++ ["share"; "gtk-4.0"]) p → f' !! p = Some Dir) ∧
    (∀ x, x ∈ glob_suffix f1 gtk ".dll" →
       ∃ n, n ≠ Dir ∧ f !! x = Some n ∧ f' !! x = Some n ∧
            f' !! (copy_of b) x = Some n ∧ (copy_of b) x ≠ x) ∧
    (n2 ≠ Dir ∧ f !! (gtk ++ ["gdbus.exe"]) = Some n2 ∧
     f' !! (gtk ++ ["gdbus.exe"]) = Some n2 ∧ f' !! (b ++ ["gdbus.exe"]) = Some n2 ∧
     b ++ ["gdbus.exe"] ≠ gtk ++ ["gdbus.exe"]) ∧
    (n3 ≠ Dir ∧
     f !! (resolve (gtk ++ [".."; "share"; "glib-2.0"; "schemas"]) ++ ["gschemas.compiled"])
       = Some n3 ∧
     f' !! (resolve (gtk ++ [".."; "share"; "glib-2.0"; "schemas"]) ++ ["gschemas.compiled"])
       = Some n3 ∧
     f' !! ((b ++ ["share"; "glib-2.0"; "schemas"]) ++ ["gschemas.compiled"]) = Some n3 ∧
     (b ++ ["share"; "glib-2.0"; "schemas"]) ++ ["gschemas.compiled"]
       ≠ resolve (gtk ++ [".."; "share"; "glib-2.0"; "schemas"]) ++ ["gschemas.compiled"]) ∧
    f' !! ((b ++ ["share"; "gtk-4.0"]) ++ ["settings.ini"]) = Some (File settings_text).
Proof.
  intros H.
  destruct (assemble_fs_stages f f' H)
    as (f1 & f2 & n2 & f4 & n3 & f6 & H1 & H2 & (Hn2 & Hs2 & Hne2 & Hov2) & H4 &
        (Hn3 & Hs3 & Hne3 & Hov3) & H6 & Hov4 & ->).
  set (sch := b ++ ["share"; "glib-2.0"; "schemas"]) in *.
  set (g4 := b ++ ["share"; "gtk-4.0"]) in *.
  set (s3 := resolve (gtk ++ [".."; "share"; "glib-2.0"; "schemas"])) in *.
  set (L := glob_suffix f1 gtk ".dll") in *.
  set (F := <[g4 ++ ["settings.ini"] := File settings_text]> f6).
  (* the glob *)
  assert (∀ x, x ∈ L → (child gtk) x ∧ dll x) as HL.
  { intros x Hx. apply elem_of_glob_suffix in Hx. unfold child, dll. tauto. }
  assert (Forall (child gtk) L) as HLc by (apply Forall_forall; intros x Hx; by apply HL).
  (* the bundle directory *)
  assert (∀ p, on_the_way [] b p → f1 !! p = Some Dir) as Hway1
    by (apply (mkdir_from_dirs _ _ _ _ H1)).
  assert (f1 !! b = Some Dir) as Hb1 by (apply Hway1, (on_the_way_full []); done).
  (* the loop *)
  destruct (copy_all_facts L f1 f2 HLc (NoDup_glob_suffix _ _ _) Hb1 H2) as [E12 FL2].
  (* how the disk evolved from each stage on *)
  assert (evolves (fun _ => False) (on_the_way [] b) f f1) as E01
    by (eapply evolves_mkdir; [|exact H1]; done).
  assert (evolves (named_in ["settings.ini"]) (made b) f6 F) as E6.
  { apply evolves_write; [among|done|done]. }
  assert (evolves (named_in ["settings.ini"]) (made b)
            (<[sch ++ ["gschemas.compiled"] := n3]> f4) F) as E5.
  { eapply evolves_trans; [|exact E6]. eapply evolves_mkdir; [|exact H6]. apply made_gtk4. }
  assert (evolves (named_in ["gschemas.compiled"; "settings.ini"]) (made b) f4 F) as E4.
  { eapply evolves_trans.
    - apply evolves_write; [among|exact Hov3|exact Hn3].
    - eapply evolves_mono; [| |exact E5]; [|done]. intros p Hp. by right. }
  assert (evolves (named_in ["gschemas.compiled"; "settings.ini"]) (made b)
            (<[b ++ ["gdbus.exe"] := n2]> f2) F) as E3.
  { eapply evolves_trans; [|exact E4]. eapply evolves_mkdir; [|exact H4]. apply made_schemas. }
  assert (evolves (named_in ["gdbus.exe"; "gschemas.compiled"; "settings.ini"]) (made b) f2 F)
    as E2.
  { eapply evolves_trans.
    - apply evolves_write; [among|exact Hov2|exact Hn2].
    - eapply evolves_mono; [| |exact E3]; [|done]. intros p Hp. by right. }
  assert (evolves (fun p => (∃ x, x ∈ L ∧ p = (copy_of b) x)
                            ∨ named_in ["gdbus.exe"; "gschemas.compiled"; "settings.ini"] p)
            (made b) f1 F) as E1.
  { eapply evolves_trans.
    - eapply evolves_mono; [| |exact E12]; [by left|done].
    - eapply evolves_mono; [| |exact E2]; [by right|done]. }
  (* from the first disk to the ones the sources were read from *)
  assert (evolves (fun p => dll p) (fun p => on_the_way [] b p) f f2) as E02.
  { eapply evolves_trans; [eapply evolves_mono; [| |exact E01]; done|].
    eapply evolves_mono; [| |exact E12]; [|done].
    intros p (x & Hx & ->). unfold dll, copy_of. rewrite name_snoc. by apply HL. }
  assert (evolves (fun p => dll p ∨ named_in ["gdbus.exe"] p)
            (fun p => on_the_way [] b p ∨ made b p) f f4) as E04.
  { eapply evolves_trans; [eapply evolves_mono; [| |exact E02]; [by left|by left]|].
    eapply evolves_trans.
    { apply evolves_write; [|exact Hov2|exact Hn2]. right. among. }
    eapply evolves_mkdir; [|exact H4]. intros p Hp. right. by apply made_schemas. }
  exists f1, n2, n3. split; [exact H1|]. split; [exact E1|].
  split; [|split; [|split; [|split; [|split; [|split]]]]].
  - intros p Hp. eapply evolves_dir; [exact E1|]. by apply Hway1.
  - intros p Hp. eapply evolves_dir; [exact E4|]. by apply (mkdir_from_dirs _ _ _ _ H4).
  - intros p Hp. eapply evolves_dir; [exact E6|]. by apply (mkdir_from_dirs _ _ _ _ H6).
  - intros x Hx. destruct (FL2 x Hx) as (n & Hn & Hx1 & Hx2 & Hcx2 & Hne).
    destruct (HL x Hx) as [_ Hdll].
    exists n. split; [done|]. split; [|split; [|split; [|done]]].
    + eapply evolves_back; [exact E01|by intros []|exact Hx1|done].
    + eapply evolves_keeps; [exact E2| |exact Hx2].
      apply dll_not_named; [done|apply file_names_not_dll].
    + eapply evolves_keeps; [exact E2| |exact Hcx2].
      apply dll_not_named; [|apply file_names_not_dll].
      unfold dll, copy_of. by rewrite name_snoc.
  - split; [done|]. split; [|split; [|split; [|done]]].
    + eapply evolves_back; [exact E02| |exact Hs2|done]. unfold dll. by rewrite name_snoc.
    + eapply evolves_keeps; [exact E3|not_among|]. by rewrite lookup_insert_ne.
    + eapply evolves_keeps; [exact E3|not_among|]. by rewrite lookup_insert_eq.
  - split; [done|]. split; [|split; [|split; [|done]]].
    + eapply evolves_back; [exact E04| |exact Hs3|done].
      unfold dll, named_in. rewrite name_snoc, !elem_of_cons, elem_of_nil.
      intuition discriminate.
    + eapply evolves_keeps; [exact E5|not_among|]. by rewrite lookup_insert_ne.
    + eapply evolves_keeps; [exact E5|not_among|]. by rewrite lookup_insert_eq.
  - apply lookup_insert_eq.
Qed.

(** Between the first and the last stage files are written only below
    the bundle directory, and directories are made only there and on the
    way down to it. *)
Lemma assemble_fs_evolves (f f' : gmap path node) :
  assemble_fs gtk b f = inr (b, f') →
  evolves (below b) (fun p => on_the_way [] b p ∨ below b p) f f'.
Proof.
  intros H.
  destruct (assemble_fs_stages f f' H)
    as (f1 & f2 & n2 & f4 & n3 & f6 & H1 & H2 & (Hn2 & Hs2 & Hne2 & Hov2) & H4 &
        (Hn3 & Hs3 & Hne3 & Hov3) & H6 & Hov4 & ->).
  assert (f1 !! b = Some Dir) as Hb1.
  { apply (mkdir_from_dirs _ _ _ _ H1), (on_the_way_full []). done. }
  assert (Forall (child gtk) (glob_suffix f1 gtk ".dll")) as HLc.
  { apply Forall_forall. intros x Hx. apply elem_of_glob_suffix in Hx. unfold child. tauto. }
  destruct (copy_all_facts _ f1 f2 HLc (NoDup_glob_suffix _ _ _) Hb1 H2) as [E12 _].
  assert (∀ rel p, on_the_way [] (b ++ rel) p → on_the_way [] b p ∨ below b p) as Hway.
  { intros rel p [Hp|(k & [Hk1 Hk2] & ->)]%on_the_way_app; [by left|].
    right. exists (take k rel). split; [|done]. destruct rel, k; simpl in *; try lia; done. }
  assert (∀ rel n, rel ≠ [] → below b ((b ++ rel) ++ [n])) as Hbelow.
  { intros rel n _. exists (rel ++ [n]). split; [by destruct rel|by rewrite app_assoc]. }
  eapply evolves_trans; [eapply evolves_mkdir; [|exact H1]; by left|].
  eapply evolves_trans.
  { eapply evolves_mono; [| |exact E12]; [|done].
    intros p (x & _ & ->). by exists [name x]. }
  eapply evolves_trans;
    [apply evolves_write; [|exact Hov2|exact Hn2]; by exists ["gdbus.exe"]|].
  eapply evolves_trans; [eapply evolves_mkdir; [|exact H4]; apply Hway|].
  eapply evolves_trans; [apply evolves_write; [|exact Hov3|exact Hn3]; by apply Hbelow|].
  eapply evolves_trans; [eapply evolves_mkdir; [|exact H6]; apply Hway|].
  apply evolves_write; [|exact Hov4|done]; by apply Hbelow.
Qed.

(** An assembly that went through, with no read-only file among those it
    copied, leaves a disk on which it goes through again without
    changing anything, and on which the settings file holds the two
    lines. *)
Lemma assemble_fs_again (f f' : gmap path node) :
  assemble_fs gtk b f = inr (b, f') →
  (∀ x c, f !! x = Some (ReadOnlyFile c) → ¬ copied gtk x) →
  assemble_fs gtk b f' = inr (b, f') ∧
  f' !! settings_ini_of b = Some (File settings_text).
Proof.
  intros H Hw.
  destruct (assemble_fs_facts f f' H)
    as (f1 & n2 & n3 & H1 & E1 & Fway & Fsch & Fg4 & FLn &
        (Hn2 & Hf2 & F2s & F2d & Hne2) & (Hn3 & Hf3 & F3s & F3d & Hne3) & F4).
  destruct assemble_fs_paths as (P2 & Psch & P3 & P4).
  set (sch := b ++ ["share"; "glib-2.0"; "schemas"]) in *.
  set (g4 := b ++ ["share"; "gtk-4.0"]) in *.
  set (s3 := resolve (gtk ++ [".."; "share"; "glib-2.0"; "schemas"])) in *.
  set (L := glob_suffix f1 gtk ".dll") in *.
  assert (∀ x, x ∈ L → (child gtk) x ∧ dll x) as HL.
  { intros x Hx. apply elem_of_glob_suffix in Hx. unfold child, dll. tauto. }
  assert (∀ p, on_the_way [] b p → f1 !! p = Some Dir) as Hway1
    by (apply (mkdir_from_dirs _ _ _ _ H1)).
  assert (f' !! b = Some Dir) as Fb by (apply Fway, (on_the_way_full []); done).
  (* the copies can be written *)
  assert (∀ n x, f !! x = Some n → n ≠ Dir → copied gtk x → ∃ c, n = File c) as Hfile.
  { intros [c| |c] x Hx Hn Hc; [by eexists|done|]. by destruct (Hw x c Hx). }
  assert (∀ x, x ∈ L → ∃ c, f' !! x = Some (File c) ∧ f' !! (copy_of b) x = Some (File c) ∧
                            (copy_of b) x ≠ x) as FL.
  { intros x Hx. destruct (FLn x Hx) as (n & Hn & Hx0 & HxF & HcF & Hne).
    destruct (Hfile n x Hx0 Hn) as [c ->]; [left; by apply HL|]. eauto. }
  destruct (Hfile n2 _ Hf2 Hn2) as [c2 ->]; [right; left; by rewrite P2|].
  destruct (Hfile n3 _ Hf3 Hn3) as [c3 ->]; [right; right; by rewrite P3|].
  assert (glob_suffix f' gtk ".dll" = L) as HglobF.
  { apply glob_suffix_ext. intros p Hp Hpar Hdll. split.
    - intros HF. destruct (f1 !! p) as [n|] eqn:E; [by eauto|]. exfalso.
      destruct (evolves_new _ _ _ _ _ E1 E HF) as [[(x & Hx & ->)|Hn]|[Hway|Hn]].
      + destruct (FLn x Hx) as (? & _ & _ & _ & _ & Hne). apply Hne. symmetry.
        apply (child_copy_of ((copy_of b) x) x); [done|by apply HL|done].
      + revert Hn. apply dll_not_named; [done|apply file_names_not_dll].
      + rewrite (Hway1 _ Hway) in E. discriminate.
      + revert Hn. apply dll_not_named; [done|apply dir_names_not_dll].
    - by apply evolves_present with (W := fun p => (∃ x, x ∈ L ∧ p = (copy_of b) x)
            ∨ named_in ["gdbus.exe"; "gschemas.compiled"; "settings.ini"] p) (D := (made b)). }
  (* the second assembly *)
  rewrite P4. split; [|exact F4].
  unfold assemble_fs, then_fs, with_glob. rewrite P2, Psch, P3, P4. rewrite parent_snoc.
  fold sch g4 s3.
  rewrite (mkdir_from_id _ _ _ Fway), HglobF, (copy_all_again L f' Fb FL).
  rewrite (copy2_fs_again _ _ _ c2); try done; [|by apply is_dir_true | by rewrite name_snoc..].
  rewrite (mkdir_from_id _ _ _ Fsch).
  rewrite (copy2_fs_again _ _ _ c3); try done;
    [|apply is_dir_true, Fsch, (on_the_way_full []); nonnil | by rewrite name_snoc..].
  rewrite (mkdir_from_id _ _ _ Fg4).
  unfold open_w_fs, file_write_fs. rewrite F4, parent_snoc.
  assert (is_dir f' g4 = true) as -> by (apply is_dir_true, Fg4, (on_the_way_full []); nonnil).
  rewrite !lookup_insert_eq, !insert_insert_eq.
  change (File _) with (File settings_text). by rewrite insert_id.
Qed.

End Assembly.

Lemma assemble_fs_returns (gtk b a : path) (f f' : gmap path node) :
  assemble_fs gtk b f = inr (a, f') → a = b.
Proof.
  unfold assemble_fs, then_fs, with_glob.
  repeat match goal with
         | |- context [match ?x with inl _ => _ | inr _ => _ end] =>
             destruct x; [discriminate|]
         end.
  by intros [= <- _].
Qed.

Lemma assemble_bundle_disk (gtk : path) (meta : CargoMetadata) (w w1 : World)
    (bundle_dir : path) :
  assemble_bundle gtk meta w = (Returned bundle_dir, w1) →
  bundle_dir = bundle_dir_of meta ∧
  assemble_fs gtk (bundle_dir_of meta) (fs w) = inr (bundle_dir_of meta, fs w1).
Proof.
  intros Hrun.
  pose proof (assemble_bundle_fs_effect gtk meta w) as H1.
  rewrite Hrun in H1. simpl in H1.
  destruct (assemble_fs gtk (bundle_dir_of meta) (fs w)) as [e|[a f']] eqn:Hfs;
    [discriminate|].
  destruct H1 as [[= <-] <-].
  by pose proof (assemble_fs_returns _ _ _ _ _ Hfs) as ->.
Qed.

(** C7, as the code has it: when the assembly of the bundle directory
    has gone through and none of the toolkit's files it copied (the
    shared libraries, gdbus.exe, the compiled schemas) is read-only, a
    second assembly on the disk it left goes through as well and leaves
    that disk exactly as it found it, the same files with the same
    contents; after either of them the settings file holds the two lines
    and nothing else. *)
Theorem assemble_bundle_twice (gtk : path) (meta : CargoMetadata) (w w1 : World)
    (bundle_dir : path) :
  assemble_bundle gtk meta w = (Returned bundle_dir, w1) →
  (∀ x c, fs w !! x = Some (ReadOnlyFile c) → ¬ copied gtk x) →
  (assemble_bundle gtk meta w1).1 = Returned bundle_dir ∧
  fs (assemble_bundle gtk meta w1).2 = fs w1 ∧
  fs w1 !! settings_ini_of bundle_dir = Some (File settings_text) ∧
  fs (assemble_bundle gtk meta w1).2 !! settings_ini_of bundle_dir
    = Some (File settings_text).
Proof.
  intros [-> Hfs]%assemble_bundle_disk Hw.
  destruct (assemble_fs_again gtk _ (bundle_dir_of_nonempty meta) _ _ Hfs Hw)
    as [Hagain Hset].
  pose proof (assemble_bundle_fs_effect gtk meta w1) as H2.
  rewrite Hagain in H2. destruct H2 as [Hout Hsame].
  rewrite Hsame. auto.
Qed.

(** C7, as stated, fails: a read-only library of the toolkit is copied
    with its attribute, and the second assembly cannot write over the
    copy. *)
Lemma assemble_bundle_stops_at_read_only_copy :
  (assemble_bundle (Path "C:/gtk-build/gtk/x64/release/bin") Demo.meta
     Trouble.read_only_world).1
    = Returned ["C:"; "proj"; "target"; "release"; "app-bundled"]
  ∧
  (assemble_bundle (Path "C:/gtk-build/gtk/x64/release/bin") Demo.meta
     (assemble_bundle (Path "C:/gtk-build/gtk/x64/release/bin") Demo.meta
        Trouble.read_only_world).2).1
    = Raised (PermissionError
                ["C:"; "proj"; "target"; "release"; "app-bundled"; "gtk-4.dll"]).
Proof. split; vm_compute; reflexivity. Qed.

(** * The statements at work on the concrete world *)

Example bundle_exits_on_status_404 :
  (bundle (Demo.answering 404 PNone) (Demo.args false false true) Demo.world).1 = Exited 1.
Proof. vm_compute. reflexivity. Qed.

Example bundle_exits_on_no_GTK4_asset :
  (bundle (Demo.answering 200 (PDict [("assets", PList [Demo.other_asset])]))
     (Demo.args false false true) Demo.world).1 = Exited 1.
Proof. vm_compute. reflexivity. Qed.

Example bundle_exits_on_two_GTK4_assets :
  (bundle (Demo.answering 200 (PDict [("assets", PList [Demo.gtk_asset; Demo.gtk_asset])]))
     (Demo.args false false true) Demo.world).1 = Exited 1.
Proof. vm_compute. reflexivity. Qed.

Example bundle_exits_on_content_type :
  (bundle (Demo.answering 200
             (PDict [("assets",
                      PList [PDict [("name", PStr "GTK4.tar.gz");
                                    ("browser_download_url", PStr "https://example.org/GTK4.tar.gz");
                                    ("content_type", PStr "application/gzip")]])]))
     (Demo.args false false true) Demo.world).1 = Exited 1.
Proof. vm_compute. reflexivity. Qed.

(** An asset without [content_type] is not refused with [exit(1)]: the
    subscript raises. *)
Example bundle_raises_on_missing_content_type :
  (bundle (Demo.answering 200
             (PDict [("assets",
                      PList [PDict [("name", PStr "GTK4.zip");
                                    ("browser_download_url", PStr "https://example.org/GTK4.zip")]])]))
     (Demo.args false false true) Demo.world).1 = Raised (KeyError "content_type").
Proof. vm_compute. reflexivity. Qed.

Example build_fails_assertion_without_executable :
  (build_rust_binary (Demo.externals ("LIB" +:+ nl +:+ "END" +:+ nl) Demo.release_ok)
     "C:/gtk/bin" Demo.world).1 = Raised AssertionError.
Proof. vm_compute. reflexivity. Qed.

Example build_fails_assertion_with_two_executables :
  (build_rust_binary (Demo.externals ("APP" +:+ nl +:+ "APP" +:+ nl) Demo.release_ok)
     "C:/gtk/bin" Demo.world).1 = Raised AssertionError.
Proof. vm_compute. reflexivity. Qed.

Lemma find_binaries_retains_witness :
  find_binaries Demo.X ["LIB"; "APP"; "END"] []
  = Returned [PStr "C:\proj\target\release\app.exe"].
Proof.
  apply (find_binaries_retains Demo.X ["LIB"; "APP"; "END"]
           [Demo.artifact PNone;
            Demo.artifact (PStr "C:\proj\target\release\app.exe");
            PDict [("reason", PStr "build-finished")]]).
  - repeat constructor.
  - repeat constructor.
    + exists (PStr "compiler-artifact"). split; [reflexivity|]. intros _. by exists PNone.
    + exists (PStr "compiler-artifact"). split; [reflexivity|]. intros _.
      by exists (PStr "C:\proj\target\release\app.exe").
    + exists (PStr "build-finished"). split; [reflexivity|]. simpl. discriminate.
Defined.

Lemma build_rust_binary_exactly_one_witness :
  (build_rust_binary Demo.X "C:/gtk/bin" Demo.world).1
  = Returned (PStr "C:\proj\target\release\app.exe").
Proof.
  apply (build_rust_binary_exactly_one Demo.X "C:/gtk/bin" Demo.world Demo.parent_env
           "C:\Windows" "C:\sdk\lib" Demo.listing
           {| returncode := 0; stdout := Demo.listing |}
           (<[ ["C:"; "proj"; "target"; "release"; "app.exe"] := File "exe" ]> (fs Demo.world))
           [PStr "C:\proj\target\release\app.exe"]);
    reflexivity.
Defined.

Lemma build_rust_binary_child_environment_witness :
  ∃ evs, log (build_rust_binary Demo.X "C:/gtk/bin" Demo.world).2 = log Demo.world ++ evs ∧
    cargo_envs evs ≠ [] ∧
    ∀ env, env ∈ cargo_envs evs →
      env !! "PATH" = Some ("C:\Windows" +:+ ";" +:+ str (resolve (Path "C:/gtk/bin"))) ∧
      env !! "LIB" = Some ("C:\sdk\lib" +:+ ";" +:+ str (resolve (joinpath (Path "C:/gtk/bin") "../lib"))) ∧
      env !! "PKG_CONFIG_PATH"
        = Some (str (resolve (joinpath (Path "C:/gtk/bin") "../lib/pkgconfig"))) ∧
      ∀ k, k ≠ "PATH" → k ≠ "LIB" → k ≠ "PKG_CONFIG_PATH" →
           env !! k = Demo.parent_env !! k.
Proof.
  apply (build_rust_binary_child_environment Demo.X "C:/gtk/bin" Demo.world Demo.parent_env
           "C:\Windows" "C:\sdk\lib"); reflexivity.
Defined.

Lemma build_rust_binary_needs_PATH_and_LIB_witness :
  (build_rust_binary Demo.X "C:/gtk/bin" Demo.world_without_LIB).1 = Raised (KeyError "LIB")
  ∧ log (build_rust_binary Demo.X "C:/gtk/bin" Demo.world_without_LIB).2 = []
  ∧ fs (build_rust_binary Demo.X "C:/gtk/bin" Demo.world_without_LIB).2 = fs Demo.world.
Proof.
  pose proof (build_rust_binary_needs_PATH_and_LIB Demo.X "C:/gtk/bin" Demo.world_without_LIB
                {[ "PATH" := "C:\Windows" ]} eq_refl (or_intror eq_refl)) as H.
  exact H.
Defined.

(** Two ways to name the result of a run without writing it out. *)
Lemma run_returned {A} (r : outcome A * World) (a : A) :
  r.1 = Returned a → r = (Returned a, r.2).
Proof. destruct r as [o w]. simpl. by intros ->. Qed.

Lemma disk_written (r : exn + gmap path node) :
  match r with inr _ => True | inl _ => False end →
  r = inr (match r with inr f => f | inl _ => ∅ end).
Proof. by destruct r. Qed.

Lemma bundle_refuses_download_witness :
  (bundle (Demo.answering 404 PNone) (Demo.args false false true) Demo.world).1 = Exited 1.
Proof.
  apply (bundle_refuses_download (Demo.answering 404 PNone) (Demo.args false false true)
           Demo.world
           (get_cargo_metadata (Demo.answering 404 PNone) (emit (Print "") Demo.world)).2
           Demo.meta {| status_code := 404; body := inr PNone |}).
  - reflexivity.
  - apply run_returned. vm_compute. reflexivity.
  - vm_compute. reflexivity.
  - reflexivity.
  - apply refused_status. simpl. lia.
Defined.

Lemma download_gtk_branch_cache_witness :
  (∃ evs, log (download_gtk_branch Demo.X Demo.meta Demo.cached_world).2
            = log Demo.cached_world ++ evs ∧ transfers evs = [])
  ∧
  (fs (download_gtk_branch Demo.X Demo.meta Demo.world).2
     !! (cache_dir Demo.meta ++ ["bin"; "gtk-4.dll"]) = Some (File "gtk")
   ∧
   ∃ evs, log (download_gtk_branch Demo.X Demo.meta Demo.world).2 = log Demo.world ++ evs ∧
          transfers evs = [HttpGet releases_url; UrlOpen "https://example.org/GTK4.zip";
                           ExtractAll (cache_dir Demo.meta)]).
Proof.
  split.
  - apply (proj1 (download_gtk_branch_cache Demo.X Demo.meta Demo.cached_world)).
    exists Dir. vm_compute. reflexivity.
  - pose proof (proj2 (download_gtk_branch_cache Demo.X Demo.meta Demo.world) eq_refl
                  {| status_code := 200;
                     body := inr (PDict [("assets",
                                          PList [Demo.other_asset; Demo.gtk_asset])]) |}
                  "https://example.org/GTK4.zip" Demo.release_members
                  (match extract_members (cache_dir Demo.meta) Demo.release_members
                           (match mkdir_from [] (cache_dir Demo.meta) (fs Demo.world) with
                            | inr f => f
                            | inl _ => ∅
                            end) with
                   | inr f => f
                   | inl _ => ∅
                   end)) as H.
    destruct H as (_ & _ & _ & Hall & _ & Hlog).
    + reflexivity.
    + exists [Demo.other_asset; Demo.gtk_asset], Demo.gtk_asset.
      split; [|repeat split; reflexivity].
      split; [reflexivity|]. eexists. split; [reflexivity|]. split; [reflexivity|].
      repeat constructor; by eexists.
    + exists "ZIP". eexists. split; [reflexivity|]. split; [reflexivity|]. split.
      * apply disk_written. vm_compute. exact I.
      * apply disk_written. vm_compute. exact I.
    + compute_done.
    + split; [|exact Hlog].
      apply (Hall (["bin"; "gtk-4.dll"], File "gtk")). right. left.
Defined.

Lemma assemble_bundle_twice_witness :
  fs (assemble_bundle Demo.gtk_bin_dir Demo.meta
        (assemble_bundle Demo.gtk_bin_dir Demo.meta Demo.cached_world).2).2
  = fs (assemble_bundle Demo.gtk_bin_dir Demo.meta Demo.cached_world).2.
Proof.
  refine (proj1 (proj2 (assemble_bundle_twice Demo.gtk_bin_dir Demo.meta Demo.cached_world
                          (assemble_bundle Demo.gtk_bin_dir Demo.meta Demo.cached_world).2
                          ["C:"; "proj"; "target"; "release"; "app-bundled"] _ _))).
  - apply (run_returned (assemble_bundle Demo.gtk_bin_dir Demo.meta Demo.cached_world)).
    vm_compute. reflexivity.
  - intros x c Hx.
    assert (map_Forall (fun _ n => read_only n = false) (fs Demo.cached_world)) as Hall
      by compute_done.
    by pose proof (Hall x _ Hx).
Defined.

(** * Further properties of the code *)

(** ** The script as a sequence *)

Lemma bundle_sequence (X : Externals) (args : Args) :
  bundle X args =
    (print "" ;;
     let* cargo_meta := get_cargo_metadata X in
     let* gtk_bin_dir := acquire_gtk X args cargo_meta in
     bundle_from X args cargo_meta gtk_bin_dir).
Proof. reflexivity. Qed.

Lemma bind_raised {A B} (m : prog A) (k : A → prog B) (w : World) (e : exn) :
  (m w).1 = Raised e → bind m k w = (Raised e, (m w).2).
Proof. unfold bind. destruct (m w) as [[a|e'|c] w']; simpl; congruence. Qed.

(** ** The metadata query as a whole *)

(** X1: when cargo prints a well-formed metadata document, the query
    returns its output directory and the name of its one package, after
    one cargo process run in the script's directory with the environment
    of the script itself. *)
Theorem get_cargo_metadata_returns (X : Externals) (w : World) (env0 : gmap string string)
    (res : proc_result) (f' : gmap path node) (text : string) (doc pkg : pyval)
    (t n : string) :
  dicts w !! os_environ = Some env0 →
  run_process X metadata_argv (Some (script_dir X)) env0 (fs w) = (inr res, f') →
  returncode res = 0 →
  decode_utf8 X (stdout res) = inr text →
  json_loads X text = inr doc →
  field doc "target_directory" = Some (PStr t) →
  field doc "packages" = Some (PList [pkg]) →
  field pkg "name" = Some (PStr n) →
  get_cargo_metadata X w =
    (Returned {| target_directory := t; package_name := n |},
     emit (Spawn metadata_argv (Some (script_dir X)) env0) (with_fs f' w)).
Proof.
  intros H0 Hrun Hz Hdec Hload Ht Hp Hn.
  unfold get_cargo_metadata, bind, subprocess_run, lift. simpl.
  fold metadata_argv. rewrite H0, Hrun, Hz. simpl. rewrite Hdec. simpl. rewrite Hload. simpl.
  by rewrite (cargo_metadata_of_well_formed doc pkg t n Ht Hp Hn).
Qed.

(** X2: when cargo's metadata command ends with a non-zero status, the
    script ends with [CalledProcessError] of that status, having printed
    one empty line and run that one process: nothing is decoded, looked up,
    created or built. *)
Theorem bundle_stops_when_metadata_fails (X : Externals) (args : Args) (w : World)
    (env0 : gmap string string) (res : proc_result) (f' : gmap path node) :
  dicts w !! os_environ = Some env0 →
  run_process X metadata_argv (Some (script_dir X)) env0 (fs w) = (inr res, f') →
  returncode res ≠ 0 →
  bundle X args w =
    (Raised (CalledProcessError (returncode res)),
     emit (Spawn metadata_argv (Some (script_dir X)) env0)
       (with_fs f' (emit (Print "") w))).
Proof.
  intros H0 Hrun Hnz. rewrite bundle_sequence, bind_print.
  apply Z.eqb_neq in Hnz.
  assert (get_cargo_metadata X (emit (Print "") w) =
            (Raised (CalledProcessError (returncode res)),
             emit (Spawn metadata_argv (Some (script_dir X)) env0)
               (with_fs f' (emit (Print "") w)))) as Hq.
  { unfold get_cargo_metadata, bind, subprocess_run. simpl.
    fold metadata_argv. rewrite H0, Hrun, Hnz. reflexivity. }
  rewrite (bind_raised _ _ _ (CalledProcessError (returncode res))); by rewrite Hq.
Qed.

(** X3: when cargo's document has the three members the decoding looks
    up, whatever they hold, the query ends in one of two ways only: with
    the record or with one of the [ValueError]s written in the script,
    never with an exception of a subscript. *)
Theorem get_cargo_metadata_present_members (X : Externals) (w : World)
    (env0 : gmap string string) (res : proc_result) (f' : gmap path node)
    (text : string) (doc td pk : pyval) :
  dicts w !! os_environ = Some env0 →
  run_process X metadata_argv (Some (script_dir X)) env0 (fs w) = (inr res, f') →
  returncode res = 0 →
  decode_utf8 X (stdout res) = inr text →
  json_loads X text = inr doc →
  field doc "target_directory" = Some td →
  field doc "packages" = Some pk →
  (∀ pkg, pk = PList [pkg] → is_Some (field pkg "name")) →
  (∃ meta, (get_cargo_metadata X w).1 = Returned meta) ∨
  (∃ msg, (get_cargo_metadata X w).1 = Raised (ValueError msg)).
Proof.
  intros H0 Hrun Hz Hdec Hload Ht Hp Hn.
  unfold get_cargo_metadata, bind, subprocess_run, lift. simpl.
  fold metadata_argv. rewrite H0, Hrun, Hz. simpl. rewrite Hdec. simpl. rewrite Hload. simpl.
  destruct (cargo_metadata_of_present doc td pk Ht Hp Hn) as [[meta ->] | [msg ->]];
    simpl; eauto.
Qed.

(** X4: an empty [packages] array, like a null one, is reported with the
    message for a missing [packages] property. *)
Theorem cargo_metadata_of_no_packages (doc pk : pyval) (t : string) :
  field doc "target_directory" = Some (PStr t) →
  field doc "packages" = Some pk →
  pk = PList [] ∨ pk = PNone →
  cargo_metadata_of doc = Raised (ValueError msg_no_packages).
Proof.
  intros Ht Hp Hpk. unfold cargo_metadata_of.
  rewrite (getitem_field _ _ _ Ht), (getitem_field _ _ _ Hp). simpl.
  by destruct Hpk as [-> | ->].
Qed.

(** ** The messages of the build: what stops the loop *)

Lemma find_binaries_prefix (X : Externals) (lines more : list string)
    (msgs acc : list pyval) :
  Forall2 (fun line msg => json_loads X line = inr msg) lines msgs →
  Forall build_message msgs →
  find_binaries X (lines ++ more) acc = find_binaries X more (acc ++ omap retained msgs).
Proof.
  intros H. revert acc.
  induction H as [|line msg lines msgs Hload _ IH]; intros acc Hwf.
  - simpl. by rewrite app_nil_r.
  - apply Forall_cons in Hwf as [Hmsg Hwf]. rewrite <- app_comm_cons.
    rewrite (find_binaries_step _ _ _ _ _ Hload Hmsg), (IH _ Hwf), <- app_assoc.
    f_equal. f_equal. simpl. destruct (retained msg); reflexivity.
Qed.

(** X5: the first line of the build's output that is not a cargo message
    ends the loop with an exception, whatever came before and whatever
    follows: the decoder's error for a line that is not JSON,
    [KeyError('reason')] for an object without [reason], and
    [KeyError('executable')] for a compiler artifact without
    [executable]. *)
Theorem find_binaries_stops (X : Externals) (lines rest : list string)
    (msgs : list pyval) (line : string) :
  Forall2 (fun line msg => json_loads X line = inr msg) lines msgs →
  Forall build_message msgs →
  (∀ e, json_loads X line = inl e →
        find_binaries X (lines ++ line :: rest) [] = Raised e)
  ∧ (∀ d, json_loads X line = inr (PDict d) → assoc "reason" d = None →
          find_binaries X (lines ++ line :: rest) [] = Raised (KeyError "reason"))
  ∧ (∀ d, json_loads X line = inr (PDict d) →
          assoc "reason" d = Some (PStr "compiler-artifact") →
          assoc "executable" d = None →
          find_binaries X (lines ++ line :: rest) [] = Raised (KeyError "executable")).
Proof.
  intros H Hwf. repeat split.
  - intros e He. rewrite (find_binaries_prefix X _ _ _ _ H Hwf). simpl. by rewrite He.
  - intros d Hd Hr. rewrite (find_binaries_prefix X _ _ _ _ H Hwf). simpl.
    rewrite Hd. simpl. by rewrite Hr.
  - intros d Hd Hr He. rewrite (find_binaries_prefix X _ _ _ _ H Hwf). simpl.
    rewrite Hd. simpl. rewrite Hr. simpl. by rewrite He.
Qed.

Lemma find_binaries_nonempty_str (X : Externals) (lines : list string)
    (acc bins : list pyval) :
  Forall nonempty_str acc →
  find_binaries X lines acc = Returned bins →
  Forall nonempty_str bins.
Proof.
  revert acc. induction lines as [|line rest IH]; intros acc Hacc; simpl.
  - by intros [= <-].
  - destruct (json_loads X line) as [e|msg]; simpl; [discriminate|].
    destruct (getitem msg "reason") as [reason|e|c]; simpl; try discriminate.
    destruct (ne_str reason "compiler-artifact"); [by apply IH|].
    destruct (getitem msg "executable") as [exe|e|c]; simpl; try discriminate.
    destruct (truthy exe) eqn:Ht; simpl; [|by apply IH].
    destruct (isinstance_str exe) eqn:Hs; simpl; [|by apply IH].
    apply IH. apply Forall_app. split; [done|]. constructor; [|done].
    destruct exe; try discriminate. exists s. split; [done|].
    intros ->. discriminate Ht.
Qed.

(** X6: whatever cargo prints, a value that [build_rust_binary] returns is
    a non-empty string. *)
Theorem build_rust_binary_returns_nonempty_str (X : Externals) (g : string)
    (w w' : World) (v : pyval) :
  build_rust_binary X g w = (Returned v, w') →
  ∃ s, v = PStr s ∧ s ≠ "".
Proof.
  unfold build_rust_binary. unfold bind at 1.
  destruct (gtk_env (Path g) w) as [[r|e|c] w1]; try discriminate.
  unfold bind at 1.
  destruct (start_build X r w1) as [[res|e|c] w2]; try discriminate.
  unfold find_built_binary, bind, lift, raise.
  destruct (of_sum (decode_utf8 X (stdout res))) as [text|e|c]; simpl; try discriminate.
  destruct (find_binaries X (splitlines X text) []) as [bins|e|c] eqn:Hf; simpl;
    try discriminate.
  destruct (negb (Z.of_nat (length bins) =? 1)); [discriminate|].
  apply (find_binaries_nonempty_str X _ [] bins (List.Forall_nil _)) in Hf.
  destruct bins as [|b bins]; simpl; [discriminate|].
  intros [= <- _]. by apply Forall_cons in Hf as [? _].
Qed.

(** ** The build that fails *)

(** X7: when the captured build cannot be started or ends with a non-zero
    status, the build is run once more without capture, with the same
    environment and on the disk the first run left; the function then
    raises the failure of the first run, unless the second run cannot be
    started, whose exception is raised instead.  The log holds the two
    processes and the announcing line between them. *)
Theorem build_rust_binary_reruns_failed_build (X : Externals) (g : string) (w : World)
    (env0 : gmap string string) (p l : string)
    (r1 r2 : exn + proc_result) (f1 f2 : gmap path node) (e1 : exn) :
  dicts w !! os_environ = Some env0 →
  env0 !! "PATH" = Some p →
  env0 !! "LIB" = Some l →
  run_process X build_argv (Some (script_dir X)) (child_env (Path g) env0 p l) (fs w)
    = (r1, f1) →
  build_failure r1 = Some e1 →
  run_process X rerun_argv (Some (script_dir X)) (child_env (Path g) env0 p l) f1
    = (r2, f2) →
  (build_rust_binary X g w).1 =
    match r2 with
    | inl e2 => Raised e2
    | inr _ => Raised e1
    end
  ∧ fs (build_rust_binary X g w).2 = f2
  ∧ log (build_rust_binary X g w).2 =
      log w ++
      [Spawn build_argv (Some (script_dir X)) (child_env (Path g) env0 p l);
       Print ("Re-running cargo build without capturing stdout to see all errors:" +:+ nl);
       Spawn rerun_argv (Some (script_dir X)) (child_env (Path g) env0 p l)].
Proof.
  intros H0 Hp Hl Hrun1 Hfail Hrun2.
  set (env := child_env (Path g) env0 p l) in *.
  assert (build_rust_binary X g w =
            (match r2 with inl e2 => Raised e2 | inr _ => Raised e1 end,
             emit (Spawn rerun_argv (Some (script_dir X)) env)
               (with_fs f2
                  (emit (Print ("Re-running cargo build without capturing stdout to see all errors:" +:+ nl))
                     (emit (Spawn build_argv (Some (script_dir X)) env)
                        (with_fs f1
                           (with_dicts (<[fresh (dom (dicts w)) := env]> (dicts w)) w))))))) as ->.
  { unfold build_rust_binary. unfold bind at 1.
    rewrite (gtk_env_ok _ _ _ _ _ H0 Hp Hl). fold env.
    unfold bind at 1, start_build, try_except, subprocess_run, bind, print, raise. simpl.
    fold build_argv rerun_argv. rewrite lookup_insert_eq, Hrun1.
    destruct r1 as [err|res]; simpl in *.
    - injection Hfail as <-. rewrite lookup_insert_eq, Hrun2.
      by destruct r2 as [e2|res2].
    - destruct (returncode res =? 0); [discriminate|]. injection Hfail as <-. simpl.
      rewrite lookup_insert_eq, Hrun2.
      by destruct r2 as [e2|res2]. }
  simpl. by rewrite <- !app_assoc.
Qed.

(** ** The file-manager window *)

Lemma rev_string_snoc (s : string) (c : ascii) :
  rev_string (s +:+ String c "") = String c (rev_string s).
Proof.
  unfold rev_string.
  assert (String.list_ascii_of_string (s +:+ String c "")
          = String.list_ascii_of_string s ++ [c]) as ->.
  { induction s as [|a s IH]; simpl; [reflexivity|]. by rewrite IH. }
  by rewrite rev_app_distr.
Qed.

Lemma drop_last_snoc (s : string) (c : ascii) : drop_last (s +:+ String c "") = s.
Proof.
  unfold drop_last.
  assert (String.list_ascii_of_string (s +:+ String c "")
          = String.list_ascii_of_string s ++ [c]) as ->.
  { induction s as [|a s IH]; simpl; [reflexivity|]. by rewrite IH. }
  rewrite removelast_last. apply String.string_of_list_ascii_of_string.
Qed.

(** X8: a selected file that ends with a separator of either kind loses
    exactly that one character; nothing else of it changes. *)
Theorem selected_removes_one_separator (s : string) (c : ascii) :
  is_sep c = true → selected (s +:+ String c "") = s.
Proof.
  intros Hc. unfold selected, endswith. rewrite rev_string_snoc, drop_last_snoc.
  unfold is_sep in Hc. apply orb_true_iff in Hc as [Hc|Hc];
    apply Ascii.eqb_eq in Hc; subst c; simpl; by destruct (rev_string s).
Qed.

(** X9: the window is asked for with [explorer /select,file] in the
    environment of the script, and the caller goes on whatever status
    explorer ends with. *)
Theorem show_file_in_explorer_ignores_status (X : Externals) (file : string) (w : World)
    (env0 : gmap string string) (res : proc_result) (f' : gmap path node) :
  dicts w !! os_environ = Some env0 →
  run_process X ["explorer"; "/select,"; selected file] None env0 (fs w) = (inr res, f') →
  show_file_in_explorer X file w =
    (Returned tt,
     emit (Spawn ["explorer"; "/select,"; selected file] None env0) (with_fs f' w)).
Proof.
  intros H0 Hrun. unfold show_file_in_explorer, bind, subprocess_run, ret. simpl.
  by rewrite H0, Hrun.
Qed.

(** ** The toolkit's directory *)

Lemma bundle_from_missing (X : Externals) (args : Args) (meta : CargoMetadata)
    (gtk : path) (w : World) :
  fs w !! gtk = None →
  ∃ evs, bundle_from X args meta gtk w =
           (Exited 1, {| dicts := dicts w; fs := fs w; log := log w ++ evs |})
         ∧ Forall is_print evs.
Proof.
  intros Hgtk. unfold bundle_from. unfold bind at 1. unfold path_exists at 1. simpl.
  rewrite Hgtk, bool_decide_eq_false_2 by (by intros [? ?]). simpl.
  rewrite !bind_print. unfold exit, emit. simpl.
  eexists. split; [rewrite <- !app_assoc; simpl; reflexivity|].
  repeat constructor.
Qed.

(** X10: in either variant, when the toolkit's binary directory that was
    chosen does not exist, the script ends with [exit(1)] after printing
    only; no directory is created, nothing is copied and no build is
    started. *)
Theorem bundle_exits_without_toolkit (X : Externals) (args : Args) (w w1 w2 : World)
    (meta : CargoMetadata) (gtk : path) :
  get_cargo_metadata X (emit (Print "") w) = (Returned meta, w1) →
  acquire_gtk X args meta w1 = (Returned gtk, w2) →
  fs w2 !! gtk = None →
  (bundle X args w).1 = Exited 1 ∧
  fs (bundle X args w).2 = fs w2 ∧
  ∃ evs, log (bundle X args w).2 = log w2 ++ evs ∧ Forall is_print evs.
Proof.
  intros Hmeta Hacq Hgtk.
  destruct (bundle_from_missing X args meta gtk w2 Hgtk) as (evs & Heq & Hprints).
  rewrite bundle_sequence, bind_print, (bind_returned _ _ _ _ _ Hmeta),
    (bind_returned _ _ _ _ _ Hacq), Heq. simpl. eauto.
Qed.

(** ** Further answers the download refuses *)

(** X11: a listing whose [assets] member is null, and a matched asset
    whose [browser_download_url] is null, are refused like the others: the
    branch ends with [exit(1)] after a diagnostic, the disk untouched and
    nothing downloaded.  The null address is refused before the content
    type is looked at. *)
Theorem download_gtk_branch_refuses_null (X : Externals) (meta : CargoMetadata)
    (w : World) (resp : response) (data : pyval) :
  fs w !! cache_dir meta = None →
  requests_get X releases_url = inr resp →
  status_code resp = 200 →
  body resp = inr data →
  field data "assets" = Some PNone
  ∨ (∃ assets asset,
       field data "assets" = Some (PList assets) ∧ Forall named assets ∧
       List.filter (is_gtk4 X) assets = [asset] ∧
       field asset "browser_download_url" = Some PNone) →
  (download_gtk_branch X meta w).1 = Exited 1 ∧
  fs (download_gtk_branch X meta w).2 = fs w ∧
  ∃ evs, log (download_gtk_branch X meta w).2 = log w ++ evs ∧
         Exists is_diagnostic evs ∧ Forall (fun e => ¬ is_download e) evs.
Proof.
  intros Hcache Hget Hst Hb Hnull.
  rewrite (download_gtk_branch_missing X meta w Hcache).
  set (w2 := emit _ (emit _ w)).
  assert ((download_release X (cache_dir meta) w2).1 = Exited 1 ∧
          fs (download_release X (cache_dir meta) w2).2 = fs w2 ∧
          ∃ evs, log (download_release X (cache_dir meta) w2).2
                   = log w2 ++ HttpGet releases_url :: evs ∧
                 Exists is_diagnostic evs ∧ Forall is_print evs)
    as (Hout & Hfs & evs & Hlog & Hdiag & Hprints).
  { run_download. rewrite Hget. simpl. rewrite Hst, Hb. simpl.
    destruct Hnull as [Ha | (assets & a & Ha & Hn & Hf & Hurl)];
      rewrite (getitem_field _ _ _ Ha); simpl; [close_refusal|].
    destruct (Z.of_nat (length assets) =? 0); simpl; [close_refusal|].
    rewrite (filter_gtk4_named X _ Hn), Hf. simpl.
    assert (named a) as [nm Hnm] by (apply (filter_named (X:=X) Hn); rewrite Hf; left).
    rewrite (getitem_field _ _ _ Hnm). simpl.
    rewrite (getitem_field _ _ _ Hurl). simpl. close_refusal. }
  rewrite (bind_exited _ _ _ _ Hout). simpl.
  split; [reflexivity|]. split; [exact Hfs|].
  eexists. split; [rewrite Hlog; simpl; rewrite <- !app_assoc; reflexivity|].
  split.
  - simpl. do 3 apply Exists_cons_tl. exact Hdiag.
  - repeat (constructor; [by intros []|]).
    eapply Forall_impl; [exact Hprints|]. by intros [] Hp Hd.
Qed.

(** ** The cache after a failed download *)

Lemma download_gtk_branch_cached (X : Externals) (meta : CargoMetadata) (w : World) :
  is_Some (fs w !! cache_dir meta) →
  download_gtk_branch X meta w =
    (Returned (joinpath (cache_dir meta) "bin"),
     emit (Print "")
       (emit (Print ("GTK release already downloaded at: " +:+ str (cache_dir meta)))
          (emit (Print "")
             (emit (Print "Downloading latest GTK release by gvsbuild from https://github.com/wingtk/gvsbuild/releases") w)))).
Proof.
  intros Hcache. unfold download_gtk_branch. fold (cache_dir meta).
  rewrite !bind_print. unfold bind at 1. unfold path_exists at 1. simpl.
  by rewrite bool_decide_eq_true_2.
Qed.

(** X12: the cache directory is created before the archive is fetched.
    When the fetch of an accepted archive fails, the branch raises that
    failure and leaves the cache directory behind, empty; a second run then
    takes it for a downloaded release: it returns the [bin] path below it
    with no request, no download and no extraction. *)
Theorem failed_download_leaves_cache (X : Externals) (meta : CargoMetadata) (w : World)
    (resp : response) (url : string) (e : exn) (f1 : gmap path node) :
  fs w !! cache_dir meta = None →
  requests_get X releases_url = inr resp →
  offers X resp url →
  mkdir_from [] (cache_dir meta) (fs w) = inr f1 →
  urlopen_read X url = inl e →
  (download_gtk_branch X meta w).1 = Raised e ∧
  fs (download_gtk_branch X meta w).2 = f1 ∧
  f1 !! cache_dir meta = Some Dir ∧
  (download_gtk_branch X meta (download_gtk_branch X meta w).2).1
    = Returned (joinpath (cache_dir meta) "bin") ∧
  fs (download_gtk_branch X meta (download_gtk_branch X meta w).2).2 = f1 ∧
  ∃ evs, log (download_gtk_branch X meta (download_gtk_branch X meta w).2).2
           = log (download_gtk_branch X meta w).2 ++ evs ∧ transfers evs = [].
Proof.
  intros Hcache Hget (assets & a & (Hst & data & Hb & Ha & Hn) & Hf & Hurl & Hct) Hmk Hopen.
  assert (f1 !! cache_dir meta = Some Dir) as Hdir.
  { apply (mkdir_from_dirs _ _ _ _ Hmk), (on_the_way_full []).
    unfold cache_dir, joinpath. intros Heq. by apply app_eq_nil in Heq as [_ ?]. }
  assert (named a) as [nm Hnm] by (apply (filter_named (X:=X) Hn); rewrite Hf; left).
  assert (∃ w', download_gtk_branch X meta w = (Raised e, w') ∧ fs w' = f1) as (w' & -> & Hw').
  { rewrite (download_gtk_branch_missing X meta w Hcache).
    unfold bind at 1. run_download. rewrite Hget. simpl. rewrite Hst, Hb. simpl.
    rewrite (getitem_field _ _ _ Ha). simpl.
    destruct (Z.eqb_spec (Z.of_nat (length assets)) 0) as [Hz|_]; simpl.
    { destruct assets; [discriminate Hf | simpl in Hz; lia]. }
    rewrite (filter_gtk4_named X _ Hn), Hf. simpl.
    rewrite (getitem_field _ _ _ Hnm). simpl.
    rewrite (getitem_field _ _ _ Hurl). simpl.
    rewrite (getitem_field _ _ _ Hct). simpl.
    unfold mkdir_parents, on_fs, urlopen. simpl. rewrite Hmk. simpl.
    rewrite Hopen. simpl. eauto. }
  simpl. split; [reflexivity|]. split; [exact Hw'|]. split; [exact Hdir|].
  rewrite (download_gtk_branch_cached X meta w') by (rewrite Hw', Hdir; eauto).
  simpl. split; [reflexivity|]. split; [exact Hw'|].
  eexists. split; [rewrite <- !app_assoc; simpl; reflexivity|]. reflexivity.
Qed.

(** ** What a whole run may log *)

Lemma make_archive_logged (P : event → Prop) X base_name root_dir :
  P (MakeArchive base_name root_dir) →
  respects (logged P) (make_archive X base_name root_dir).
Proof.
  intros HP w. unfold make_archive.
  destruct (is_dir (fs w) root_dir); [|apply logged_refl].
  destruct (fs w !! Path (base_name +:+ ".zip")) as [[]|]; simpl;
    first [ apply logged_refl
          | eapply logged_trans; [apply logged_with_fs | by apply logged_emit] ].
Qed.

Lemma show_file_in_explorer_logged (P : event → Prop) X file :
  (∀ cwd e, P (Spawn ["explorer"; "/select,"; selected file] cwd e)) →
  respects (logged P) (show_file_in_explorer X file).
Proof.
  intros HP. unfold show_file_in_explorer.
  apply (respects_bind _ (logged_trans P)).
  - apply subprocess_run_logged. intros e. apply HP.
  - intros _. apply (respects_ret _ (logged_refl P)).
Qed.

Section RunLogged.
Variable P : event → Prop.
Variable X : Externals.
Variable args : Args.
Hypothesis P_print : ∀ s, P (Print s).
Hypothesis P_cargo : ∀ rest cwd e, P (Spawn ("cargo" :: rest) cwd e).
Hypothesis P_archive : ∀ base_name root_dir, P (MakeArchive base_name root_dir).
Hypothesis P_reveal :
  show_binary args = true ∨ show_zip args = true →
  ∀ file cwd e, P (Spawn ["explorer"; "/select,"; file] cwd e).

Ltac run_step :=
  first
    [ apply show_file_in_explorer_logged; intros ? ?; apply P_reveal; auto; fail
    | apply assemble_bundle_logged, P_print
    | apply build_rust_binary_logged; [apply P_print | apply P_cargo]
    | apply print_logged, P_print
    | apply path_exists_logged
    | apply copy2_logged
    | apply make_archive_logged, P_archive
    | apply (respects_ret (logged P) (logged_refl P))
    | apply (respects_exit (logged P) (logged_refl P))
    | apply (respects_lift (logged P) (logged_refl P))
    | apply (respects_bind (logged P) (logged_trans P)); [|intros ?] ].

Lemma archive_and_reveal_logged bundle_dir binary :
  respects (logged P) (archive_and_reveal X args bundle_dir binary).
Proof.
  unfold archive_and_reveal.
  apply (respects_bind (logged P) (logged_trans P)).
  { destruct (show_binary args) eqn:Hb; repeat run_step. }
  intros _.
  do 3 (apply (respects_bind (logged P) (logged_trans P)); [run_step|intros _]).
  apply (respects_bind (logged P) (logged_trans P)); [|intros _; repeat run_step].
  destruct (show_zip args) eqn:Hz; repeat run_step.
Qed.

Lemma bundle_from_logged meta gtk : respects (logged P) (bundle_from X args meta gtk).
Proof.
  unfold bundle_from.
  apply (respects_bind (logged P) (logged_trans P)); [apply path_exists_logged|].
  intros found.
  destruct (negb found); repeat first [apply archive_and_reveal_logged | run_step].
Qed.

(** A run logs what the metadata query, the choice of the toolkit and the
    rest log. *)
Lemma bundle_logged (w : World) :
  (∀ meta w1, get_cargo_metadata X (emit (Print "") w) = (Returned meta, w1) →
              logged P w1 (acquire_gtk X args meta w1).2) →
  logged P w (bundle X args w).2.
Proof.
  intros Hacq. rewrite bundle_sequence, bind_print.
  eapply logged_trans; [apply logged_emit, P_print|].
  pose proof (get_cargo_metadata_logged P P_cargo X (emit (Print "") w)) as Hq.
  unfold bind at 1.
  destruct (get_cargo_metadata X (emit (Print "") w)) as [[meta|e|c] w1] eqn:Hmeta;
    simpl in *; try exact Hq.
  eapply logged_trans; [exact Hq|].
  specialize (Hacq meta w1 eq_refl). unfold bind.
  destruct (acquire_gtk X args meta w1) as [[gtk|e|c] w2]; simpl in *; try exact Hacq.
  eapply logged_trans; [exact Hacq|]. apply bundle_from_logged.
Qed.
End RunLogged.

Lemma transfers_none (evs : list event) :
  Forall (fun e => is_transfer e = false) evs → transfers evs = [].
Proof.
  intros H. unfold transfers.
  destruct (List.filter _ evs) as [|x l] eqn:E; [reflexivity|].
  assert (In x (x :: l)) as Hin by (by left). rewrite <- E in Hin.
  apply filter_In in Hin as [Hin Hx]. change (is_transfer x = true) in Hx.
  rewrite Forall_forall in H. apply list_elem_of_In in Hin.
  specialize (H x Hin). congruence.
Qed.

(** X13: a run touches the network only when [--download-gtk] is given
    and the cache directory is missing at the moment it is looked for;
    otherwise the whole run, whatever its length and its end, issues no
    request, downloads nothing and extracts nothing. *)
Theorem bundle_offline (X : Externals) (args : Args) (w : World) :
  (download_gtk args = true →
   ∀ meta w1, get_cargo_metadata X (emit (Print "") w) = (Returned meta, w1) →
              is_Some (fs w1 !! cache_dir meta)) →
  ∃ evs, log (bundle X args w).2 = log w ++ evs ∧ transfers evs = [].
Proof.
  intros Hcached.
  assert (logged (fun e => is_transfer e = false) w (bundle X args w).2)
    as (evs & Hlog & Hall).
  2: { exists evs. split; [done|]. by apply transfers_none. }
  apply bundle_logged; try done.
  - intros meta w1 Hmeta. unfold acquire_gtk.
    destruct (download_gtk args) eqn:Hd; [|apply logged_refl].
    rewrite (download_gtk_branch_cached X meta w1 (Hcached eq_refl meta w1 Hmeta)).
    simpl. exists [Print "Downloading latest GTK release by gvsbuild from https://github.com/wingtk/gvsbuild/releases";
                   Print ""; Print ("GTK release already downloaded at: " +:+ str (cache_dir meta));
                   Print ""].
    split; [simpl; by rewrite <- ?app_assoc | by repeat constructor].
Qed.

(** X14: without [--show-binary] and [--show-zip] no run opens a
    file-manager window. *)
Theorem bundle_without_flags_opens_no_window (X : Externals) (args : Args) (w : World) :
  show_binary args = false →
  show_zip args = false →
  ∃ evs, log (bundle X args w).2 = log w ++ evs ∧ Forall (fun e => ¬ is_reveal e) evs.
Proof.
  intros Hb Hz.
  apply (bundle_logged (fun e => ¬ is_reveal e) X args).
  - by intros s [file ?].
  - intros rest cwd e [file Hf]. by rewrite backstage_cargo in Hf.
  - by intros n r [file ?].
  - rewrite Hb, Hz. by intros [|].
  - intros meta w1 _. unfold acquire_gtk. destruct (download_gtk args).
    + apply download_gtk_branch_logged; by intros ? [file ?].
    + apply logged_refl.
Qed.

(** ** The order of the requests *)

Lemma advance_app (i : nat) (e1 e2 : list event) :
  advance i (e1 ++ e2) =
    match advance i e1 with
    | Some k => advance k e2
    | None => None
    end.
Proof.
  revert i. induction e1 as [|e e1 IH]; intros i; [reflexivity|].
  destruct e; simpl; try apply IH.
  - destruct i; [|reflexivity]. destruct (String.eqb url releases_url); [apply IH|reflexivity].
  - destruct i as [|[|i]]; try reflexivity. apply IH.
  - destruct i as [|[|[|i]]]; try reflexivity. apply IH.
Qed.

Lemma advance_quiet (i : nat) (evs : list event) :
  Forall (fun e => is_transfer e = false) evs → advance i evs = Some i.
Proof.
  induction 1 as [|e evs He _ IH]; [reflexivity|].
  destruct e; simpl in *; try discriminate; exact IH.
Qed.

Lemma advance_le (i k : nat) (evs : list event) : advance i evs = Some k → (i ≤ k)%nat.
Proof.
  revert i. induction evs as [|e evs IH]; intros i; simpl.
  - intros [= <-]. lia.
  - destruct e; try (by apply IH).
    + destruct i; [|discriminate].
      destruct (String.eqb url releases_url); [|discriminate].
      intros H. apply IH in H. lia.
    + destruct i as [|[|i]]; try discriminate. intros H. apply IH in H. lia.
    + destruct i as [|[|[|i]]]; try discriminate. intros H. apply IH in H. lia.
Qed.

Lemma transfers_cons (e : event) (evs : list event) :
  transfers (e :: evs) = if is_transfer e then e :: transfers evs else transfers evs.
Proof. reflexivity. Qed.

(** Events that follow the stages from the start are a beginning of: the
    listing request, the download, the extraction. *)
Lemma advance_transfers (i k : nat) (evs : list event) :
  advance i evs = Some k →
  ∃ url dest,
    transfers evs = drop i (take k [HttpGet releases_url; UrlOpen url; ExtractAll dest]).
Proof.
  revert i. induction evs as [|e evs IH]; intros i H.
  - simpl in H. injection H as <-. exists "", []. unfold transfers.
    destruct i as [|[|[|[|i]]]]; reflexivity.
  - pose proof (advance_le _ _ _ H) as Hle.
    rewrite transfers_cons. destruct e; simpl in H |- *; try (by apply IH).
    + destruct i; [|discriminate].
      destruct (String.eqb_spec url releases_url) as [->|]; [|discriminate].
      pose proof (advance_le _ _ _ H). destruct (IH _ H) as (u & d & ->).
      exists u, d. destruct k as [|[|[|[|k]]]]; try lia; reflexivity.
    + destruct i as [|[|i]]; try discriminate.
      pose proof (advance_le _ _ _ H). destruct (IH _ H) as (u & d & ->).
      exists url, d. destruct k as [|[|[|[|k]]]]; try lia; reflexivity.
    + destruct i as [|[|[|i]]]; try discriminate.
      pose proof (advance_le _ _ _ H). destruct (IH _ H) as (u & d & ->).
      exists u, dest. destruct k as [|[|[|[|k]]]]; try lia; reflexivity.
Qed.


Lemma staged_quiet {A} (i : nat) (m : prog A) : respects (logged quiet) m → staged i i m.
Proof.
  intros Hm w. destruct (Hm w) as (evs & Hlog & Hq).
  exists evs, i. by rewrite (advance_quiet _ _ Hq).
Qed.

Lemma staged_bind {A B} (i j l : nat) (m : prog A) (k : A → prog B) :
  staged i j m → (j ≤ l)%nat → (∀ a, staged j l (k a)) → staged i l (bind m k).
Proof.
  intros Hm Hjl Hk w. destruct (Hm w) as (e1 & k1 & Hlog1 & Hadv1 & Hle1 & Hret1).
  unfold bind. destruct (m w) as [[a|e|c] w1]; simpl in *.
  - rewrite (Hret1 a eq_refl) in Hadv1.
    destruct (Hk a w1) as (e2 & k2 & Hlog2 & Hadv2 & Hle2 & Hret2).
    exists (e1 ++ e2), k2. rewrite advance_app, Hadv1, Hlog2, Hlog1, app_assoc. done.
  - exists e1, k1. repeat split; [done|done|lia|done].
  - exists e1, k1. repeat split; [done|done|lia|done].
Qed.

Lemma staged_exit {A} (i j : nat) (c : Z) : (i ≤ j)%nat → staged i j (@exit A c).
Proof.
  intros Hle w. exists [], i. simpl. rewrite app_nil_r. done.
Qed.

Lemma staged_get (X : Externals) : staged 0 1 (requests_get_ X releases_url).
Proof.
  intros w. exists [HttpGet releases_url], 1%nat. simpl.
  rewrite ?String.eqb_refl. done.
Qed.

Lemma staged_urlopen (X : Externals) (url : pyval) : staged 1 2 (urlopen X url).
Proof.
  intros w. unfold urlopen. destruct url;
    try (exists [], 1%nat; simpl; rewrite app_nil_r; repeat split; [lia|done]).
  exists [UrlOpen s], 2%nat. done.
Qed.

Lemma staged_extractall ms dest : staged 2 3 (extractall ms dest).
Proof.
  intros w. exists [ExtractAll dest], 3%nat. unfold extractall.
  by destruct (extract_members dest ms (fs w)).
Qed.

Ltac quiet_steps :=
  repeat first
    [ apply print_logged; reflexivity
    | apply mkdir_parents_logged
    | apply path_exists_logged
    | apply (respects_ret (logged quiet) (logged_refl quiet))
    | apply (respects_lift (logged quiet) (logged_refl quiet))
    | match goal with |- respects _ (if ?b then _ else _) => destruct b end
    | apply (respects_bind (logged quiet) (logged_trans quiet)); [|intros ?] ].

Lemma download_release_staged (X : Externals) (dir : path) :
  staged 0 3 (download_release X dir).
Proof.
  unfold download_release.
  eapply (staged_bind 0 1 3); [apply staged_get | lia | intros response].
  destruct (negb (status_code response =? 200)).
  { do 2 (eapply (staged_bind 1 1 3); [apply staged_quiet; quiet_steps | lia | intros _]).
    apply staged_exit. lia. }
  do 3 (eapply (staged_bind 1 1 3); [apply staged_quiet; quiet_steps | lia | intros ?]).
  match goal with |- staged _ _ (if ?b then _ else _) => destruct b end.
  { do 2 (eapply (staged_bind 1 1 3); [apply staged_quiet; quiet_steps | lia | intros _]).
    apply staged_exit. lia. }
  do 3 (eapply (staged_bind 1 1 3); [apply staged_quiet; quiet_steps | lia | intros ?]).
  match goal with |- staged _ _ (if ?b then _ else _) => destruct b end.
  { do 5 (eapply (staged_bind 1 1 3); [apply staged_quiet; quiet_steps | lia | intros ?]).
    apply staged_exit. lia. }
  do 4 (eapply (staged_bind 1 1 3); [apply staged_quiet; quiet_steps | lia | intros ?]).
  match goal with |- staged _ _ (if ?b then _ else _) => destruct b end.
  { do 2 (eapply (staged_bind 1 1 3); [apply staged_quiet; quiet_steps | lia | intros _]).
    apply staged_exit. lia. }
  eapply (staged_bind 1 1 3); [apply staged_quiet; quiet_steps | lia | intros ?].
  match goal with |- staged _ _ (if ?b then _ else _) => destruct b end.
  { do 3 (eapply (staged_bind 1 1 3); [apply staged_quiet; quiet_steps | lia | intros ?]).
    apply staged_exit. lia. }
  do 4 (eapply (staged_bind 1 1 3); [apply staged_quiet; quiet_steps | lia | intros ?]).
  eapply (staged_bind 1 2 3); [apply staged_urlopen | lia | intros archive].
  eapply (staged_bind 2 2 3); [apply staged_quiet; quiet_steps | lia | intros members].
  eapply (staged_bind 2 3 3); [apply staged_extractall | lia | intros _].
  apply staged_quiet. quiet_steps.
Qed.

Lemma within_of_staged {A} (i j : nat) (m : prog A) : staged i j m → within i j m.
Proof. intros H w. destruct (H w) as (evs & k & ? & ? & ? & _). eauto. Qed.

Lemma within_quiet {A} (i j : nat) (m : prog A) :
  respects (logged quiet) m → (i ≤ j)%nat → within i j m.
Proof.
  intros Hm Hle w. destruct (Hm w) as (evs & Hlog & Hq).
  exists evs, i. by rewrite (advance_quiet _ _ Hq).
Qed.

Lemma within_quiet_bind {A B} (i j : nat) (m : prog A) (k : A → prog B) :
  respects (logged quiet) m → (i ≤ j)%nat → (∀ a, within i j (k a)) →
  within i j (bind m k).
Proof.
  intros Hm Hle Hk w. destruct (Hm w) as (e1 & Hlog1 & Hq).
  unfold bind. destruct (m w) as [[a|e|c] w1]; simpl in *.
  - destruct (Hk a w1) as (e2 & k2 & Hlog2 & Hadv2 & Hle2).
    exists (e1 ++ e2), k2. by rewrite advance_app, (advance_quiet _ _ Hq), Hlog2, Hlog1, app_assoc.
  - exists e1, i. by rewrite (advance_quiet _ _ Hq).
  - exists e1, i. by rewrite (advance_quiet _ _ Hq).
Qed.

Lemma within_bind_quiet {A B} (i j : nat) (m : prog A) (k : A → prog B) :
  within i j m → (∀ a, respects (logged quiet) (k a)) → within i j (bind m k).
Proof.
  intros Hm Hk w. destruct (Hm w) as (e1 & k1 & Hlog1 & Hadv1 & Hle1).
  unfold bind. destruct (m w) as [[a|e|c] w1]; simpl in *; [|by eauto..].
  destruct (Hk a w1) as (e2 & Hlog2 & Hq).
  exists (e1 ++ e2), k1.
  by rewrite advance_app, Hadv1, (advance_quiet _ _ Hq), Hlog2, Hlog1, app_assoc.
Qed.

Lemma download_gtk_branch_within (X : Externals) (meta : CargoMetadata) :
  within 0 3 (download_gtk_branch X meta).
Proof.
  unfold download_gtk_branch.
  do 2 (apply within_quiet_bind; [by apply print_logged | lia | intros _]).
  apply within_quiet_bind; [apply path_exists_logged | lia | intros cached].
  apply within_bind_quiet; [|intros _; apply (respects_ret _ (logged_refl _))].
  destruct cached.
  - apply within_quiet; [|lia]. quiet_steps.
  - apply within_of_staged, download_release_staged.
Qed.

(** X15: in every run, whatever the answers of the network and however
    the run ends, the requests are a beginning of this sequence: one
    request for the listing of the latest release, one download, one
    extraction.  None is repeated and none comes out of turn. *)
Theorem bundle_transfers_in_order (X : Externals) (args : Args) (w : World) :
  ∃ evs k url dest,
    log (bundle X args w).2 = log w ++ evs ∧
    transfers evs = take k [HttpGet releases_url; UrlOpen url; ExtractAll dest].
Proof.
  assert (within 0 3 (bundle X args)) as H.
  { rewrite bundle_sequence.
    apply within_quiet_bind; [by apply print_logged | lia | intros _].
    apply within_quiet_bind; [by apply get_cargo_metadata_logged | lia | intros meta].
    apply within_bind_quiet.
    - unfold acquire_gtk. destruct (download_gtk args).
      + apply download_gtk_branch_within.
      + apply within_quiet; [apply (respects_ret _ (logged_refl _)) | lia].
    - intros gtk. by apply bundle_from_logged. }
  destruct (H w) as (evs & k & Hlog & Hadv & _).
  destruct (advance_transfers _ _ _ Hadv) as (url & dest & Htr).
  exists evs, k, url, dest. by rewrite Htr.
Qed.

(** ** The environment of the script *)

Lemma same_environ_refl w : same_environ w w.
Proof. reflexivity. Qed.

Lemma same_environ_trans a b c : same_environ a b → same_environ b c → same_environ a c.
Proof. unfold same_environ. congruence. Qed.

Lemma same_dicts_environ {A} (m : prog A) : respects same_dicts m → respects same_environ m.
Proof. intros H w. unfold same_environ. by rewrite (H w). Qed.

(** A step that leaves every dict alone. *)
Ltac dicts_alone :=
  apply same_dicts_environ; intros ?; unfold same_dicts;
  repeat match goal with
         | |- context [match ?x with _ => _ end] => destruct x; simpl
         | _ => progress (cbv beta delta
                  [path_exists mkdir_parents glob copy2 open_w file_write on_fs print
                   make_archive extractall requests_get_ urlopen subprocess_run
                   lift raise exit ret]; simpl)
         end; reflexivity.

Ltac environ_steps :=
  repeat first
    [ dicts_alone
    | match goal with |- respects _ (if ?b then _ else _) => destruct b end
    | apply (respects_bind same_environ same_environ_trans); [|intros ?] ].

Lemma copy_dlls_same_environ dlls b : respects same_environ (copy_dlls dlls b).
Proof. induction dlls; simpl; environ_steps. assumption. Qed.

Lemma build_rust_binary_same_environ X g : respects same_environ (build_rust_binary X g).
Proof.
  intros w. unfold same_environ, build_rust_binary.
  pose proof (gtk_env_keeps_environ (Path g) w) as Henv.
  unfold bind at 1.
  destruct (gtk_env (Path g) w) as [[r|e|c] w1]; simpl in *; try exact Henv.
  rewrite <- Henv. f_equal.
  apply (respects_bind same_dicts same_dicts_trans).
  - apply start_build_same_dicts.
  - intros res w2. unfold same_dicts. by rewrite find_built_binary_world.
Qed.

(** X16: no run of the script changes the items of [os.environ],
    whichever flags it is given and however it ends. *)
Theorem bundle_keeps_environ (X : Externals) (args : Args) (w : World) :
  dicts (bundle X args w).2 !! os_environ = dicts w !! os_environ.
Proof.
  revert w. change (respects same_environ (bundle X args)).
  unfold bundle, get_cargo_metadata, download_gtk_branch, download_release,
    assemble_bundle, archive_and_reveal, show_file_in_explorer.
  repeat first
    [ apply copy_dlls_same_environ
    | apply build_rust_binary_same_environ
    | dicts_alone
    | match goal with |- respects _ (if ?b then _ else _) => destruct b end
    | apply (respects_bind same_environ same_environ_trans); [|intros ?] ].
Qed.

(** ** What an assembly leaves in the bundle directory and around it *)

(** X17: when the assembly has gone through, every entry of the toolkit's
    binary directory whose name ends in .dll, whatever the case of its
    letters, is a file and lies in the bundle directory under its own
    name, with the content and the read-only attribute the toolkit's
    file had when the assembly began; so do gdbus.exe and, two levels
    down, the compiled schemas. *)
Theorem assemble_bundle_copies (gtk : path) (meta : CargoMetadata) (w w1 : World)
    (bundle_dir : path) :
  assemble_bundle gtk meta w = (Returned bundle_dir, w1) →
  (∀ x, is_Some (fs w !! x) → child gtk x → dll x →
        ∃ n, n ≠ Dir ∧ fs w !! x = Some n ∧
             fs w1 !! (bundle_dir ++ [name x]) = Some n)
  ∧ (∃ n, n ≠ Dir ∧ fs w !! (gtk ++ ["gdbus.exe"]) = Some n ∧
          fs w1 !! (bundle_dir ++ ["gdbus.exe"]) = Some n)
  ∧ (∃ n, n ≠ Dir ∧
          fs w !! (resolve (gtk ++ [".."; "share"; "glib-2.0"; "schemas"])
                   ++ ["gschemas.compiled"]) = Some n ∧
          fs w1 !! (bundle_dir ++ ["share"; "glib-2.0"; "schemas"; "gschemas.compiled"])
            = Some n).
Proof.
  intros [-> Hfs]%assemble_bundle_disk.
  destruct (assemble_fs_facts gtk _ (bundle_dir_of_nonempty meta) _ _ Hfs)
    as (f1 & n2 & n3 & H1 & _ & _ & _ & _ & FLn &
        (Hn2 & Hf2 & _ & F2d & _) & (Hn3 & Hf3 & _ & F3d & _) & _).
  split; [|split].
  - intros x Hx [Hne Hp] Hd.
    destruct (FLn x) as (n & Hn & Hx0 & _ & HcF & _); [|by eauto].
    apply elem_of_glob_suffix. split; [|done]. eapply mkdir_from_present; eauto.
  - eauto.
  - exists n3. rewrite <- app_assoc in F3d. eauto.
Qed.

(** X18: a successful assembly writes files only below the bundle
    directory and never over a directory or a read-only file; it makes
    directories only there and on the way down to it, where nothing was;
    every other entry of the disk, the toolkit's among them, is as it
    was. *)
Theorem assemble_bundle_confined (gtk : path) (meta : CargoMetadata) (w w1 : World)
    (bundle_dir : path) :
  assemble_bundle gtk meta w = (Returned bundle_dir, w1) →
  ∀ p, fs w1 !! p = fs w !! p
       ∨ (below bundle_dir p ∧ overwritable (fs w !! p) ∧
          ∃ n, n ≠ Dir ∧ fs w1 !! p = Some n)
       ∨ ((on_the_way [] bundle_dir p ∨ below bundle_dir p) ∧
          fs w !! p = None ∧ fs w1 !! p = Some Dir).
Proof.
  intros [-> Hfs]%assemble_bundle_disk.
  exact (assemble_fs_evolves gtk _ (bundle_dir_of_nonempty meta) _ _ Hfs).
Qed.

(** ** Where the archive goes *)

Lemma append_cons (c : ascii) (s t : string) : String c s +:+ t = String c (s +:+ t).
Proof. reflexivity. Qed.

Lemma append_nil_r (s : string) : s +:+ "" = s.
Proof. induction s as [|c s IH]; [done|]. by rewrite append_cons, IH. Qed.

Lemma append_assoc (s t u : string) : (s +:+ t) +:+ u = s +:+ t +:+ u.
Proof. induction s as [|c s IH]; [done|]. by rewrite !append_cons, IH. Qed.

Lemma plain_app (s t : string) : plain (s +:+ t) = plain s && plain t.
Proof.
  induction s as [|c s IH]; [done|]. rewrite append_cons. simpl.
  by rewrite IH, andb_assoc.
Qed.

Lemma split_path_plain (s t cur : string) :
  plain s = true → split_path (s +:+ t) cur = split_path t (cur +:+ s).
Proof.
  revert cur. induction s as [|c s IH]; intros cur Hs.
  - by rewrite append_nil_r.
  - rewrite append_cons. simpl in *.
    apply andb_prop in Hs as [Hc Hs]. apply negb_true_iff in Hc. rewrite Hc.
    rewrite IH by done. by rewrite append_assoc.
Qed.

Lemma split_path_all_plain (s cur : string) :
  plain cur = true → Forall (fun c => plain c = true) (split_path s cur).
Proof.
  revert cur. induction s as [|c s IH]; intros cur Hcur; simpl.
  - by constructor.
  - destruct (is_sep c) eqn:Hc.
    + constructor; [done|]. by apply IH.
    + apply IH. rewrite plain_app, Hcur. simpl. by rewrite Hc.
Qed.

Lemma Path_components (s : string) :
  Forall (fun c => plain c = true ∧ kept c = true) (Path s).
Proof.
  unfold Path. apply List.Forall_forall. intros c [Hin Hk]%filter_In.
  split; [|exact Hk].
  pose proof (split_path_all_plain s "" eq_refl) as H.
  rewrite List.Forall_forall in H. by apply H.
Qed.

Lemma concat_cons2 (sep x y : string) (l : list string) :
  String.concat sep (x :: y :: l) = x +:+ sep +:+ String.concat sep (y :: l).
Proof. reflexivity. Qed.

Lemma split_path_sep (r cur : string) :
  split_path ("\" +:+ r) cur = cur :: split_path r "".
Proof. reflexivity. Qed.

(** Text after the path's text lands in the last component. *)
Lemma split_path_str (q : path) (n t : string) :
  Forall (fun c => plain c = true) (q ++ [n]) → plain t = true →
  split_path (str (q ++ [n]) +:+ t) "" = q ++ [n +:+ t].
Proof.
  intros Hq Ht. unfold str. induction q as [|x q IH].
  - simpl. rewrite <- (append_nil_r (n +:+ t)) at 1.
    rewrite split_path_plain; [done|].
    apply Forall_inv in Hq. by rewrite plain_app, Hq, Ht.
  - rewrite <- app_comm_cons in Hq |- *. apply Forall_cons in Hq as [Hx Hq].
    specialize (IH Hq).
    destruct (q ++ [n]) as [|y l] eqn:E; [by destruct q|].
    rewrite concat_cons2, !append_assoc, split_path_plain by done.
    rewrite split_path_sep. change ("" +:+ x) with x. by rewrite IH.
Qed.

Lemma kept_app (n t : string) : n ≠ "" → t ≠ "" → kept (n +:+ t) = true.
Proof.
  intros Hn Ht. destruct n as [|a [|b n]], t as [|c t]; try done.
  all: unfold kept; simpl; by repeat case_match.
Qed.

(** The text of a path with [t] after it reads back as the path with
    [t] after its name. *)
Lemma Path_str_app (b : path) (t : string) :
  b ≠ [] → Forall (fun c => plain c = true ∧ kept c = true) b →
  plain t = true → t ≠ "" →
  Path (str b +:+ t) = parent b ++ [name b +:+ t].
Proof.
  intros Hb Hwf Ht Hne.
  destruct (exists_last Hb) as (q & n & ->).
  unfold parent, name. rewrite removelast_last, last_last.
  unfold Path. rewrite split_path_str; [| |done].
  - apply Forall_app in Hwf as [Hq Hn]. apply Forall_inv in Hn as [_ Hn].
    rewrite List.filter_app. f_equal.
    + apply forallb_filter_id. apply forallb_forall. intros c Hc.
      rewrite List.Forall_forall in Hq. by apply Hq.
    + assert (∀ c, List.filter (fun c => negb (String.eqb c "") && negb (String.eqb c "."))
                     [c] = if kept c then [c] else []) as -> by reflexivity.
      rewrite kept_app; [done| |done].
      intros ->. done.
  - eapply Forall_impl; [exact Hwf|]. by intros c [? _].
Qed.

Lemma contains_dot_cons (c : ascii) (s : string) :
  contains "." (String c s) = false → c ≠ "."%char ∧ contains "." s = false.
Proof.
  simpl. intros [H1 H2]%orb_false_elim. split; [|done].
  intros ->. simpl in H1. by destruct s.
Qed.

Lemma contains_dot_intro (c : ascii) (s : string) :
  c ≠ "."%char → contains "." s = false → contains "." (String c s) = false.
Proof.
  intros Hc Hs. cbn [contains]. rewrite Hs, orb_false_r. unfold String.prefix.
  destruct (ascii_dec "." c) as [E|]; [congruence|done].
Qed.

Lemma contains_dot_app (s t : string) :
  contains "." s = false → contains "." t = false → contains "." (s +:+ t) = false.
Proof.
  induction s as [|c s IH]; [done|]. intros [Hc Hs]%contains_dot_cons Ht.
  rewrite append_cons. apply contains_dot_intro; [done|]. by apply IH.
Qed.

Lemma split_path_no_dot (s cur : string) :
  contains "." s = false → contains "." cur = false →
  Forall (fun c => contains "." c = false) (split_path s cur).
Proof.
  revert cur. induction s as [|c s IH]; intros cur Hs Hcur; simpl.
  - by constructor.
  - apply contains_dot_cons in Hs as [Hc Hs]. destruct (is_sep c).
    + constructor; [done|]. by apply IH.
    + apply IH; [done|]. apply contains_dot_app; [done|].
      by apply contains_dot_intro.
Qed.

Lemma rfind_dot_none (s : string) (i : nat) (found : option nat) :
  contains "." s = false → rfind_dot s i found = found.
Proof.
  revert i found. induction s as [|c s IH]; intros i found Hs; simpl; [done|].
  apply contains_dot_cons in Hs as [Hc Hs]. rewrite IH by done.
  destruct (Ascii.eqb_spec c "."); done.
Qed.

Lemma stem_no_dot (s : string) : contains "." s = false → stem s = s.
Proof. intros H. unfold stem. by rewrite rfind_dot_none. Qed.

(** The bundle directory is named after the package. *)
Lemma bundle_dir_of_name (meta : CargoMetadata) :
  contains "." (package_name meta) = false →
  contains "." (name (bundle_dir_of meta)) = false.
Proof.
  intros Hp. unfold bundle_dir_of, joinpath.
  assert (Path ("./release/" +:+ package_name meta +:+ "-bundled")
          = "release" :: Path (package_name meta +:+ "-bundled")) as -> by reflexivity.
  assert (Forall (fun c => contains "." c = false)
            (Path (package_name meta +:+ "-bundled"))) as Hall.
  { unfold Path. apply List.Forall_forall. intros c [Hin _]%filter_In.
    pose proof (split_path_no_dot (package_name meta +:+ "-bundled") ""
                  (contains_dot_app (package_name meta) "-bundled" Hp eq_refl) eq_refl) as H.
    rewrite List.Forall_forall in H. by apply H. }
  unfold name.
  destruct (Path (package_name meta +:+ "-bundled")) as [|c l _] using rev_ind.
  - by rewrite last_last.
  - apply Forall_app in Hall as [_ Hc]. apply Forall_inv in Hc.
    by rewrite app_comm_cons, app_assoc, last_last.
Qed.

(** X19: with no dot in the package name, the archive is written at the
    very path the script announces and, with --show-zip, reveals: the
    text of the bundle directory with .zip after it names the same file
    as the bundle directory with its suffix replaced, and that file
    holds the zip of the bundle directory once [make_archive] has
    returned. *)
Theorem archive_where_announced (X : Externals) (meta : CargoMetadata) (w w' : World) :
  contains "." (package_name meta) = false →
  make_archive X (str (bundle_dir_of meta)) (bundle_dir_of meta) w = (Returned tt, w') →
  fs w' !! with_suffix (bundle_dir_of meta) ".zip"
    = Some (File (zip_bytes X (subtree (fs w) (bundle_dir_of meta)))) ∧
  ∀ p, p ≠ with_suffix (bundle_dir_of meta) ".zip" → fs w' !! p = fs w !! p.
Proof.
  intros Hp. unfold make_archive.
  destruct (is_dir (fs w) (bundle_dir_of meta)); [|discriminate].
  destruct (fs w !! Path (str (bundle_dir_of meta) +:+ ".zip")) as [[]|];
    try discriminate; intros [= <-]; simpl;
    (rewrite Path_str_app; [|apply bundle_dir_of_nonempty| |done|done]).
  1,3: unfold with_suffix; rewrite stem_no_dot by (by apply bundle_dir_of_name);
       rewrite lookup_insert_eq; (split; [done|]); intros p Hne;
       by rewrite lookup_insert_ne.
  all: unfold bundle_dir_of, joinpath; apply Forall_app; split; apply Path_components.
Qed.

(** ** The directory handed to the build *)

(** The text of a path reads back as the path. *)
Lemma Path_str (b : path) :
  Forall (fun c => plain c = true ∧ kept c = true) b → Path (str b) = b.
Proof.
  intros Hwf. destruct b as [|c b _] using rev_ind; [done|].
  rewrite <- (append_nil_r (str _)). unfold Path.
  rewrite split_path_str; [|eapply Forall_impl; [exact Hwf|by intros ? [? _]]|done].
  rewrite append_nil_r. apply forallb_filter_id, forallb_forall. intros x Hx.
  rewrite List.Forall_forall in Hwf. by apply Hwf.
Qed.

Lemma then_ret_returned {A B} (m : prog A) (r g : B) (w w' : World) :
  (m ;; ret r) w = (Returned g, w') → g = r.
Proof.
  unfold bind, ret. destruct (m w) as [[a|e|c] w1]; [|discriminate..].
  by intros [= <- _].
Qed.

Lemma ret_returned {A} (a g : A) (w w' : World) :
  ret a w = (Returned g, w') → g = a.
Proof. unfold ret. by intros [= <- _]. Qed.

Lemma acquire_gtk_chosen (X : Externals) (args : Args) (meta : CargoMetadata)
    (w w' : World) (gtk : path) :
  acquire_gtk X args meta w = (Returned gtk, w') →
  gtk = if download_gtk args then joinpath (cache_dir meta) "bin"
        else Path "C:/gtk-build/gtk/x64/release/bin".
Proof.
  unfold acquire_gtk. destruct (download_gtk args); [|apply ret_returned].
  unfold download_gtk_branch. rewrite !bind_print.
  rewrite (bind_returned (path_exists _) _ _ _ _ eq_refl).
  apply then_ret_returned.
Qed.

(** X20: the build is pointed at the directory the script chose: the
    text handed to [build_rust_binary] reads back, with [Path], as that
    very directory, be it the fixed one or the one in the cache. *)
Theorem build_sees_chosen_toolkit (X : Externals) (args : Args) (meta : CargoMetadata)
    (w w' : World) (gtk : path) :
  acquire_gtk X args meta w = (Returned gtk, w') →
  Path (str gtk) = gtk.
Proof.
  intros ->%acquire_gtk_chosen. apply Path_str.
  destruct (download_gtk args); [|apply Path_components].
  unfold cache_dir, joinpath. rewrite !Forall_app. repeat split; apply Path_components.
Qed.

(** ** What a run has done when the archive and the windows are left *)

Lemma bind_returned_inv {A B} (m : prog A) (k : A → prog B) (w w' : World) (b : B) :
  bind m k w = (Returned b, w') →
  ∃ a w1, m w = (Returned a, w1) ∧ k a w1 = (Returned b, w').
Proof. unfold bind. destruct (m w) as [[a|e|c] w1]; try discriminate. eauto. Qed.

(** A run that did not return. *)
Lemma bind_stopped {A B} (m : prog A) (k : A → prog B) (w : World) :
  (∀ a, (m w).1 ≠ Returned a) →
  (∀ b, (bind m k w).1 ≠ Returned b) ∧ (bind m k w).2 = (m w).2.
Proof.
  unfold bind. destruct (m w) as [[a|e|c] w1]; simpl; intros H; [by destruct (H a)|done..].
Qed.

Lemma copy2_fs_inv (src dst : path) (f f' : gmap path node) :
  copy2_fs src dst f = inr f' →
  ∃ n, f !! src = Some n ∧ n ≠ Dir ∧
       let target := if is_dir f dst then dst ++ [name src] else dst in
       target ≠ src ∧ f' = <[target := n]> f.
Proof.
  unfold copy2_fs. set (target := if is_dir f dst then _ else _).
  destruct (f !! src) as [n|] eqn:Hsrc; simpl; [|discriminate].
  case_bool_decide as Hsame; simpl; [discriminate|].
  destruct n as [c| |c]; [|discriminate|];
    (destruct (f !! target) as [[c'| |c']|]; try discriminate;
     (destruct (is_dir f (parent target)); [|discriminate]); intros [= <-];
     eexists; repeat split; done).
Qed.

(** What the loop returns, it has retained from lines that all were
    messages. *)
Lemma find_binaries_inv (X : Externals) (lines : list string) (acc bins : list pyval) :
  find_binaries X lines acc = Returned bins →
  ∃ msgs, Forall2 (fun line msg => json_loads X line = inr msg) lines msgs ∧
          bins = acc ++ omap retained msgs.
Proof.
  revert acc. induction lines as [|line rest IH]; intros acc H.
  - simpl in H. injection H as <-. exists []. rewrite app_nil_r. by split; [constructor|].
  - assert (∃ msg, json_loads X line = inr msg ∧ build_message msg) as (msg & Hload & Hmsg).
    { simpl in H. destruct (json_loads X line) as [e|msg]; [discriminate|].
      exists msg. split; [done|]. simpl in H.
      destruct msg as [| | | | | |d]; try discriminate. simpl in H.
      destruct (assoc "reason" d) as [reason|] eqn:Hr; [|discriminate].
      exists reason. split; [done|]. intros Heq. simpl in *.
      unfold ne_str in H. rewrite Heq in H. simpl in H.
      destruct (assoc "executable" d); [by eauto|discriminate]. }
    rewrite (find_binaries_step X _ _ _ _ Hload Hmsg) in H.
    destruct (IH _ H) as (msgs & H2 & ->). exists (msg :: msgs).
    split; [by constructor|]. rewrite <- app_assoc. f_equal. simpl.
    by destruct (retained msg).
Qed.

Lemma retained_str (msg v : pyval) : retained msg = Some v → ∃ exe, v = PStr exe.
Proof.
  unfold retained.
  destruct (field msg "reason") as [[]|]; try discriminate.
  destruct (field msg "executable") as [[]|]; try discriminate.
  destruct (_ && _); [|discriminate]. intros [= <-]. eauto.
Qed.

(** The captured build returns only when cargo ended with status 0. *)
Lemma start_build_returned_inv (X : Externals) (r : nat) (w w' : World)
    (e : gmap string string) (res : proc_result) :
  dicts w !! r = Some e →
  start_build X r w = (Returned res, w') →
  ∃ f', run_process X build_argv (Some (script_dir X)) e (fs w) = (inr res, f') ∧
        returncode res = 0 ∧ fs w' = f'.
Proof.
  intros Hr. unfold start_build, try_except, subprocess_run. simpl. rewrite Hr.
  fold build_argv.
  destruct (run_process X build_argv (Some (script_dir X)) e (fs w)) as [[err|res'] f'];
    simpl.
  - unfold bind, print, subprocess_run, raise. simpl. rewrite Hr.
    destruct (run_process X _ _ e f') as [[?|?] ?]; simpl; discriminate.
  - destruct (returncode res' =? 0) eqn:Hz; simpl.
    + intros [= <- <-]. exists f'. by apply Z.eqb_eq in Hz.
    + unfold bind, print, subprocess_run, raise. simpl. rewrite Hr.
      destruct (run_process X _ _ e f') as [[?|?] ?]; simpl; discriminate.
Qed.

(** [build_rust_binary] returns only what cargo reported: the one
    executable retained from the output of a build that ended with
    status 0, run with the environment made from [os.environ]. *)
Lemma build_rust_binary_returned_inv (X : Externals) (g : string) (w w' : World)
    (v : pyval) :
  build_rust_binary X g w = (Returned v, w') →
  ∃ env0 p l exe,
    dicts w !! os_environ = Some env0 ∧ env0 !! "PATH" = Some p ∧ env0 !! "LIB" = Some l ∧
    v = PStr exe ∧ cargo_builds X (child_env (Path g) env0 p l) (fs w) (fs w') exe.
Proof.
  intros H. unfold build_rust_binary in H.
  destruct (dicts w !! os_environ) as [env0|] eqn:H0.
  2: { unfold gtk_env, bind, dict_copy in H. rewrite H0 in H. discriminate. }
  destruct (env0 !! "PATH") as [p|] eqn:Hp.
  2: { destruct (gtk_env_missing (Path g) w env0 H0) as (w1 & Hg & _); [by left|].
       unfold bind in H. rewrite Hg in H. discriminate. }
  destruct (env0 !! "LIB") as [l|] eqn:Hl.
  2: { destruct (gtk_env_missing (Path g) w env0 H0) as (w1 & Hg & _); [by right|].
       unfold bind in H. rewrite Hg in H. discriminate. }
  rewrite (bind_returned _ _ _ _ _ (gtk_env_ok (Path g) w env0 p l H0 Hp Hl)) in H.
  apply bind_returned_inv in H as (res & w2 & Hstart & Hfind).
  apply (start_build_returned_inv X _ _ _ (child_env (Path g) env0 p l)) in Hstart
    as (f' & Hrun & Hz & Hfs); [|simpl; by rewrite lookup_insert_eq].
  simpl in Hrun.
  pose proof (find_built_binary_world X res w2) as Hw. rewrite Hfind in Hw. simpl in Hw.
  subst w'.
  unfold find_built_binary, bind, lift, raise in Hfind.
  destruct (decode_utf8 X (stdout res)) as [e|text] eqn:Hdec; [discriminate|].
  simpl in Hfind.
  destruct (find_binaries X (splitlines X text) []) as [bins|e|c] eqn:Hbins;
    try discriminate.
  simpl in Hfind.
  destruct (Z.eqb_spec (Z.of_nat (length bins)) 1) as [Hlen|Hlen]; simpl in Hfind;
    [|discriminate].
  destruct bins as [|b0 [|b1 bins]]; simpl length in Hlen; try lia.
  simpl in Hfind. injection Hfind as ->.
  apply find_binaries_inv in Hbins as (msgs & Hmsgs & Hret). simpl in Hret.
  assert (∃ exe, v = PStr exe) as [exe ->].
  { assert (v ∈ omap retained msgs) as Hin by (rewrite <- Hret; left).
    apply list_elem_of_omap in Hin as (msg & _ & Hmsg). by apply retained_str in Hmsg. }
  exists env0, p, l, exe. repeat split; try done.
  exists res, text, msgs. rewrite Hfs. done.
Qed.

Lemma assemble_bundle_same_environ (gtk : path) (meta : CargoMetadata) :
  respects same_environ (assemble_bundle gtk meta).
Proof.
  unfold assemble_bundle.
  repeat first [apply copy_dlls_same_environ | environ_steps].
Qed.

(** The run stops at the step whose result [H] gives. *)
Ltac stops_at H :=
  left;
  lazymatch goal with
  | |- (∀ a, (bind ?m ?k ?w0).1 ≠ _) ∧ _ =>
      let Hs := fresh in let Hw := fresh in
      destruct (bind_stopped m k w0) as [Hs Hw]; [by rewrite H|];
      split; [exact Hs|]; rewrite Hw, H; simpl;
      repeat first [eassumption | eapply logged_trans; [eassumption|]]
  end.

Ltac prints_logged :=
  repeat (eapply logged_trans; [|apply logged_emit, backstage_print]);
  first [apply logged_refl | eassumption].

(** The part of the script after the choice of the toolkit either stops
    before the archive, having shown nothing, or gets to the archive and
    the windows with the bundle directory assembled, the executable
    built and its copy in place. *)
Lemma bundle_from_closing (X : Externals) (args : Args) (meta : CargoMetadata)
    (gtk : path) (w : World) :
  ((∀ a, (bundle_from X args meta gtk w).1 ≠ Returned a) ∧
   logged backstage w (bundle_from X args meta gtk w).2)
  ∨ ∃ env0 exe w5,
      dicts w !! os_environ = Some env0 ∧
      ready X meta gtk env0 (fs w) (fs w5) exe ∧
      logged backstage w w5 ∧
      bundle_from X args meta gtk w
        = archive_and_reveal X args (bundle_dir_of meta)
            (joinpath (bundle_dir_of meta) (name (Path exe))) w5.
Proof.
  unfold bundle_from.
  rewrite (bind_returned (path_exists gtk) _ _ _ _ eq_refl).
  destruct (bool_decide (is_Some (fs w !! gtk)));
    [change (negb true) with false | change (negb false) with true]; cbv iota.
  2: { left. rewrite !bind_print. unfold exit. simpl. split; [done|]. prints_logged. }
  rewrite !bind_print.
  set (w1 := emit _ (emit _ w)).
  assert (logged backstage w w1) as L1 by (unfold w1; prints_logged).
  (* the assembly *)
  pose proof (assemble_bundle_logged backstage backstage_print gtk meta w1) as L2.
  pose proof (assemble_bundle_same_environ gtk meta w1) as D2.
  destruct (assemble_bundle gtk meta w1) as [o w2] eqn:Hasm.
  destruct o as [b|e|c].
  2,3: by stops_at Hasm.
  rewrite (bind_returned _ _ _ _ _ Hasm).
  apply assemble_bundle_disk in Hasm as [-> Hfs1]. simpl in L2, D2, Hfs1.
  rewrite !bind_print.
  set (w3 := emit _ (emit _ w2)).
  assert (logged backstage w w3) as L3.
  { assert (logged backstage w w2) by (eapply logged_trans; eauto).
    unfold w3. prints_logged. }
  (* the build *)
  pose proof (build_rust_binary_logged backstage backstage_print backstage_cargo
                X (str gtk) w3) as L4.
  destruct (build_rust_binary X (str gtk) w3) as [o w4] eqn:Hbuild.
  destruct o as [v|e|c].
  2,3: by stops_at Hbuild.
  rewrite (bind_returned _ _ _ _ _ Hbuild). simpl in L4.
  apply build_rust_binary_returned_inv in Hbuild
    as (env0 & p & l & exe & H0 & Hp & Hl & -> & Hcargo).
  rewrite bind_print.
  rewrite (bind_returned (lift (as_str (PStr exe))) _ _ _ exe eq_refl).
  rewrite !bind_print.
  set (w5 := emit _ (emit _ (emit _ (emit _ w4)))).
  assert (logged backstage w w5) as L5.
  { assert (logged backstage w w4) by (eapply logged_trans; eauto).
    unfold w5. prints_logged. }
  (* the copy *)
  assert (copy2 (Path exe) (joinpath (bundle_dir_of meta) (name (Path exe))) w5 =
            match copy2_fs (Path exe) (joinpath (bundle_dir_of meta) (name (Path exe)))
                    (fs w4) with
            | inl e => (Raised e, w5)
            | inr f => (Returned tt, with_fs f w5)
            end) as Hc by reflexivity.
  destruct (copy2_fs (Path exe) (joinpath (bundle_dir_of meta) (name (Path exe))) (fs w4))
    as [e|f] eqn:Hcopy.
  { by stops_at Hc. }
  rewrite (bind_returned _ _ _ _ _ Hc), bind_print.
  right. exists env0, exe, (emit (Print "") (with_fs f w5)).
  split; [|split; [|split; [|reflexivity]]].
  - unfold same_environ in D2. rewrite <- H0. simpl. unfold w3. simpl.
    rewrite D2. reflexivity.
  - exists p, l, (fs w2), (fs w4). repeat split; try done.
    apply copy2_fs_inv in Hcopy as (n & Hn & Hnd & Hne & ->). by exists n.
  - eapply logged_trans; [exact L5|].
    eapply logged_trans; [apply logged_with_fs|apply logged_emit, backstage_print].
Qed.

(** The same for the whole script. *)
Lemma bundle_closing (X : Externals) (args : Args) (w : World) :
  ((∀ a, (bundle X args w).1 ≠ Returned a) ∧ logged backstage w (bundle X args w).2)
  ∨ ∃ meta gtk wm w0 env0 exe w5,
      get_cargo_metadata X (emit (Print "") w) = (Returned meta, wm) ∧
      acquire_gtk X args meta wm = (Returned gtk, w0) ∧
      dicts w0 !! os_environ = Some env0 ∧
      ready X meta gtk env0 (fs w0) (fs w5) exe ∧
      logged backstage w w5 ∧
      bundle X args w
        = archive_and_reveal X args (bundle_dir_of meta)
            (joinpath (bundle_dir_of meta) (name (Path exe))) w5.
Proof.
  rewrite bundle_sequence, bind_print.
  assert (logged backstage w (emit (Print "") w)) as L0 by (by apply logged_emit).
  pose proof (get_cargo_metadata_logged backstage backstage_cargo X (emit (Print "") w))
    as L1.
  destruct (get_cargo_metadata X (emit (Print "") w)) as [o wm] eqn:Hmeta.
  destruct o as [meta|e|c].
  2,3: by stops_at Hmeta.
  rewrite (bind_returned _ _ _ _ _ Hmeta). simpl in L1.
  assert (logged backstage wm (acquire_gtk X args meta wm).2) as L2.
  { unfold acquire_gtk. destruct (download_gtk args); [|apply logged_refl].
    apply download_gtk_branch_logged;
      auto using backstage_print, backstage_get, backstage_open, backstage_extract. }
  destruct (acquire_gtk X args meta wm) as [o w0] eqn:Hacq.
  destruct o as [gtk|e|c].
  2,3: by stops_at Hacq.
  rewrite (bind_returned _ _ _ _ _ Hacq). simpl in L2.
  assert (logged backstage w w0) as L3.
  { eapply logged_trans; [exact L0|]. eapply logged_trans; eauto. }
  destruct (bundle_from_closing X args meta gtk w0)
    as [[Hstop Hlog] | (env0 & exe & w5 & H0 & Hready & Hlog & Heq)].
  - left. split; [done|]. eapply logged_trans; eauto.
  - right. exists meta, gtk, wm, w0, env0, exe, w5. repeat split; try done.
    eapply logged_trans; eauto.
Qed.

(** C8, as the code has it: in every run the window on the binary, when
    asked for, opens before the bundle directory is zipped, and the window
    on the archive, when asked for, after it; a run that ends early shows
    a beginning of that order, a run that returns shows all of it.
    Whatever is shown is shown by the last part of the script, which
    starts when the executable that cargo reported has been copied into
    the bundle directory: the window on the binary opens on a disk that
    holds the copy. *)
Theorem bundle_reveal_order (X : Externals) (args : Args) (w : World) :
  ∃ evs binary bundle_dir,
    log (bundle X args w).2 = log w ++ evs ∧
    presentation evs `prefix_of` expected args binary bundle_dir ∧
    (∀ a, (bundle X args w).1 = Returned a →
          presentation evs = expected args binary bundle_dir) ∧
    (presentation evs ≠ [] →
     ∃ meta gtk wm w0 env0 exe w5,
       get_cargo_metadata X (emit (Print "") w) = (Returned meta, wm) ∧
       acquire_gtk X args meta wm = (Returned gtk, w0) ∧
       dicts w0 !! os_environ = Some env0 ∧
       bundle_dir = bundle_dir_of meta ∧
       binary = joinpath bundle_dir (name (Path exe)) ∧
       ready X meta gtk env0 (fs w0) (fs w5) exe ∧
       bundle X args w = archive_and_reveal X args bundle_dir binary w5).
Proof.
  destruct (bundle_closing X args w)
    as [[Hstop (evs & Hlog & Hback)]
       | (meta & gtk & wm & w0 & env0 & exe & w5 & Hmeta & Hacq & H0 & Hready &
          (evs0 & Hlog0 & Hback0) & Heq)].
  - exists evs, [], []. apply presentation_backstage in Hback. rewrite Hback.
    split; [done|]. split; [apply prefix_nil|]. split; [|done].
    intros a Ha. by destruct (Hstop a).
  - destruct (archive_and_reveal_shows X args (bundle_dir_of meta)
                (joinpath (bundle_dir_of meta) (name (Path exe))) w5)
      as (evs1 & Hlog1 & Hpre & Hfull).
    rewrite <- Heq in Hlog1, Hfull.
    exists (evs0 ++ evs1), (joinpath (bundle_dir_of meta) (name (Path exe))),
      (bundle_dir_of meta).
    apply presentation_backstage in Hback0.
    rewrite presentation_app, Hback0. simpl.
    split; [by rewrite Hlog1, Hlog0, app_assoc|].
    split; [done|]. split; [done|]. intros _.
    exists meta, gtk, wm, w0, env0, exe, w5. by repeat split.
Qed.

(** C8, as stated, fails: with [--show-binary] the window on the binary
    opens before the bundle directory is zipped. *)
Lemma bundle_reveals_binary_before_archive :
  archive_first
    (presentation
       (log (bundle (Demo.externals Demo.listing Demo.release_ok)
               (Demo.args true false true) Demo.world).2))
  = false.
Proof. vm_compute. reflexivity. Qed.

(** ** What a run that succeeds leaves behind *)

(** X21: a run that gets past the choice of the toolkit and returns,
    without the two windows, has done this: it assembled the bundle
    directory, had cargo build with the environment made from
    [os.environ], copied the one executable cargo reported into the
    bundle directory under its name (into a directory of that name when
    there was one), and last wrote the archive, the zip of the bundle
    directory as it then was, at the text of the bundle directory with
    .zip after it. *)
Theorem bundle_from_delivers (X : Externals) (args : Args) (meta : CargoMetadata)
    (gtk : path) (w w' : World) :
  show_binary args = false →
  show_zip args = false →
  bundle_from X args meta gtk w = (Returned tt, w') →
  ∃ env0 exe f,
    dicts w !! os_environ = Some env0 ∧
    ready X meta gtk env0 (fs w) f exe ∧
    fs w' = <[Path (str (bundle_dir_of meta) +:+ ".zip") :=
                File (zip_bytes X (subtree f (bundle_dir_of meta)))]> f.
Proof.
  intros Hb Hz Hrun.
  destruct (bundle_from_closing X args meta gtk w)
    as [[Hstop _] | (env0 & exe & w5 & H0 & Hready & _ & Heq)].
  { rewrite Hrun in Hstop. by destruct (Hstop tt). }
  exists env0, exe, (fs w5). split; [done|]. split; [done|].
  rewrite Heq in Hrun. unfold archive_and_reveal in Hrun. rewrite Hb, Hz in Hrun.
  rewrite (bind_returned (ret tt) _ _ _ tt eq_refl), bind_print in Hrun.
  apply bind_returned_inv in Hrun as ([] & w6 & Harch & H).
  unfold make_archive in Harch. simpl in Harch.
  destruct (is_dir (fs w5) (bundle_dir_of meta)); [|discriminate].
  destruct (fs w5 !! Path (str (bundle_dir_of meta) +:+ ".zip")) as [[]|];
    try discriminate; injection Harch as <-;
    rewrite bind_print, (bind_returned (ret tt) _ _ _ tt eq_refl), !bind_print in H;
    by injection H as <-.
Qed.

(** ** The further statements at work *)

Lemma get_cargo_metadata_returns_witness :
  get_cargo_metadata Demo.X Demo.world =
    (Returned Demo.meta,
     emit (Spawn metadata_argv (Some (script_dir Demo.X)) Demo.parent_env)
       (with_fs (fs Demo.world) Demo.world)).
Proof.
  apply (get_cargo_metadata_returns Demo.X Demo.world Demo.parent_env
           {| returncode := 0; stdout := "META" |} (fs Demo.world) "META" Demo.meta_doc
           (PDict [("name", PStr "app")]) "C:\proj\target" "app"); reflexivity.
Defined.

Lemma bundle_stops_when_metadata_fails_witness :
  bundle Trouble.failing_cargo (Demo.args true true true) Demo.world =
    (Raised (CalledProcessError 101),
     emit (Spawn metadata_argv (Some (script_dir Trouble.failing_cargo)) Demo.parent_env)
       (with_fs (fs Demo.world) (emit (Print "") Demo.world))).
Proof.
  apply (bundle_stops_when_metadata_fails Trouble.failing_cargo (Demo.args true true true)
           Demo.world Demo.parent_env {| returncode := 101; stdout := "" |} (fs Demo.world)).
  - reflexivity.
  - reflexivity.
  - simpl. lia.
Defined.

Lemma get_cargo_metadata_present_members_witness :
  (∃ meta, (get_cargo_metadata Demo.X Demo.world).1 = Returned meta) ∨
  (∃ msg, (get_cargo_metadata Demo.X Demo.world).1 = Raised (ValueError msg)).
Proof.
  apply (get_cargo_metadata_present_members Demo.X Demo.world Demo.parent_env
           {| returncode := 0; stdout := "META" |} (fs Demo.world) "META" Demo.meta_doc
           (PStr "C:\proj\target") (PList [PDict [("name", PStr "app")]]));
    try reflexivity.
  intros pkg [= <-]. exists (PStr "app"). reflexivity.
Defined.

Lemma cargo_metadata_of_no_packages_witness :
  cargo_metadata_of (PDict [("target_directory", PStr "C:\proj\target"); ("packages", PList [])])
  = Raised (ValueError msg_no_packages).
Proof.
  apply (cargo_metadata_of_no_packages _ (PList []) "C:\proj\target");
    [reflexivity | reflexivity | left; reflexivity].
Defined.

Lemma find_binaries_stops_witness :
  find_binaries Demo.X (["LIB"] ++ "GARBAGE" :: ["APP"]) [] = Raised JSONDecodeError.
Proof.
  apply (proj1 (find_binaries_stops Demo.X ["LIB"] ["APP"] [Demo.artifact PNone] "GARBAGE"
                  ltac:(repeat constructor)
                  ltac:(repeat constructor; exists (PStr "compiler-artifact");
                        split; [reflexivity | intros _; exists PNone; reflexivity]))).
  reflexivity.
Defined.

Lemma build_rust_binary_returns_nonempty_str_witness :
  ∃ s, PStr "C:\proj\target\release\app.exe" = PStr s ∧ s ≠ "".
Proof.
  apply (build_rust_binary_returns_nonempty_str Demo.X "C:/gtk/bin" Demo.world
           (build_rust_binary Demo.X "C:/gtk/bin" Demo.world).2).
  apply run_returned. vm_compute. reflexivity.
Defined.

Lemma build_rust_binary_reruns_failed_build_witness :
  (build_rust_binary Trouble.failing_cargo "C:/gtk/bin" Demo.world).1
    = Raised (CalledProcessError 101).
Proof.
  apply (build_rust_binary_reruns_failed_build Trouble.failing_cargo "C:/gtk/bin" Demo.world
           Demo.parent_env "C:\Windows" "C:\sdk\lib"
           (inr {| returncode := 101; stdout := "" |})
           (inr {| returncode := 101; stdout := "" |})
           (fs Demo.world) (fs Demo.world) (CalledProcessError 101));
    reflexivity.
Defined.

Lemma selected_removes_one_separator_witness :
  selected ("C:\proj\target\release" +:+ String "/" "") = "C:\proj\target\release".
Proof. apply selected_removes_one_separator. reflexivity. Defined.

Lemma show_file_in_explorer_ignores_status_witness :
  show_file_in_explorer Demo.X "C:\proj\app.exe" Demo.world =
    (Returned tt,
     emit (Spawn ["explorer"; "/select,"; selected "C:\proj\app.exe"] None Demo.parent_env)
       (with_fs (fs Demo.world) Demo.world)).
Proof.
  apply (show_file_in_explorer_ignores_status Demo.X "C:\proj\app.exe" Demo.world
           Demo.parent_env {| returncode := 1; stdout := "" |} (fs Demo.world));
    reflexivity.
Defined.

Lemma bundle_exits_without_toolkit_witness :
  (bundle Demo.X (Demo.args true true false) Demo.world).1 = Exited 1.
Proof.
  apply (bundle_exits_without_toolkit Demo.X (Demo.args true true false) Demo.world
           (get_cargo_metadata Demo.X (emit (Print "") Demo.world)).2
           (get_cargo_metadata Demo.X (emit (Print "") Demo.world)).2
           Demo.meta (Path "C:/gtk-build/gtk/x64/release/bin")).
  - apply run_returned. vm_compute. reflexivity.
  - reflexivity.
  - vm_compute. reflexivity.
Defined.

Lemma download_gtk_branch_refuses_null_witness :
  (download_gtk_branch (Demo.answering 200 (PDict [("assets", PNone)])) Demo.meta
     Demo.world).1 = Exited 1.
Proof.
  apply (download_gtk_branch_refuses_null (Demo.answering 200 (PDict [("assets", PNone)]))
           Demo.meta Demo.world
           {| status_code := 200; body := inr (PDict [("assets", PNone)]) |}
           (PDict [("assets", PNone)])).
  - vm_compute. reflexivity.
  - reflexivity.
  - reflexivity.
  - reflexivity.
  - left. reflexivity.
Defined.

Lemma failed_download_leaves_cache_witness :
  (download_gtk_branch Trouble.unreachable_archive Demo.meta Demo.world).1
    = Raised ConnectionError ∧
  (download_gtk_branch Trouble.unreachable_archive Demo.meta
     (download_gtk_branch Trouble.unreachable_archive Demo.meta Demo.world).2).1
    = Returned (joinpath (cache_dir Demo.meta) "bin").
Proof.
  pose proof (failed_download_leaves_cache Trouble.unreachable_archive Demo.meta Demo.world
                {| status_code := 200;
                   body := inr (PDict [("assets", PList [Demo.other_asset; Demo.gtk_asset])]) |}
                "https://example.org/GTK4.zip" ConnectionError
                (match mkdir_from [] (cache_dir Demo.meta) (fs Demo.world) with
                 | inr f => f
                 | inl _ => ∅
                 end)) as H.
  destruct H as (H1 & _ & _ & H2 & _).
  - vm_compute. reflexivity.
  - reflexivity.
  - exists [Demo.other_asset; Demo.gtk_asset], Demo.gtk_asset.
    split; [|repeat split; reflexivity].
    split; [reflexivity|]. eexists. split; [reflexivity|]. split; [reflexivity|].
    repeat constructor; by eexists.
  - apply disk_written. vm_compute. exact I.
  - reflexivity.
  - by split.
Defined.

Lemma bundle_offline_witness :
  ∃ evs, log (bundle Demo.X (Demo.args true true true) Demo.cached_world).2
           = log Demo.cached_world ++ evs ∧ transfers evs = [].
Proof.
  apply (bundle_offline Demo.X (Demo.args true true true) Demo.cached_world).
  intros _ meta w1 H.
  rewrite (run_returned (get_cargo_metadata Demo.X (emit (Print "") Demo.cached_world))
             Demo.meta) in H by (vm_compute; reflexivity).
  injection H as <- <-. exists Dir. vm_compute. reflexivity.
Defined.

Lemma bundle_without_flags_opens_no_window_witness :
  ∃ evs, log (bundle Demo.X (Demo.args false false true) Demo.world).2
           = log Demo.world ++ evs ∧ Forall (fun e => ¬ is_reveal e) evs.
Proof.
  apply (bundle_without_flags_opens_no_window Demo.X (Demo.args false false true) Demo.world);
    reflexivity.
Defined.

Lemma assemble_bundle_copies_witness :
  ∃ n, n ≠ Dir ∧
       fs Demo.cached_world !! (Demo.gtk_bin_dir ++ ["gdbus.exe"]) = Some n ∧
       fs Trouble.assembled_world
         !! (["C:"; "proj"; "target"; "release"; "app-bundled"] ++ ["gdbus.exe"])
         = Some n.
Proof.
  refine (proj1 (proj2 (assemble_bundle_copies Demo.gtk_bin_dir Demo.meta Demo.cached_world
                          Trouble.assembled_world
                          ["C:"; "proj"; "target"; "release"; "app-bundled"] _))).
  apply (run_returned (assemble_bundle Demo.gtk_bin_dir Demo.meta Demo.cached_world)).
  vm_compute. reflexivity.
Defined.

Lemma assemble_bundle_confined_witness :
  fs Trouble.assembled_world !! (Demo.gtk_bin_dir ++ ["gdbus.exe"])
    = fs Demo.cached_world !! (Demo.gtk_bin_dir ++ ["gdbus.exe"])
  ∨ (below ["C:"; "proj"; "target"; "release"; "app-bundled"]
       (Demo.gtk_bin_dir ++ ["gdbus.exe"]) ∧
     overwritable (fs Demo.cached_world !! (Demo.gtk_bin_dir ++ ["gdbus.exe"])) ∧
     ∃ n, n ≠ Dir ∧
          fs Trouble.assembled_world !! (Demo.gtk_bin_dir ++ ["gdbus.exe"]) = Some n)
  ∨ ((on_the_way [] ["C:"; "proj"; "target"; "release"; "app-bundled"]
        (Demo.gtk_bin_dir ++ ["gdbus.exe"]) ∨
      below ["C:"; "proj"; "target"; "release"; "app-bundled"]
        (Demo.gtk_bin_dir ++ ["gdbus.exe"])) ∧
     fs Demo.cached_world !! (Demo.gtk_bin_dir ++ ["gdbus.exe"]) = None ∧
     fs Trouble.assembled_world !! (Demo.gtk_bin_dir ++ ["gdbus.exe"]) = Some Dir).
Proof.
  refine (assemble_bundle_confined Demo.gtk_bin_dir Demo.meta Demo.cached_world
            Trouble.assembled_world ["C:"; "proj"; "target"; "release"; "app-bundled"] _
            (Demo.gtk_bin_dir ++ ["gdbus.exe"])).
  apply (run_returned (assemble_bundle Demo.gtk_bin_dir Demo.meta Demo.cached_world)).
  vm_compute. reflexivity.
Defined.

Lemma archive_where_announced_witness :
  fs (make_archive Demo.X (str (bundle_dir_of Demo.meta)) (bundle_dir_of Demo.meta)
        Trouble.assembled_world).2
    !! with_suffix (bundle_dir_of Demo.meta) ".zip"
  = Some (File (zip_bytes Demo.X
                  (subtree (fs Trouble.assembled_world) (bundle_dir_of Demo.meta)))).
Proof.
  refine (proj1 (archive_where_announced Demo.X Demo.meta Trouble.assembled_world
                   (make_archive Demo.X (str (bundle_dir_of Demo.meta))
                      (bundle_dir_of Demo.meta) Trouble.assembled_world).2 eq_refl _)).
  apply (run_returned (make_archive Demo.X (str (bundle_dir_of Demo.meta))
                         (bundle_dir_of Demo.meta) Trouble.assembled_world)).
  vm_compute. reflexivity.
Defined.

Lemma build_sees_chosen_toolkit_witness :
  Path (str Demo.gtk_bin_dir) = Demo.gtk_bin_dir.
Proof.
  apply (build_sees_chosen_toolkit Demo.X (Demo.args false false true) Demo.meta
           Demo.cached_world (download_gtk_branch Demo.X Demo.meta Demo.cached_world).2).
  apply (run_returned (download_gtk_branch Demo.X Demo.meta Demo.cached_world)).
  vm_compute. reflexivity.
Defined.

Lemma bundle_from_delivers_witness :
  ∃ env0 exe f,
    dicts Demo.cached_world !! os_environ = Some env0 ∧
    ready Demo.X Demo.meta Demo.gtk_bin_dir env0 (fs Demo.cached_world) f exe ∧
    fs (bundle_from Demo.X (Demo.args false false true) Demo.meta Demo.gtk_bin_dir
          Demo.cached_world).2
      = <[Path (str (bundle_dir_of Demo.meta) +:+ ".zip") :=
            File (zip_bytes Demo.X (subtree f (bundle_dir_of Demo.meta)))]> f.
Proof.
  refine (bundle_from_delivers Demo.X (Demo.args false false true) Demo.meta
            Demo.gtk_bin_dir Demo.cached_world
            (bundle_from Demo.X (Demo.args false false true) Demo.meta Demo.gtk_bin_dir
               Demo.cached_world).2 eq_refl eq_refl _).
  apply (run_returned (bundle_from Demo.X (Demo.args false false true) Demo.meta
                         Demo.gtk_bin_dir Demo.cached_world)).
  vm_compute. reflexivity.
Defined.

Lemma bundle_reveal_order_witness :
  ∃ evs binary bundle_dir,
    log (bundle Demo.X (Demo.args true true true) Demo.world).2 = log Demo.world ++ evs ∧
    presentation evs `prefix_of` expected (Demo.args true true true) binary bundle_dir ∧
    (∀ a, (bundle Demo.X (Demo.args true true true) Demo.world).1 = Returned a →
          presentation evs = expected (Demo.args true true true) binary bundle_dir) ∧
    (presentation evs ≠ [] →
     ∃ meta gtk wm w0 env0 exe w5,
       get_cargo_metadata Demo.X (emit (Print "") Demo.world) = (Returned meta, wm) ∧
       acquire_gtk Demo.X (Demo.args true true true) meta wm = (Returned gtk, w0) ∧
       dicts w0 !! os_environ = Some env0 ∧
       bundle_dir = bundle_dir_of meta ∧
       binary = joinpath bundle_dir (name (Path exe)) ∧
       ready Demo.X meta gtk env0 (fs w0) (fs w5) exe ∧
       bundle Demo.X (Demo.args true true true) Demo.world
         = archive_and_reveal Demo.X (Demo.args true true true) bundle_dir binary w5).
Proof. exact (bundle_reveal_order Demo.X (Demo.args true true true) Demo.world). Defined.
